(** * Concurrent book scraper: a shallow embedding of [main.py]

    The development follows the layout of the program: Python text and
    number primitives first, then the values the parsing collaborators hand
    back (decoded JSON, the BeautifulSoup tree), the [Book] record, the
    fetcher, the three extractors, the orchestrator and the aggregator, and
    last an interleaving model of the permit pool. *)

From Stdlib Require Import ZArith NArith List Bool String Ascii Lia.
From Stdlib Require Import Floats.SpecFloat.
From Stdlib Require Import Sorting.Permutation Sorting.Sorted.
Import ListNotations.

Set Warnings "-register-all".
Local Open Scope Z_scope.

(* ================================================================== *)
(** * Python [str]: sequences of Unicode code points                   *)
(* ================================================================== *)

Module PyStr.

Definition char := N.
Definition str := list char.

(** An ASCII literal of the source as a [str]. *)
Definition lit (s : string) : str :=
  List.map N_of_ascii (list_ascii_of_string s).

Fixpoint eqb (a b : str) : bool :=
  match a, b with
  | [], [] => true
  | x :: a', y :: b' => N.eqb x y && eqb a' b'
  | _, _ => false
  end.

(** [str.isspace] on one code point: the table of CPython's
    [_PyUnicode_IsWhitespace]. *)
Definition whitespace_table : list N :=
  [9; 10; 11; 12; 13; 28; 29; 30; 31; 32; 133; 160; 5760;
   8192; 8193; 8194; 8195; 8196; 8197; 8198; 8199; 8200; 8201; 8202;
   8232; 8233; 8239; 8287; 12288]%N.

Definition isspace (c : char) : bool :=
  existsb (N.eqb c) whitespace_table.

Fixpoint lstrip (s : str) : str :=
  match s with
  | c :: s' => if isspace c then lstrip s' else s
  | [] => []
  end.

Definition rstrip (s : str) : str := rev (lstrip (rev s)).

(** [s.strip()] *)
Definition strip (s : str) : str := rstrip (lstrip s).

(** [s.startswith(p)], returning what follows the prefix. *)
Fixpoint strip_prefix (p s : str) : option str :=
  match p, s with
  | [], _ => Some s
  | x :: p', y :: s' => if N.eqb x y then strip_prefix p' s' else None
  | _ :: _, [] => None
  end.

(** [s.split(sep, 1)] when [sep] occurs in [s]: the text before the first
    occurrence and the text after it; [None] when [sep] does not occur. *)
Fixpoint split_once (sep s : str) : option (str * str) :=
  match strip_prefix sep s with
  | Some after => Some ([], after)
  | None =>
      match s with
      | [] => None
      | c :: s' =>
          match split_once sep s' with
          | Some (before, after) => Some (c :: before, after)
          | None => None
          end
      end
  end.

(** [sep in s] *)
Definition contains (sep s : str) : bool :=
  match split_once sep s with Some _ => true | None => false end.

(** [s.replace(old, new)]: left to right, occurrences do not overlap.
    [skip] counts the characters of a matched [old] still to be dropped. *)
Fixpoint replace_from (old new s : str) (skip : nat) : str :=
  match s with
  | [] => []
  | c :: s' =>
      match skip with
      | S k => replace_from old new s' k
      | O =>
          match strip_prefix old s with
          | Some _ => new ++ replace_from old new s' (List.length old - 1)
          | None => c :: replace_from old new s' 0
          end
      end
  end.

Definition replace (old new s : str) : str :=
  match old with
  | [] => new ++ flat_map (fun c => c :: new) s
  | _ :: _ => replace_from old new s 0
  end.

(** [sep.join(parts)] *)
Fixpoint join (sep : str) (parts : list str) : str :=
  match parts with
  | [] => []
  | [p] => p
  | p :: rest => p ++ sep ++ join sep rest
  end.

(** [str(n)] for an [int]: decimal digits, most significant first. *)
Fixpoint uint_digits (u : Decimal.uint) : str :=
  match u with
  | Decimal.Nil => []
  | Decimal.D0 u' => 48%N :: uint_digits u'
  | Decimal.D1 u' => 49%N :: uint_digits u'
  | Decimal.D2 u' => 50%N :: uint_digits u'
  | Decimal.D3 u' => 51%N :: uint_digits u'
  | Decimal.D4 u' => 52%N :: uint_digits u'
  | Decimal.D5 u' => 53%N :: uint_digits u'
  | Decimal.D6 u' => 54%N :: uint_digits u'
  | Decimal.D7 u' => 55%N :: uint_digits u'
  | Decimal.D8 u' => 56%N :: uint_digits u'
  | Decimal.D9 u' => 57%N :: uint_digits u'
  end.

Definition of_Z (z : Z) : str :=
  match z with
  | Z0 => [48%N]
  | Zpos p => uint_digits (Pos.to_uint p)
  | Zneg p => 45%N :: uint_digits (Pos.to_uint p)
  end.

(** No whitespace at either end: what [strip] establishes. *)
Definition starts_blank (s : str) : bool :=
  match s with
  | c :: _ => isspace c
  | [] => false
  end.

Definition trimmed (s : str) : bool :=
  negb (starts_blank s) && negb (starts_blank (rev s)).

End PyStr.

Import PyStr.

(* ================================================================== *)
(** * Python [float]: IEEE 754 binary64, and the builtin [float(str)]   *)
(* ================================================================== *)

Module PyFloat.

Definition float := spec_float.
Definition prec : Z := 53.
Definition emax : Z := 1024.

Definition zero : float := S754_zero false.
Definition inf : float := S754_infinity false.

(** [a < b] and [a <= b] on floats (false as soon as one side is NaN). *)
Definition ltb (a b : float) : bool := SFltb a b.
Definition leb (a b : float) : bool := SFleb a b.

(** [bool(x)]: only the two zeros are falsy. *)
Definition truthy (x : float) : bool :=
  match x with S754_zero _ => false | _ => true end.

Definition is_nan (x : float) : bool :=
  match x with S754_nan => true | _ => false end.

(** The sign bit of [x] is [neg]; NaN carries no sign here. *)
Definition has_sign (neg : bool) (x : float) : bool :=
  match x with
  | S754_nan => true
  | S754_zero s | S754_infinity s | S754_finite s _ _ => Bool.eqb s neg
  end.

(** [0.0 <= x] *)
Definition nonnegative (x : float) : bool := leb zero x.

(** The binary64 nearest to [(-1)^neg * m * 10^e], ties to even: what
    CPython's [_Py_dg_strtod] returns for the decimal it has read. *)
Definition of_decimal (neg : bool) (m : N) (e : Z) : float :=
  match m with
  | N0 => S754_zero neg
  | Npos p =>
      if 0 <=? e then
        binary_round prec emax neg (p * Z.to_pos (10 ^ e))%positive 0
      else
        let '(q, e', l) :=
          SFdiv_core_binary prec emax (Zpos p) 0 (10 ^ (- e)) 0 in
        binary_round_aux prec emax neg q e' l
  end.

(** ** Reading the text *)

(** [Py_UNICODE_TODECIMAL]: every decimal digit of Unicode 14.0 sits in a
    run of ten consecutive code points; the table lists each run's zero. *)
Definition decimal_zero_table : list N :=
  [48; 1632; 1776; 1984; 2406; 2534; 2662; 2790; 2918; 3046; 3174; 3302;
   3430; 3558; 3664; 3792; 3872; 4160; 4240; 6112; 6160; 6470; 6608; 6784;
   6800; 6992; 7088; 7232; 7248; 42528; 43216; 43264; 43472; 43504; 43600;
   44016; 65296; 66720; 68912; 69734; 69872; 69942; 70096; 70384; 70736;
   70864; 71248; 71360; 71472; 71904; 72016; 72784; 73040; 73120; 92768;
   92864; 93008; 120782; 120792; 120802; 120812; 120822; 123200; 123632;
   125264; 130032]%N.

Definition to_decimal (c : char) : option N :=
  match find (fun z => (z <=? c) && (c <? z + 10))%N decimal_zero_table with
  | Some z => Some (c - z)%N
  | None => None
  end.

(** [_PyUnicode_TransformDecimalAndSpaceToASCII]: ASCII is kept, any other
    whitespace becomes a space, any other decimal digit its ASCII digit;
    anything else makes the conversion fail. *)
Fixpoint to_ascii (s : str) : option str :=
  match s with
  | [] => Some []
  | c :: s' =>
      let oc :=
        if (c <? 127)%N then Some c
        else if isspace c then Some 32%N
        else match to_decimal c with
             | Some d => Some (48 + d)%N
             | None => None
             end in
      match oc, to_ascii s' with
      | Some a, Some r => Some (a :: r)
      | _, _ => None
      end
  end.

Definition is_digit (c : char) : bool := ((48 <=? c) && (c <=? 57))%N.
Definition underscore : char := 95%N.
Definition minus_sign : char := 45%N.

(** [_Py_string_to_number_with_underscores]: an underscore is dropped when
    it stands between two digits and is an error anywhere else. [prev] is
    the character before [s], if any. *)
Fixpoint drop_underscores (prev : option char) (s : str) : option str :=
  match s with
  | [] =>
      match prev with
      | Some p => if N.eqb p underscore then None else Some []
      | None => Some []
      end
  | c :: s' =>
      if N.eqb c underscore then
        match prev with
        | Some p => if is_digit p then drop_underscores (Some c) s' else None
        | None => None
        end
      else
        let bad :=
          match prev with
          | Some p => N.eqb p underscore && negb (is_digit c)
          | None => false
          end in
        if bad then None
        else match drop_underscores (Some c) s' with
             | Some r => Some (c :: r)
             | None => None
             end
  end.

(** [Py_ISSPACE]: the six ASCII blanks. *)
Definition c_isspace (c : char) : bool :=
  existsb (N.eqb c) [9; 10; 11; 12; 13; 32]%N.

Fixpoint c_lstrip (s : str) : str :=
  match s with
  | c :: s' => if c_isspace c then c_lstrip s' else s
  | [] => []
  end.

Definition c_strip (s : str) : str := rev (c_lstrip (rev (c_lstrip s))).

(** The longest run of ASCII digits at the head of [s], and the rest. *)
Fixpoint span_digits (s : str) : str * str :=
  match s with
  | c :: s' =>
      if is_digit c then let '(d, r) := span_digits s' in (c :: d, r)
      else ([], s)
  | [] => ([], [])
  end.

Definition digits_value (d : str) : N :=
  fold_left (fun acc c => acc * 10 + (c - 48))%N d 0%N.

Definition to_lower (c : char) : char :=
  if ((65 <=? c) && (c <=? 90))%N then (c + 32)%N else c.

Definition take_sign (s : str) : bool * str :=
  match s with
  | 45%N :: r => (true, r)
  | 43%N :: r => (false, r)
  | _ => (false, s)
  end.

(** The exponent part: empty, or [e], an optional sign and digits. *)
Definition read_exponent (s : str) : option Z :=
  match s with
  | [] => Some 0
  | c :: r =>
      if N.eqb (to_lower c) 101 then
        let '(eneg, r1) := take_sign r in
        match span_digits r1 with
        | ((_ :: _) as d, []) =>
            let v := Z.of_N (digits_value d) in
            Some (if eneg then - v else v)
        | _ => None
        end
      else None
  end.

(** A decimal numeral: digits with an optional point and an optional
    exponent, at least one digit before the exponent. *)
Definition read_decimal (neg : bool) (s : str) : option float :=
  let '(ip, r) := span_digits s in
  let '(fp, r1) :=
    match r with
    | 46%N :: r' => span_digits r'
    | _ => ([], r)
    end in
  match ip ++ fp with
  | [] => None
  | (_ :: _) as ds =>
      match read_exponent r1 with
      | Some e =>
          Some (of_decimal neg (digits_value ds)
                           (e - Z.of_nat (List.length fp)))
      | None => None
      end
  end.

(** [_Py_parse_inf_or_nan] on the text after the sign. *)
Definition read_inf_or_nan (neg : bool) (s : str) : option float :=
  let l := List.map to_lower s in
  if PyStr.eqb l (lit "inf") || PyStr.eqb l (lit "infinity")
  then Some (S754_infinity neg)
  else if PyStr.eqb l (lit "nan") then Some S754_nan
  else None.

Definition read_number (s : str) : option float :=
  let '(neg, r) := take_sign s in
  match read_decimal neg r with
  | Some x => Some x
  | None => read_inf_or_nan neg r
  end.

(** [float(s)]: [None] stands for the [ValueError]. *)
Definition of_str (s : str) : option float :=
  match to_ascii s with
  | None => None
  | Some a =>
      match drop_underscores None a with
      | None => None
      | Some b => read_number (c_strip b)
      end
  end.

End PyFloat.

Import PyFloat.

(* ================================================================== *)
(** * Exceptions, results and the log                                   *)
(* ================================================================== *)

(** The [Exception] subclasses the program can meet: the ones its own
    expressions raise, and whatever a collaborator raises ([External],
    named: a transport error, a timeout, a decoding error...). *)
Inductive exn : Type :=
| AttributeError
| TypeError
| KeyError
| IndexError
| ValueError
| External (name : string).

Inductive result (A : Type) : Type :=
| Ok (a : A)
| Raise (e : exn).

Arguments Ok {A} a.
Arguments Raise {A} e.

Definition bind {A B} (r : result A) (k : A -> result B) : result B :=
  match r with
  | Ok a => k a
  | Raise e => Raise e
  end.

Declare Scope py_scope.
Delimit Scope py_scope with py.
Notation "x <- r ;; k" := (bind r (fun x => k))
  (at level 61, r at next level, right associativity) : py_scope.
Open Scope py_scope.

(** One line written through [logger]. [ErrorExn p e] is the line
    [f"{p}{str(e)}"]; [InfoElapsed] is the timing line of the orchestrator,
    whose number comes from the wall clock. *)
Inductive log_line : Type :=
| Info (msg : str)
| Error (msg : str)
| ErrorExn (prefix : str) (e : exn)
| InfoElapsed.

Definition is_error (l : log_line) : bool :=
  match l with
  | Error _ | ErrorExn _ _ => true
  | Info _ | InfoElapsed => false
  end.

(* ================================================================== *)
(** * Values decoded by [json.loads]                                    *)
(* ================================================================== *)

(** The items of a [dict] are kept in insertion order, keys unique (the
    decoder keeps the last of duplicated keys). *)
Inductive value : Type :=
| VNone
| VBool (b : bool)
| VInt (z : Z)
| VFloat (x : float)
| VStr (s : str)
| VList (l : list value)
| VDict (items : list (str * value)).

Fixpoint dict_lookup (key : str) (items : list (str * value)) : option value :=
  match items with
  | [] => None
  | (k, v) :: rest => if PyStr.eqb k key then Some v else dict_lookup key rest
  end.

(** [v.get(key, default)]: only a [dict] has the method. *)
Definition py_get (v : value) (key : str) (default : value) : result value :=
  match v with
  | VDict items =>
      match dict_lookup key items with
      | Some x => Ok x
      | None => Ok default
      end
  | _ => Raise AttributeError
  end.

(** [bool(v)] *)
Definition truthy (v : value) : bool :=
  match v with
  | VNone => false
  | VBool b => b
  | VInt z => negb (z =? 0)
  | VFloat x => PyFloat.truthy x
  | VStr s => match s with [] => false | _ => true end
  | VList l => match l with [] => false | _ => true end
  | VDict d => match d with [] => false | _ => true end
  end.

(** [v[0]] *)
Definition py_first (v : value) : result value :=
  match v with
  | VList (x :: _) => Ok x
  | VList [] => Raise IndexError
  | VStr (c :: _) => Ok (VStr [c])
  | VStr [] => Raise IndexError
  | VDict _ => Raise KeyError
  | VNone | VBool _ | VInt _ | VFloat _ => Raise TypeError
  end.

(** [list(v[:n])]: the elements a [for] loop over the slice visits. A
    [dict] cannot be sliced (no slice is one of its keys). *)
Definition py_slice_to (n : nat) (v : value) : result (list value) :=
  match v with
  | VList l => Ok (firstn n l)
  | VStr s => Ok (List.map (fun c => VStr [c]) (firstn n s))
  | VDict _ | VNone | VBool _ | VInt _ | VFloat _ => Raise TypeError
  end.

(* ================================================================== *)
(** * The tree built by [BeautifulSoup]                                 *)
(* ================================================================== *)

(** A [Tag] carries its name, its string-valued attributes, its [class]
    attribute (multi-valued: a list, [None] when the tag has none) and its
    contents; a [NavigableString] carries its text. *)
Inductive node : Type :=
| Elem (name : str) (attrs : list (str * str)) (cls : option (list str))
       (contents : list node)
| Text (s : str).

(** The tags below [n], in document order. *)
Fixpoint descendants (n : node) : list node :=
  match n with
  | Text _ => []
  | Elem _ _ _ contents =>
      (fix go (l : list node) : list node :=
         match l with
         | [] => []
         | Text _ :: r => go r
         | (Elem _ _ _ _ as t) :: r => t :: descendants t ++ go r
         end) contents
  end.

(** [n.text]: every string below [n], concatenated. *)
Fixpoint text (n : node) : str :=
  match n with
  | Text s => s
  | Elem _ _ _ contents =>
      (fix go (l : list node) : str :=
         match l with
         | [] => []
         | c :: r => text c ++ go r
         end) contents
  end.

(** [class_=c]: some class of the tag is [c], or the whole attribute,
    its classes joined by single spaces, is [c]. *)
Definition class_matches (c : str) (cls : option (list str)) : bool :=
  match cls with
  | None => false
  | Some l => existsb (PyStr.eqb c) l || PyStr.eqb (join (lit " ") l) c
  end.

Definition tag_matches (name : str) (class_ : option str) (n : node) : bool :=
  match n with
  | Text _ => false
  | Elem nm _ cls _ =>
      PyStr.eqb nm name &&
      match class_ with
      | None => true
      | Some c => class_matches c cls
      end
  end.

(** [n.find_all(name, class_=...)] and [n.find(name, class_=...)] *)
Definition find_all (n : node) (name : str) (class_ : option str) : list node :=
  filter (tag_matches name class_) (descendants n).

Definition find (n : node) (name : str) (class_ : option str) : option node :=
  hd_error (find_all n name class_).

(** [n.get(key, default)] for a string-valued attribute. *)
Fixpoint attr_lookup (key : str) (attrs : list (str * str)) : option str :=
  match attrs with
  | [] => None
  | (k, v) :: rest => if PyStr.eqb k key then Some v else attr_lookup key rest
  end.

Definition get (n : node) (key : str) (default : str) : str :=
  match n with
  | Elem _ attrs _ _ =>
      match attr_lookup key attrs with
      | Some v => v
      | None => default
      end
  | Text _ => default
  end.

(** [n.get('class')] *)
Definition get_class (n : node) : option (list str) :=
  match n with
  | Elem _ _ cls _ => cls
  | Text _ => None
  end.

(* ================================================================== *)
(** * The record                                                        *)
(* ================================================================== *)

(** [Book]: the dataclass checks no types, so the fields the extractors fill
    from decoded JSON hold whatever value the document had. *)
Record Book : Type := {
  title : value;
  author : value;
  price : option float;
  availability : str;
  url : str;
  source : str;
  scraped_at : str;
  isbn : value;
  rating : value
}.

(* ================================================================== *)
(** * Collaborators                                                     *)
(* ================================================================== *)

(** What [session.get(url)] yields once awaited: a status and the outcome
    of [await response.text()]. *)
Record response : Type := {
  status : Z;
  body : result str
}.

(** The libraries and the clock the scraper calls. *)
Class Collaborators : Type := {
  (** [aiohttp]: [session.get(url)], which may raise (transport error,
      the 30 s total timeout). *)
  session_get : str -> result response;
  (** [BeautifulSoup(html, 'html.parser')] *)
  BeautifulSoup : str -> result node;
  (** [json.loads] *)
  json_loads : str -> result value;
  (** [urllib.parse.urljoin] *)
  urljoin : str -> str -> result str;
  (** [datetime.now().isoformat()] *)
  now : str;
  (** [str(v)] for a decoded value that is not a [str] *)
  repr : value -> str
}.

(* ================================================================== *)
(** * [BookScraper]                                                     *)
(* ================================================================== *)

(** A coroutine of the scraper, run to its end: what it returns or raises,
    and the lines it logged on the way. *)
Abbreviation outcome A := (result A * list log_line)%type (only parsing).

Section BookScraper.

Context `{Collaborators}.

(** ** The fetcher *)

(** [fetch_page]. The permit taken around the body and the pause after a
    successful read change no result; the permit discipline has its own
    model in [PermitPool] below. *)
Definition fetch_page (url : str) : option str * list log_line :=
  let fetching := Info (lit "Fetching: " ++ url) in
  match session_get url with
  | Ok resp =>
      if status resp =? 200 then
        match body resp with
        | Ok content => (Some content, [fetching])
        | Raise e =>
            (None, [fetching;
                    ErrorExn (lit "Error fetching " ++ url ++ lit ": ") e])
        end
      else
        (None, [fetching;
                Error (lit "Failed to fetch " ++ url ++ lit ": Status "
                       ++ of_Z (status resp))])
  | Raise e =>
      (None, [fetching;
              ErrorExn (lit "Error fetching " ++ url ++ lit ": ") e])
  end.

(** The guard [if not html: return books]: [None] and the empty text both
    end the call; anything else is the content to parse. *)
Definition content_of (html : option str) : option str :=
  match html with
  | None | Some [] => None
  | Some (_ :: _) => html
  end.

(** ** Catalog pages: books.toscrape.com *)

(** [rating_map.get(label, 0)] *)
Definition rating_map : list (str * Z) :=
  [(lit "One", 1); (lit "Two", 2); (lit "Three", 3); (lit "Four", 4);
   (lit "Five", 5)].

Fixpoint rating_map_get (label : str) (m : list (str * Z)) (default : Z) : Z :=
  match m with
  | [] => default
  | (k, v) :: rest =>
      if PyStr.eqb k label then v else rating_map_get label rest default
  end.


Definition pound : str := [163%N].
Definition a_circumflex : str := [194%N].

(** [article.find('h3').find('a')], and the attribute reads that follow:
    a missing [h3] or a missing link raises when it is dereferenced. *)
Definition read_title_elem (article : node) : result node :=
  h3 <- match find article (lit "h3") None with
        | Some t => Ok t
        | None => Raise AttributeError
        end ;;
  match find h3 (lit "a") None with
  | Some t => Ok t
  | None => Raise AttributeError
  end.

(** [price_elem.text if price_elem else '0'] *)
Definition price_text (article : node) : str :=
  match find article (lit "p") (Some (lit "price_color")) with
  | Some price_elem => text price_elem
  | None => lit "0"
  end.

(** [float(price_text.replace('£', '').replace('Â', ''))] *)
Definition read_price (article : node) : result float :=
  match PyFloat.of_str
          (replace a_circumflex [] (replace pound [] (price_text article))) with
  | Some x => Ok x
  | None => Raise ValueError
  end.

(** [rating_map.get(rating_elem.get('class')[1], 0) if rating_elem else None] *)
Definition read_rating (article : node) : result value :=
  match find article (lit "p") (Some (lit "star-rating")) with
  | Some rating_elem =>
      match get_class rating_elem with
      | Some classes =>
          match nth_error classes 1 with
          | Some label => Ok (VInt (rating_map_get label rating_map 0))
          | None => Raise IndexError
          end
      | None => Raise TypeError
      end
  | None => Ok VNone
  end.

(** ['In stock' if avail_elem else 'Out of stock'] *)
Definition read_availability (article : node) : str :=
  match find article (lit "p") (Some (lit "instock availability")) with
  | Some _ => lit "In stock"
  | None => lit "Out of stock"
  end.

(** The body of the [try] of one [article]. *)
Definition parse_article (page_url : str) (article : node) : result Book :=
  title_elem <- read_title_elem article ;;
  let title := get title_elem (lit "title") [] in
  book_url <- urljoin page_url (get title_elem (lit "href") []) ;;
  price <- read_price article ;;
  rating <- read_rating article ;;
  Ok {| title := VStr title;
        author := VStr (lit "Unknown");
        price := Some price;
        availability := read_availability article;
        url := book_url;
        source := lit "books.toscrape.com";
        scraped_at := now;
        isbn := VNone;
        rating := rating |}.

(** The [for article in ...] loop: a failing article is logged and the
    loop goes on. *)
Fixpoint parse_articles (page_url : str) (articles : list node)
  : list Book * list log_line :=
  match articles with
  | [] => ([], [])
  | article :: rest =>
      let '(books, logs) := parse_articles page_url rest in
      match parse_article page_url article with
      | Ok book => (book :: books, logs)
      | Raise e => (books, ErrorExn (lit "Error parsing book: ") e :: logs)
      end
  end.

Definition catalog_url (page_num : Z) : str :=
  lit "https://books.toscrape.com/catalogue/page-" ++ of_Z page_num
    ++ lit ".html".

Definition scrape_books_toscrape (page_num : Z) : outcome (list Book) :=
  let url := catalog_url page_num in
  let '(html, fetch_log) := fetch_page url in
  match content_of html with
  | None => (Ok [], fetch_log)
  | Some content =>
      match BeautifulSoup content with
      | Raise e => (Raise e, fetch_log)
      | Ok soup =>
          let '(books, logs) :=
            parse_articles url
              (find_all soup (lit "article") (Some (lit "product_pod"))) in
          (Ok books, fetch_log ++ logs)
      end
  end.

(** ** Search API: openlibrary.org *)

(** [f"{v}"] *)
Definition format_value (v : value) : str :=
  match v with
  | VStr s => s
  | _ => repr v
  end.

(** One turn of the loop over the documents. *)
Definition doc_to_book (doc : value) : result Book :=
  title <- py_get doc (lit "title") (VStr (lit "Unknown")) ;;
  authors <- py_get doc (lit "author_name") (VList [VStr (lit "Unknown")]) ;;
  author <- (if truthy authors then py_first authors
             else Ok (VStr (lit "Unknown"))) ;;
  isbn_list <- py_get doc (lit "isbn") (VList []) ;;
  isbn <- (if truthy isbn_list then py_first isbn_list else Ok VNone) ;;
  key <- py_get doc (lit "key") (VStr []) ;;
  rating <- py_get doc (lit "ratings_average") VNone ;;
  Ok {| title := title;
        author := author;
        price := None;
        availability := lit "Check Open Library";
        url := lit "https://openlibrary.org/works/" ++ format_value key;
        source := lit "openlibrary.org";
        scraped_at := now;
        isbn := isbn;
        rating := rating |}.

(** The [for doc in ...] loop: it stands inside the single [try] of the
    function, so the first document that raises ends it. The books
    appended before are kept. *)
Fixpoint docs_to_books (docs : list value) : list Book * option exn :=
  match docs with
  | [] => ([], None)
  | doc :: rest =>
      match doc_to_book doc with
      | Ok book =>
          let '(books, err) := docs_to_books rest in (book :: books, err)
      | Raise e => ([], Some e)
      end
  end.

Definition search_url (query : str) : str :=
  lit "https://openlibrary.org/search.json?q="
    ++ replace (lit " ") (lit "+") query ++ lit "&limit=20".

(** What the [try] block does with the fetched text. *)
Definition parse_search (html : str) : list Book * option exn :=
  match (data <- json_loads html ;;
         docs <- py_get data (lit "docs") (VList []) ;;
         py_slice_to 20 docs) with
  | Raise e => ([], Some e)
  | Ok docs => docs_to_books docs
  end.

Definition scrape_openlibrary_search (query : str) : outcome (list Book) :=
  let url := search_url query in
  let '(html, fetch_log) := fetch_page url in
  match content_of html with
  | None => (Ok [], fetch_log)
  | Some content =>
      let '(books, err) := parse_search content in
      (Ok books,
       fetch_log ++
       match err with
       | Some e => [ErrorExn (lit "Error parsing Open Library data: ") e]
       | None => []
       end)
  end.

(** ** Ranked list: gutenberg.org *)

Definition gutenberg_url : str :=
  lit "https://www.gutenberg.org/browse/scores/top".

(** The title and the author read from the text of a link. *)
Definition split_title (link_text : str) : str * str :=
  let title_text := strip link_text in
  let '(title, author) :=
    match split_once (lit " by ") title_text with
    | Some (t, a) => (t, a)
    | None => (title_text, lit "Unknown")
    end in
  (strip title, strip author).

(** The body of the [try] of one [li]: no record when it has no link. *)
Definition parse_li (li : node) : result (option Book) :=
  match find li (lit "a") None with
  | None => Ok None
  | Some link =>
      let '(title, author) := split_title (text link) in
      book_url <- urljoin gutenberg_url (get link (lit "href") []) ;;
      Ok (Some {| title := VStr title;
                  author := VStr author;
                  price := Some PyFloat.zero;
                  availability := lit "Free Download";
                  url := book_url;
                  source := lit "gutenberg.org";
                  scraped_at := now;
                  isbn := VNone;
                  rating := VNone |})
  end.

Fixpoint parse_lis (lis : list node) : list Book * list log_line :=
  match lis with
  | [] => ([], [])
  | li :: rest =>
      let '(books, logs) := parse_lis rest in
      match parse_li li with
      | Ok (Some book) => (book :: books, logs)
      | Ok None => (books, logs)
      | Raise e =>
          (books, ErrorExn (lit "Error parsing Gutenberg book: ") e :: logs)
      end
  end.

Definition scrape_gutenberg_top : outcome (list Book) :=
  let '(html, fetch_log) := fetch_page gutenberg_url in
  match content_of html with
  | None => (Ok [], fetch_log)
  | Some content =>
      match BeautifulSoup content with
      | Raise e => (Raise e, fetch_log)
      | Ok soup =>
          match find soup (lit "ol") None with
          | None => (Ok [], fetch_log)
          | Some ol_elem =>
              let '(books, logs) :=
                parse_lis (firstn 20 (find_all ol_elem (lit "li") None)) in
              (Ok books, fetch_log ++ logs)
          end
      end
  end.


(** ** The orchestrator *)

(** The six coroutines of [run_all_scrapers], in the order declared. *)
Definition tasks : list (outcome (list Book)) :=
  [ scrape_books_toscrape 1;
    scrape_books_toscrape 2;
    scrape_books_toscrape 3;
    scrape_openlibrary_search (lit "python programming");
    scrape_openlibrary_search (lit "data science");
    scrape_gutenberg_top ].

(** [asyncio.gather] with [return_exceptions=True]: every task runs to
    its end and its result, or the exception it raised, takes the task's
    place in the list. The lines the tasks log interleave as the event
    loop schedules them; the model lists them task by task. *)
Definition gather {A} (ts : list (outcome A)) : list (result A) * list log_line :=
  (List.map fst ts, List.concat (List.map snd ts)).

(** The loop over [results]. *)
Fixpoint flatten_results (results : list (result (list Book)))
  : list Book * list log_line :=
  match results with
  | [] => ([], [])
  | r :: rest =>
      let '(all_books, logs) := flatten_results rest in
      match r with
      | Raise e =>
          (all_books, ErrorExn (lit "Task failed with error: ") e :: logs)
      | Ok books => (books ++ all_books, logs)
      end
  end.

(** The address each coroutine of [run_all_scrapers] fetches, in the order
    of [tasks]. *)
Definition task_urls : list str :=
  [ catalog_url 1;
    catalog_url 2;
    catalog_url 3;
    search_url (lit "python programming");
    search_url (lit "data science");
    gutenberg_url ].

(** The fetch of [url] reaches the [except Exception] of [fetch_page] with
    [cause]: the request raises it, or the read of the body of a 200
    response does (a transport error, the timeout of the session). *)
Definition fetch_raises (url : str) (cause : exn) : Prop :=
  session_get url = Raise cause
  \/ exists resp,
      session_get url = Ok resp /\ status resp = 200 /\ body resp = Raise cause.

(** What the loop over [results] logs: the failures the orchestrator caught. *)
Definition orchestrator_log (ts : list (outcome (list Book))) : list log_line :=
  snd (flatten_results (List.map fst ts)).

(** What a finished task adds to the returned list. *)
Definition task_records (t : outcome (list Book)) : list Book :=
  match fst t with
  | Ok books => books
  | Raise _ => []
  end.

Definition succeeded (t : outcome (list Book)) : bool :=
  match fst t with
  | Ok _ => true
  | Raise _ => false
  end.

(** The body of [run_all_scrapers] for a list of coroutines: the returned
    list, which is also stored in [self.results], and the log. *)
Definition run_tasks (ts : list (outcome (list Book)))
  : list Book * list log_line :=
  let '(results, task_logs) := gather ts in
  let '(all_books, logs) := flatten_results results in
  (all_books, task_logs ++ InfoElapsed :: logs).

Definition run_all_scrapers : list Book * list log_line := run_tasks tasks.

End BookScraper.

(* ================================================================== *)
(** * The aggregator: [get_price_comparison]                            *)
(* ================================================================== *)

(** [hash(v)] succeeds: lists and dicts cannot be dict keys. *)
Definition hashable (v : value) : bool :=
  match v with
  | VList _ | VDict _ => false
  | _ => true
  end.

(** [x == z] for a float and an int, decided exactly. *)
Definition float_eq_int (x : float) (z : Z) : bool :=
  match x with
  | S754_zero _ => z =? 0
  | S754_finite s m e =>
      let sm := if s then Zneg m else Zpos m in
      if 0 <=? e then z =? sm * 2 ^ e else z * 2 ^ (- e) =? sm
  | S754_infinity _ | S754_nan => false
  end.

(** Two hashable keys are one key of a dict: numbers compare by value
    whatever their type and [True] is 1. A NaN among decoded values is the
    decoder's single NaN object, which the lookup finds by identity. *)
Definition key_eqb (a b : value) : bool :=
  let number (v : value) : option (Z + float) :=
    match v with
    | VBool b => Some (inl (if b then 1 else 0))
    | VInt z => Some (inl z)
    | VFloat x => Some (inr x)
    | _ => None
    end in
  match a, b with
  | VNone, VNone => true
  | VStr s, VStr t => PyStr.eqb s t
  | _, _ =>
      match number a, number b with
      | Some (inl x), Some (inl y) => x =? y
      | Some (inl x), Some (inr y) => float_eq_int y x
      | Some (inr x), Some (inl y) => float_eq_int x y
      | Some (inr x), Some (inr y) => SFeqb x y || (is_nan x && is_nan y)
      | _, _ => false
      end
  end.

(** [comparison[book.title].append(book)], after the key is created when it
    is new. The groups stay in the order their titles were first seen. *)
Fixpoint group_add (book : Book) (comparison : list (value * list Book))
  : list (value * list Book) :=
  match comparison with
  | [] => [(title book, [book])]
  | (k, books) :: rest =>
      if key_eqb k (title book) then (k, books ++ [book]) :: rest
      else (k, books) :: group_add book rest
  end.

(** The first loop: only books with a price are grouped. *)
Fixpoint group_books (results : list Book) (comparison : list (value * list Book))
  : result (list (value * list Book)) :=
  match results with
  | [] => Ok comparison
  | book :: rest =>
      match price book with
      | Some _ =>
          if hashable (title book)
          then group_books rest (group_add book comparison)
          else Raise TypeError
      | None => group_books rest comparison
      end
  end.

(** [lambda x: x.price or float('inf')] *)
Definition sort_key (book : Book) : float :=
  match price book with
  | Some p => if PyFloat.truthy p then p else PyFloat.inf
  | None => PyFloat.inf
  end.

(** The list a stable sort gives when it compares the keys with [<]:
    every record goes in before the first one whose key is greater. On keys
    that [<] orders (no NaN) it is the only outcome a stable sort has. *)
Fixpoint insert_by_key (key : Book -> float) (book : Book) (sorted : list Book)
  : list Book :=
  match sorted with
  | [] => [book]
  | b :: rest =>
      if PyFloat.ltb (key book) (key b) then book :: sorted
      else b :: insert_by_key key book rest
  end.

Definition sort_by_key (key : Book -> float) (books : list Book) : list Book :=
  fold_left (fun sorted book => insert_by_key key book sorted) books [].

(** No record of the list has a NaN for a key. *)
Definition numeric_keys (key : Book -> float) (books : list Book) : bool :=
  forallb (fun book => negb (is_nan (key book))) books.

(** [list.sort(key=...)], the sort of the interpreter. It rearranges the
    list, and it is stable: on keys without a NaN the outcome is the list of
    [sort_by_key]. With a NaN among the keys [<] is no order and where the
    records end up depends on which pairs the interpreter compares, so
    nothing more than the rearrangement is taken for granted there. *)
Class ListSort : Type := {
  list_sort : (Book -> float) -> list Book -> list Book;
  list_sort_permutes :
    forall key books, Permutation (list_sort key books) books;
  list_sort_stable :
    forall key books,
      numeric_keys key books = true ->
      list_sort key books = sort_by_key key books
}.

(** [get_price_comparison], reading [self.results]. *)
Definition get_price_comparison `{ListSort} (results : list Book)
  : result (list (value * list Book)) :=
  comparison <- group_books results [] ;;
  Ok (List.map (fun '(k, books) => (k, list_sort sort_key books)) comparison).

(** The record has a price; every record of every group has one. *)
Definition priced (book : Book) : Prop := price book <> None.

Definition groups_priced (comparison : list (value * list Book)) : Prop :=
  forall k books book, In (k, books) comparison -> In book books -> priced book.

(* ================================================================== *)
(** * The permit pool: [asyncio.Semaphore] around [fetch_page]          *)
(* ================================================================== *)

(** The coroutines of one run interleave at their [await]s. Each call of
    [fetch_page] is followed through the points where it can be suspended;
    the state of a run is the value of the semaphore and the point every
    call has reached. *)
Module PermitPool.

Local Open Scope nat_scope.

Inductive point : Type :=
| Waiting      (* at [async with self.semaphore], permit not yet taken *)
| Requesting   (* inside, awaiting [session.get(url)] *)
| Reading      (* inside, awaiting [response.text()] *)
| Sleeping     (* inside, awaiting [asyncio.sleep(delay)] *)
| Returned.    (* left the [async with] block: permit given back *)

Definition holds_permit (p : point) : bool :=
  match p with
  | Requesting | Reading | Sleeping => true
  | Waiting | Returned => false
  end.

(** The permits a call holds: one or none. *)
Definition weight (p : point) : nat := if holds_permit p then 1 else 0.

Record state : Type := {
  value : nat;             (* permits left in [self.semaphore] *)
  fetches : list point     (* one entry per call of [fetch_page] *)
}.

(** [BookScraper(max_concurrent_requests=C)] and [n] calls not yet begun. *)
Definition init (C n : nat) : state :=
  {| value := C; fetches := repeat Waiting n |}.

(** The next point of a call. [ok] tells how the awaited operation ended:
    a status other than 200 or an exception leaves the block at once.
    Leaving the block releases the permit on every path. A waiting call
    goes on only when a permit is left. *)
Definition advance (v : nat) (p : point) (ok : bool) : option (nat * point) :=
  match p with
  | Waiting =>
      match v with
      | O => None
      | S v' => Some (v', Requesting)
      end
  | Requesting => if ok then Some (v, Reading) else Some (S v, Returned)
  | Reading => if ok then Some (v, Sleeping) else Some (S v, Returned)
  | Sleeping => Some (S v, Returned)
  | Returned => None
  end.

Fixpoint set_nth (i : nat) (p : point) (l : list point) : list point :=
  match l, i with
  | [], _ => []
  | _ :: r, O => p :: r
  | q :: r, S j => q :: set_nth j p r
  end.

(** The event loop resumes call [i]. *)
Definition step (s : state) (i : nat) (ok : bool) : option state :=
  match nth_error (fetches s) i with
  | None => None
  | Some p =>
      match advance (value s) p ok with
      | None => None
      | Some (v', p') =>
          Some {| value := v'; fetches := set_nth i p' (fetches s) |}
      end
  end.

(** A schedule: which call is resumed, and how its operation ended. *)
Fixpoint run (s : state) (schedule : list (nat * bool)) : option state :=
  match schedule with
  | [] => Some s
  | (i, ok) :: rest =>
      match step s i ok with
      | Some s' => run s' rest
      | None => None
      end
  end.

(** How many calls hold a permit. *)
Definition in_flight (s : state) : nat :=
  List.length (filter holds_permit (fetches s)).

End PermitPool.

(** ** Progress of the calls *)

Module PermitPoolProgress.

Import PermitPool.
Local Open Scope nat_scope.

(** The resumptions a call still has before it: none once it returned. *)
Definition rank (p : point) : nat :=
  match p with
  | Waiting => 4
  | Requesting => 3
  | Reading => 2
  | Sleeping => 1
  | Returned => 0
  end.

Definition total_rank (s : state) : nat :=
  list_sum (List.map rank (fetches s)).

Definition returned (p : point) : bool :=
  match p with
  | Returned => true
  | _ => false
  end.

(** Every call of the run has left [fetch_page]. *)
Definition all_returned (s : state) : bool := forallb returned (fetches s).

End PermitPoolProgress.

(* ================================================================== *)
(** * [main]: counts per source                                       *)
(* ================================================================== *)

(** [sources.get(src, 0)] *)
Fixpoint sources_get (src : str) (sources : list (str * Z)) : Z :=
  match sources with
  | [] => 0
  | (k, n) :: rest => if PyStr.eqb k src then n else sources_get src rest
  end.

(** [sources[src] = n]: the value of an existing key is replaced where the
    key stands, a new key goes to the end. *)
Fixpoint sources_set (src : str) (n : Z) (sources : list (str * Z))
  : list (str * Z) :=
  match sources with
  | [] => [(src, n)]
  | (k, m) :: rest =>
      if PyStr.eqb k src then (k, n) :: rest
      else (k, m) :: sources_set src n rest
  end.

(** The loop [for book in books: sources[book.source] = sources.get(book.source, 0) + 1],
    from the dict [sources]. *)
Definition count_sources_from (books : list Book) (sources : list (str * Z))
  : list (str * Z) :=
  fold_left
    (fun sources book =>
       sources_set (source book) (sources_get (source book) sources + 1) sources)
    books sources.

Definition count_sources (books : list Book) : list (str * Z) :=
  count_sources_from books [].

(** How many records of [books] carry the source [src]. *)
Definition records_from (src : str) (books : list Book) : Z :=
  Z.of_nat (List.length (filter (fun book => PyStr.eqb (source book) src) books)).

(* ================================================================== *)
(** * [save_to_csv] and [save_to_json]                                  *)
(* ================================================================== *)

(** [asdict(book)]: the fields in the order the dataclass declares them. *)
Definition asdict (book : Book) : list (str * value) :=
  [ (lit "title", title book);
    (lit "author", author book);
    (lit "price", match price book with Some x => VFloat x | None => VNone end);
    (lit "availability", VStr (availability book));
    (lit "url", VStr (url book));
    (lit "source", VStr (source book));
    (lit "scraped_at", VStr (scraped_at book));
    (lit "isbn", isbn book);
    (lit "rating", rating book) ].

(** The columns [save_to_csv] declares. *)
Definition fieldnames : list str :=
  [ lit "title"; lit "author"; lit "price"; lit "availability"; lit "url";
    lit "source"; lit "isbn"; lit "rating"; lit "scraped_at" ].

(** [writer.writeheader()]: the row of the column names. *)
Definition header : list value := List.map VStr fieldnames.

(** Both files are opened with [encoding='utf-8']. The codec takes every
    code point but the surrogates, which a decoded JSON text can hold alone
    (the escape [\ud800]); writing one raises [UnicodeEncodeError]. *)
Definition surrogate (c : char) : bool := ((55296 <=? c) && (c <=? 57343))%N.

Definition encodable (s : str) : bool := forallb (fun c => negb (surrogate c)) s.

(** The text the CSV writer makes of a cell can be encoded: a [str] goes
    in as it is; every other value goes through [str()], which writes the
    texts inside a list or a dict with their surrogates escaped. *)
Definition cell_encodable (cell : value) : bool :=
  match cell with
  | VStr s => encodable s
  | _ => true
  end.

(** What [json.dump] writes for a value can be encoded: with
    [ensure_ascii=False] every text goes in as it is, at any depth, the keys
    of objects too. *)
Fixpoint json_encodable (v : value) : bool :=
  match v with
  | VStr s => encodable s
  | VList l => forallb json_encodable l
  | VDict items =>
      forallb (fun kv => match kv with
                         | (k, x) => encodable k && json_encodable x
                         end) items
  | VNone | VBool _ | VInt _ | VFloat _ => true
  end.

(** [DictWriter._dict_to_list] with the default [extrasaction='raise'] and
    [restval='']: a key of the row that is no column is a [ValueError];
    otherwise the cells are the values of the columns, in column order. *)
Definition dict_to_list (columns : list str) (rowdict : list (str * value))
  : result (list value) :=
  if forallb (fun kv => existsb (PyStr.eqb (fst kv)) columns) rowdict
  then Ok (List.map (fun key =>
                       match dict_lookup key rowdict with
                       | Some v => v
                       | None => VStr []
                       end) columns)
  else Raise ValueError.

(** [writer.writerow(rowdict)]: the cells, written to the file as one line. *)
Definition writerow (columns : list str) (rowdict : list (str * value))
  : result (list value) :=
  cells <- dict_to_list columns rowdict ;;
  if forallb cell_encodable cells then Ok cells
  else Raise (External "UnicodeEncodeError").

(** The loop [for book in self.results: writer.writerow(asdict(book))]: the
    rows written, and the exception that ended the loop if one did. *)
Fixpoint write_rows (columns : list str) (rows : list (list (str * value)))
  : list (list value) * option exn :=
  match rows with
  | [] => ([], None)
  | rowdict :: rest =>
      match writerow columns rowdict with
      | Ok cells =>
          let '(others, err) := write_rows columns rest in (cells :: others, err)
      | Raise e => ([], Some e)
      end
  end.

(** What a save did: nothing but the warning ["No data to save"], or the
    content it wrote to the file (the file system is taken to accept it). *)
Inductive saved (A : Type) : Type :=
| NoData
| Written (content : A).

Arguments NoData {A}.
Arguments Written {A} content.

(** [save_to_csv], reading [self.results]: the header row, then one row per
    record; the exception of a row leaves the method. *)
Definition save_to_csv (results : list Book) : result (saved (list (list value))) :=
  match results with
  | [] => Ok NoData
  | _ :: _ =>
      match write_rows fieldnames (List.map asdict results) with
      | (rows, None) => Ok (Written (header :: rows))
      | (_, Some e) => Raise e
      end
  end.


(** [save_to_json], reading [self.results]: the list handed to [json.dump],
    which raises when a text in it cannot be encoded. *)
Definition save_to_json (results : list Book) : result (saved value) :=
  match results with
  | [] => Ok NoData
  | _ :: _ =>
      let objects := List.map (fun book => VDict (asdict book)) results in
      if forallb json_encodable objects then Ok (Written (VList objects))
      else Raise (External "UnicodeEncodeError")
  end.

(** The row of a record under the columns of [save_to_csv]. *)
Definition csv_row (book : Book) : list value :=
  [ title book; author book;
    match price book with Some x => VFloat x | None => VNone end;
    VStr (availability book); VStr (url book); VStr (source book);
    isbn book; rating book; VStr (scraped_at book) ].

(** Every cell of the record's row can be encoded. *)
Definition row_encodable (book : Book) : bool :=
  forallb cell_encodable (csv_row book).

(* ================================================================== *)
(** * Shapes of pages, documents and records                            *)
(* ================================================================== *)

(** A price text as the catalog shows it: currency symbols (the pound
    sign, and the stray [Â] of a page decoded with the wrong charset), then
    digits, a point and digits. *)
Definition currency_symbol (c : char) : bool := N.eqb c 163 || N.eqb c 194.

Definition shop_price (symbols int_part frac_part : str) : str :=
  symbols ++ int_part ++ 46%N :: frac_part.

Definition all_digits (s : str) : bool := forallb is_digit s.

(** The characters of a plain decimal: a digit or the point. *)
Definition plain_char (c : char) : bool := is_digit c || N.eqb c 46.

(** An item block with everything the catalog extractor reads: a title
    link whose target resolves, a price text of the shop's form, and a
    star-rating paragraph with a second class (or none at all). *)
Definition well_formed_item `{Collaborators} (page_url : str) (article : node)
  : Prop :=
  (exists title_elem book_url,
      read_title_elem article = Ok title_elem
      /\ urljoin page_url (get title_elem (lit "href") []) = Ok book_url)
  /\ (exists symbols int_part frac_part,
         forallb currency_symbol symbols = true
         /\ int_part <> [] /\ all_digits int_part = true
         /\ all_digits frac_part = true
         /\ price_text article = shop_price symbols int_part frac_part)
  /\ (exists r, read_rating article = Ok r).

(** The record a catalog item gives, but for its title, link, price and
    rating. *)
Definition catalog_shape `{Collaborators} (book : Book) : Prop :=
  (exists t, title book = VStr t)
  /\ author book = VStr (lit "Unknown")
  /\ (exists x, price book = Some x)
  /\ (availability book = lit "In stock"
      \/ availability book = lit "Out of stock")
  /\ source book = lit "books.toscrape.com"
  /\ scraped_at book = now
  /\ isbn book = VNone
  /\ (rating book = VNone \/ exists r, rating book = VInt r /\ 0 <= r <= 5).

(** The record a ranked-list entry gives, but for its title, author and
    link. *)
Definition ranked_shape `{Collaborators} (book : Book) : Prop :=
  (exists t, title book = VStr t /\ trimmed t = true)
  /\ (exists a, author book = VStr a /\ trimmed a = true)
  /\ price book = Some PyFloat.zero
  /\ availability book = lit "Free Download"
  /\ source book = lit "gutenberg.org"
  /\ scraped_at book = now
  /\ isbn book = VNone
  /\ rating book = VNone.

(** A field of a search document that is a list, or is missing. *)
Definition list_or_absent (field : option value) : bool :=
  match field with
  | None | Some (VList _) => true
  | Some _ => false
  end.

(** The first element of a list field, [default] when the field is missing
    or the list is empty. *)
Definition first_or (default : value) (field : option value) : value :=
  match field with
  | Some (VList (x :: _)) => x
  | _ => default
  end.

Definition or_default (default : value) (field : option value) : value :=
  match field with
  | Some v => v
  | None => default
  end.

(** A search document the extractor reads without raising: an object whose
    [author_name] and [isbn], when present, are lists. *)
Definition well_formed_doc (doc : value) : bool :=
  match doc with
  | VDict items =>
      list_or_absent (dict_lookup (lit "author_name") items)
      && list_or_absent (dict_lookup (lit "isbn") items)
  | _ => false
  end.

(** The record of a well-formed search document. *)
Definition search_record `{Collaborators} (items : list (str * value)) : Book :=
  {| title := or_default (VStr (lit "Unknown")) (dict_lookup (lit "title") items);
     author := first_or (VStr (lit "Unknown"))
                        (dict_lookup (lit "author_name") items);
     price := None;
     availability := lit "Check Open Library";
     url := lit "https://openlibrary.org/works/"
              ++ format_value (or_default (VStr []) (dict_lookup (lit "key") items));
     source := lit "openlibrary.org";
     scraped_at := now;
     isbn := first_or VNone (dict_lookup (lit "isbn") items);
     rating := or_default VNone (dict_lookup (lit "ratings_average") items) |}.

(** The entry has a link for the ranked-list extractor to read. *)
Definition has_link (li : node) : bool :=
  match find li (lit "a") None with
  | Some _ => true
  | None => false
  end.

(** A space of the query becomes a plus sign; nothing else is changed. *)
Definition space_to_plus (c : char) : str :=
  if N.eqb 32 c then lit "+" else [c].

(** The three source tags. *)
Definition known_sources : list str :=
  [lit "books.toscrape.com"; lit "openlibrary.org"; lit "gutenberg.org"].

(** ** Contents of the groups *)

(** [book.price is not None] *)
Definition has_price (book : Book) : bool :=
  match price book with
  | Some _ => true
  | None => false
  end.

(** The records of all the groups, group after group. *)
Definition group_members (comparison : list (value * list Book)) : list Book :=
  List.concat (List.map snd comparison).

(** No two groups have keys a dict would take for one. *)
Definition distinct_keys (comparison : list (value * list Book)) : Prop :=
  ForallOrdPairs (fun k1 k2 => key_eqb k1 k2 = false) (List.map fst comparison).

(** Every record sits in a group whose key equals its title. *)
Definition keyed (comparison : list (value * list Book)) : Prop :=
  forall k books book,
    In (k, books) comparison -> In book books -> key_eqb k (title book) = true.

(** The sum of the counts of [sources]. *)
Definition total_count (sources : list (str * Z)) : Z :=
  fold_right Z.add 0 (List.map snd sources).

(** ** Order of a group *)

(** No record of the list has a NaN for a price. *)
Definition no_nan_price (books : list Book) : bool :=
  forallb (fun book => negb (is_nan (sort_key book))) books.

(** No record of the list has a zero or a NaN for a price. *)
Definition plain_prices (books : list Book) : bool :=
  forallb (fun book =>
             match price book with
             | Some x => PyFloat.truthy x && negb (is_nan x)
             | None => false
             end) books.

Definition key_le (a b : Book) : Prop :=
  PyFloat.leb (sort_key a) (sort_key b) = true.

Definition price_le (a b : Book) : Prop :=
  match price a, price b with
  | Some x, Some y => PyFloat.leb x y = true
  | _, _ => False
  end.

(* ================================================================== *)
(** * Fixtures                                                          *)
(* ================================================================== *)

(** Collaborators that answer every request with one status and one body,
    parse every page to [soup] and decode every payload to [data]. *)
Definition fixture (st : Z) (soup : node) (data : value) : Collaborators :=
  {| session_get := fun _ => Ok {| status := st; body := Ok (lit "payload") |};
     BeautifulSoup := fun _ => Ok soup;
     json_loads := fun _ => Ok data;
     urljoin := fun base rel => Ok (base ++ lit "#" ++ rel);
     now := lit "2024-05-01T12:00:00";
     repr := fun _ => lit "?" |}.

Definition document (contents : list node) : node :=
  Elem (lit "[document]") [] None [Elem (lit "body") [] None contents].

(** A catalog item: a titled link, an optional price paragraph and a
    star-rating paragraph with the given classes. *)
Definition catalog_item (name : string) (price_par : option str)
           (rating_classes : list str) : node :=
  Elem (lit "article") [] (Some [lit "product_pod"])
    ([ Elem (lit "h3") [] None
         [ Elem (lit "a") [(lit "href", lit name); (lit "title", lit name)] None
             [Text (lit name)] ] ]
     ++ match price_par with
        | Some t => [Elem (lit "p") [] (Some [lit "price_color"]) [Text t]]
        | None => []
        end
     ++ [ Elem (lit "p") [] (Some rating_classes) [];
          Elem (lit "p") [] (Some [lit "instock"; lit "availability"])
            [Text (lit "In stock")] ]).

(** A search payload of three documents; the second lists its ISBN as a
    bare number instead of a list of strings. *)
Definition search_payload : value :=
  VDict
    [(lit "numFound", VInt 3);
     (lit "docs",
      VList
        [ VDict [(lit "key", VStr (lit "/works/OL1W"));
                       (lit "title", VStr (lit "Clean Code"));
                       (lit "author_name", VList [VStr (lit "Robert C. Martin")])];
          VDict [(lit "key", VStr (lit "/works/OL2W"));
                       (lit "title", VStr (lit "Fluent Python"));
                       (lit "isbn", VInt 9781491946008)];
          VDict [(lit "key", VStr (lit "/works/OL3W"));
                       (lit "title", VStr (lit "Python Crash Course"));
                       (lit "isbn", VList [VStr (lit "9781593276034")])] ])].

(** A catalog page with one item priced [£47.82], and one with one item
    whose price text reads [£-1.00]. *)
Definition priced_page : node :=
  document [catalog_item "sharp-objects" (Some ([163%N] ++ lit "47.82"))
                         [lit "star-rating"; lit "Four"]].

Definition negative_page : node :=
  document [catalog_item "sharp-objects" (Some ([163%N] ++ lit "-1.00"))
                         [lit "star-rating"; lit "Four"]].

(** Two records with one title: the free edition of the ranked list, and
    the catalog's edition at 38.50. *)
Definition gutenberg_frankenstein : Book :=
  {| title := VStr (lit "Frankenstein");
     author := VStr (lit "Mary Wollstonecraft Shelley");
     price := Some PyFloat.zero;
     availability := lit "Free Download";
     url := lit "https://www.gutenberg.org/ebooks/84";
     source := lit "gutenberg.org";
     scraped_at := lit "2024-05-01T12:00:00";
     isbn := VNone;
     rating := VNone |}.

Definition catalog_frankenstein : Book :=
  {| title := VStr (lit "Frankenstein");
     author := VStr (lit "Unknown");
     price := PyFloat.of_str (lit "38.50");
     availability := lit "In stock";
     url := lit "https://books.toscrape.com/catalogue/frankenstein_20/index.html";
     source := lit "books.toscrape.com";
     scraped_at := lit "2024-05-01T12:00:00";
     isbn := VNone;
     rating := VInt 2 |}.

(** Three catalog items; the price text of the second is no number. *)
Definition sharp_objects : node :=
  catalog_item "sharp-objects" (Some ([163%N] ++ lit "47.82"))
               [lit "star-rating"; lit "Four"].

Definition free_item : node :=
  catalog_item "untitled" (Some (lit "free")) [lit "star-rating"; lit "One"].

Definition soumission : node :=
  catalog_item "soumission" (Some ([194%N; 163%N] ++ lit "50.10"))
               [lit "star-rating"; lit "One"].

(** A catalog page of two well-formed items. *)
Definition clean_page : node := document [sharp_objects; soumission].

(** A search payload of two well-formed documents. *)
Definition clean_payload : list (str * value) :=
  [(lit "docs",
    VList [ VDict [(lit "key", VStr (lit "/works/OL1W"));
                   (lit "title", VStr (lit "Clean Code"));
                   (lit "author_name", VList [VStr (lit "Robert C. Martin")])];
            VDict [(lit "title", VStr (lit "Untitled"));
                   (lit "author_name", VList [])] ])].

(** Two catalog records titled "Clean Code", the dearer one first. *)
Definition clean_code (price_text : string) : Book :=
  {| title := VStr (lit "Clean Code");
     author := VStr (lit "Unknown");
     price := PyFloat.of_str (lit price_text);
     availability := lit "In stock";
     url := lit "https://books.toscrape.com/catalogue/clean-code_1/index.html";
     source := lit "books.toscrape.com";
     scraped_at := lit "2024-05-01T12:00:00";
     isbn := VNone;
     rating := VInt 4 |}.

(** Collaborators that answer a request with the status 200 and the
    address itself for a body, but where [transport] names an exception the
    request raises; the parser rejects the pages [parser] names and reads
    [priced_page] from the others; every payload decodes to
    [clean_payload]. *)
Definition flaky (transport parser : str -> option exn) : Collaborators :=
  {| session_get := fun url =>
       match transport url with
       | Some e => Raise e
       | None => Ok {| status := 200; body := Ok url |}
       end;
     BeautifulSoup := fun content =>
       match parser content with
       | Some e => Raise e
       | None => Ok priced_page
       end;
     json_loads := fun _ => Ok (VDict clean_payload);
     urljoin := fun base rel => Ok (base ++ lit "#" ++ rel);
     now := lit "2024-05-01T12:00:00";
     repr := fun _ => lit "?" |}.

Definition only_at (url : str) (e : exn) (u : str) : option exn :=
  if PyStr.eqb u url then Some e else None.

Definition nowhere (u : str) : option exn := None.

(** The ranked list cannot be parsed; the ranked list cannot be fetched
    in time. *)
Definition unparsable_ranking : Collaborators :=
  flaky nowhere (only_at gutenberg_url (External "ParserRejectedMarkup")).

Definition slow_ranking : Collaborators :=
  flaky (only_at gutenberg_url (External "TimeoutError")) nowhere.

(** A catalog item with a star-rating paragraph and nothing else: no title
    link, no price paragraph. *)
Definition untitled_item (rating_classes : list str) : node :=
  Elem (lit "article") [] (Some [lit "product_pod"])
    [Elem (lit "p") [] (Some rating_classes) []].

(** Collaborators whose transport fails on every request. *)
Definition offline : Collaborators :=
  {| session_get := fun _ => Raise (External "TimeoutError");
     BeautifulSoup := fun _ => Ok (Text []);
     json_loads := fun _ => Ok VNone;
     urljoin := fun base rel => Ok rel;
     now := lit "2024-05-01T12:00:00";
     repr := fun _ => lit "?" |}.




(** A list sort that is the stable insertion sort on every list. *)
Definition stable_sort : ListSort.
Proof.
  refine {| list_sort := sort_by_key |}; [|reflexivity].
  intros key books. unfold sort_by_key.
  rewrite <- (app_nil_r books) at 2. generalize (@nil Book).
  induction books as [|b rest IH]; intros acc; simpl; [reflexivity|].
  rewrite IH.
  assert (Hinsert : Permutation (insert_by_key key b acc) (b :: acc)).
  { clear IH. induction acc as [|a acc IHacc]; simpl; [reflexivity|].
    destruct (PyFloat.ltb (key b) (key a)); [reflexivity|].
    rewrite IHacc. apply perm_swap. }
  rewrite Hinsert. symmetry. apply Permutation_middle.
Defined.

(** A ranked-list entry whose link shows [t]. *)
Definition ranked_item (t : str) : node :=
  Elem (lit "li") [] None
    [Elem (lit "a") [(lit "href", lit "/ebooks/84")] None [Text t]].

(* ================================================================== *)
(** * Text lemmas                                                       *)
(* ================================================================== *)

Lemma strip_prefix_app (p s r : str) :
  strip_prefix p s = Some r -> s = p ++ r.
Proof.
  revert s. induction p as [|x p IH]; intros s Hs; simpl in Hs.
  - now inversion Hs.
  - destruct s as [|y s]; [discriminate|].
    destruct (N.eqb_spec x y) as [->|]; [|discriminate].
    simpl. f_equal. now apply IH.
Qed.

Lemma strip_prefix_complete (p r : str) :
  strip_prefix p (p ++ r) = Some r.
Proof.
  induction p as [|x p IH]; simpl; [reflexivity|].
  now rewrite N.eqb_refl.
Qed.

(** [split_once] cuts at an occurrence of the separator... *)
Lemma split_once_app (sep s a b : str) :
  split_once sep s = Some (a, b) -> s = a ++ sep ++ b.
Proof.
  revert a b. induction s as [|c s IH]; intros a b Hs.
  - simpl in Hs. destruct (strip_prefix sep []) as [r|] eqn:E; [|discriminate].
    inversion Hs; subst. now apply strip_prefix_app in E.
  - simpl in Hs. destruct (strip_prefix sep (c :: s)) as [r|] eqn:E.
    + inversion Hs; subst. now apply strip_prefix_app in E.
    + destruct (split_once sep s) as [[a' b']|] eqn:E'; [|discriminate].
      inversion Hs; subst. simpl. f_equal. now apply IH.
Qed.

(** ... and at the first one: no occurrence starts earlier. *)
Lemma split_once_first (sep s a b : str) :
  split_once sep s = Some (a, b) ->
  forall a' b', s = a' ++ sep ++ b' -> (List.length a <= List.length a')%nat.
Proof.
  revert a. induction s as [|c s IH]; intros a Hs a' b' Heq.
  - simpl in Hs. destruct (strip_prefix sep []); [|discriminate].
    inversion Hs; subst. simpl. lia.
  - simpl in Hs. destruct (strip_prefix sep (c :: s)) as [r|] eqn:E.
    + inversion Hs; subst. simpl. lia.
    + destruct (split_once sep s) as [[a1 b1]|] eqn:E'; [|discriminate].
      inversion Hs; subst.
      destruct a' as [|c' a'].
      * simpl in Heq. rewrite Heq, strip_prefix_complete in E. discriminate.
      * simpl in Heq. inversion Heq; subst. simpl.
        specialize (IH a1 eq_refl a' b' eq_refl). lia.
Qed.

Lemma split_once_none (sep s : str) :
  split_once sep s = None -> forall a b, s <> a ++ sep ++ b.
Proof.
  induction s as [|c s IH]; intros Hs a b Heq.
  - simpl in Hs. destruct (strip_prefix sep []) eqn:E; [discriminate|].
    destruct a; [|discriminate]. simpl in Heq.
    rewrite Heq, strip_prefix_complete in E. discriminate.
  - simpl in Hs. destruct (strip_prefix sep (c :: s)) eqn:E; [discriminate|].
    destruct (split_once sep s) as [[a1 b1]|] eqn:E'; [discriminate|].
    destruct a as [|c' a].
    + simpl in Heq. rewrite Heq, strip_prefix_complete in E. discriminate.
    + simpl in Heq. inversion Heq; subst. now apply (IH eq_refl a b).
Qed.

Lemma lstrip_not_blank (s : str) : starts_blank (lstrip s) = false.
Proof.
  induction s as [|c s IH]; simpl; [reflexivity|].
  destruct (isspace c) eqn:E; [assumption|]. simpl. exact E.
Qed.

Lemma lstrip_suffix (s : str) : exists ws, s = ws ++ lstrip s.
Proof.
  induction s as [|c s [ws IH]]; simpl.
  - now exists [].
  - destruct (isspace c).
    + exists (c :: ws). simpl. now f_equal.
    + now exists [].
Qed.

Lemma lstrip_fixed (s : str) : starts_blank s = false -> lstrip s = s.
Proof.
  destruct s as [|c s]; simpl; [reflexivity|]. now intros ->.
Qed.

Lemma starts_blank_prefix (u v : str) :
  starts_blank (u ++ v) = false -> starts_blank u = false.
Proof. destruct u; simpl; auto. Qed.

(** [strip] leaves no whitespace at either end. *)
Lemma strip_trimmed (s : str) : trimmed (strip s) = true.
Proof.
  unfold trimmed, strip, rstrip.
  rewrite rev_involutive, lstrip_not_blank.
  destruct (lstrip_suffix (rev (lstrip s))) as [ws Hws].
  assert (Hu : lstrip s = rev (lstrip (rev (lstrip s))) ++ rev ws).
  { rewrite <- rev_app_distr, <- Hws. now rewrite rev_involutive. }
  pose proof (lstrip_not_blank s) as Hb. rewrite Hu in Hb.
  apply starts_blank_prefix in Hb. now rewrite Hb.
Qed.

(** A trimmed text is left as it is. *)
Lemma strip_fixed (s : str) : trimmed s = true -> strip s = s.
Proof.
  unfold trimmed. intros Ht. apply andb_prop in Ht as [H1 H2].
  apply negb_true_iff in H1, H2.
  unfold strip, rstrip. rewrite (lstrip_fixed s H1), (lstrip_fixed _ H2).
  apply rev_involutive.
Qed.

Lemma strip_idempotent (s : str) : strip (strip s) = strip s.
Proof. apply strip_fixed, strip_trimmed. Qed.

(* ================================================================== *)
(** * The ranked-list extractor: title and author                       *)
(* ================================================================== *)

(** C7, as the code has it. The text of the link is first trimmed of
    surrounding whitespace. When the trimmed text contains [" by "], it is
    cut at the first occurrence, the title is the trimmed left part and the
    author the trimmed right part, neither with whitespace at an end; when
    it does not, the trimmed text is the title and the author is
    ["Unknown"]. *)
Theorem ranked_entry_title_author `{Collaborators} (li link : node) (book : Book) :
  find li (lit "a") None = Some link ->
  parse_li li = Ok (Some book) ->
  (contains (lit " by ") (strip (text link)) = true ->
   exists a b,
     strip (text link) = a ++ lit " by " ++ b
     /\ (forall a' b', strip (text link) = a' ++ lit " by " ++ b' ->
                       (List.length a <= List.length a')%nat)
     /\ title book = VStr (strip a) /\ author book = VStr (strip b)
     /\ trimmed (strip a) = true /\ trimmed (strip b) = true)
  /\ (contains (lit " by ") (strip (text link)) = false ->
      title book = VStr (strip (text link))
      /\ author book = VStr (lit "Unknown")).
Proof.
  intros Hlink Hbook. unfold parse_li in Hbook. rewrite Hlink in Hbook.
  unfold split_title, contains in *.
  destruct (split_once (lit " by ") (strip (text link))) as [[a b]|] eqn:Hsplit.
  - destruct (urljoin _ _) as [u|e]; simpl in Hbook; [|discriminate].
    inversion Hbook; subst; clear Hbook. cbn [title author].
    split; [intros _|discriminate].
    exists a, b. repeat split.
    + now apply split_once_app.
    + now apply split_once_first with (b := b).
    + apply strip_trimmed.
    + apply strip_trimmed.
  - destruct (urljoin _ _) as [u|e]; simpl in Hbook; [|discriminate].
    inversion Hbook; subst; clear Hbook. cbn [title author].
    split; [discriminate|intros _].
    now rewrite strip_idempotent.
Qed.

Lemma ranked_entry_title_author_witness :
  find (ranked_item (lit "  Frankenstein by Mary Shelley ")) (lit "a") None
    = Some (Elem (lit "a") [(lit "href", lit "/ebooks/84")] None
                 [Text (lit "  Frankenstein by Mary Shelley ")])
  /\ exists book,
      parse_li (H := fixture 200 (Text []) VNone)
               (ranked_item (lit "  Frankenstein by Mary Shelley "))
        = Ok (Some book)
      /\ title book = VStr (lit "Frankenstein")
      /\ author book = VStr (lit "Mary Shelley")
      /\ (contains (lit " by ") (lit "Frankenstein by Mary Shelley") = true ->
          exists a b,
            lit "Frankenstein by Mary Shelley" = a ++ lit " by " ++ b
            /\ title book = VStr (strip a) /\ author book = VStr (strip b)).
Proof.
  split; [reflexivity|].
  eexists. split; [reflexivity|]. split; [reflexivity|]. split; [reflexivity|].
  intros Hc.
  destruct (ranked_entry_title_author
              (H := fixture 200 (Text []) VNone)
              (ranked_item (lit "  Frankenstein by Mary Shelley ")) _ _
              eq_refl eq_refl) as [Hsplit _].
  destruct (Hsplit Hc) as (a & b & Hab & _ & Ht & Ha & _).
  exists a, b. repeat split; assumption.
Defined.

(** C7, as stated, fails on a link text whose only [" by "] leans on
    surrounding whitespace: the raw text contains the separator, yet
    nothing is split off and the author is ["Unknown"]. *)
Lemma ranked_entry_raw_text_counterexample :
  contains (lit " by ") (lit " by Nobody") = true
  /\ exists book,
      parse_li (H := fixture 200 (Text []) VNone) (ranked_item (lit " by Nobody"))
        = Ok (Some book)
      /\ title book = VStr (lit "by Nobody")
      /\ author book = VStr (lit "Unknown").
Proof.
  split; [reflexivity|]. eexists. repeat split; reflexivity.
Qed.

(* ================================================================== *)
(** * The fetcher                                                       *)
(* ================================================================== *)

(** C4, as the code has it. When the transport answers and the body can be
    read, [fetch_page] returns the body if the status is exactly 200 and
    nothing for any other status, the other statuses of the success range
    included. *)
Theorem fetch_page_only_status_200 `{Collaborators} (url : str)
        (resp : response) (content : str) :
  session_get url = Ok resp ->
  body resp = Ok content ->
  (status resp = 200 -> fst (fetch_page url) = Some content)
  /\ (status resp <> 200 -> fst (fetch_page url) = None).
Proof.
  intros Hget Hbody. unfold fetch_page. rewrite Hget, Hbody.
  destruct (Z.eqb_spec (status resp) 200) as [E|E]; split; intros E';
    solve [reflexivity | contradiction].
Qed.

Lemma fetch_page_only_status_200_witness :
  session_get (Collaborators := fixture 200 (Text []) VNone) gutenberg_url
    = Ok {| status := 200; body := Ok (lit "payload") |}
  /\ fst (fetch_page (H := fixture 200 (Text []) VNone) gutenberg_url)
     = Some (lit "payload").
Proof.
  split; [reflexivity|].
  apply (fetch_page_only_status_200 (H := fixture 200 (Text []) VNone)
           gutenberg_url {| status := 200; body := Ok (lit "payload") |});
    reflexivity.
Defined.

(** C4, as stated, fails: 204 lies in the success range and its body is
    not returned. *)
Lemma fetch_page_status_204_counterexample :
  200 <= 204 <= 299
  /\ session_get (Collaborators := fixture 204 (Text []) VNone) gutenberg_url
     = Ok {| status := 204; body := Ok (lit "payload") |}
  /\ fst (fetch_page (H := fixture 204 (Text []) VNone) gutenberg_url) = None.
Proof.
  split; [lia|]. split; reflexivity.
Qed.

(* ================================================================== *)
(** * The catalog extractor                                             *)
(* ================================================================== *)

(** A record built in the loop is in the list the loop returns. *)
Lemma parse_articles_emits `{Collaborators} (page_url : str) (article : node)
      (book : Book) (articles : list node) :
  parse_article page_url article = Ok book ->
  In article articles ->
  In book (fst (parse_articles page_url articles)).
Proof.
  intros Hbook. induction articles as [|a rest IH]; intros Hin; [contradiction|].
  simpl. destruct (parse_articles page_url rest) as [books logs] eqn:Hrest.
  destruct Hin as [->|Hin].
  - rewrite Hbook. now left.
  - specialize (IH Hin). simpl in IH.
    destruct (parse_article page_url a); simpl; auto.
Qed.

(** Every record the loop returns was built from one of the articles. *)
Lemma parse_articles_origin `{Collaborators} (page_url : str) (book : Book)
      (articles : list node) :
  In book (fst (parse_articles page_url articles)) ->
  exists article, In article articles /\ parse_article page_url article = Ok book.
Proof.
  induction articles as [|a rest IH]; simpl; [contradiction|].
  destruct (parse_articles page_url rest) as [books logs] eqn:Hrest.
  destruct (parse_article page_url a) as [b|e] eqn:Ha; simpl; intros Hin.
  - destruct Hin as [->|Hin].
    + exists a. auto.
    + destruct (IH Hin) as (x & Hx & Hp). exists x. auto.
  - destruct (IH Hin) as (x & Hx & Hp). exists x. auto.
Qed.

Lemma parse_article_price `{Collaborators} (page_url : str) (article : node)
      (book : Book) :
  parse_article page_url article = Ok book ->
  exists x, read_price article = Ok x /\ price book = Some x.
Proof.
  unfold parse_article, bind. intros Hbook.
  destruct (read_title_elem article); [|discriminate].
  destruct (urljoin _ _); [|discriminate].
  destruct (read_price article) as [x|]; [|discriminate].
  destruct (read_rating article); [|discriminate].
  inversion Hbook. exists x. auto.
Qed.


(** What the extractor returns for a page that was fetched and parsed. *)
Lemma scrape_books_toscrape_parsed `{Collaborators} (page_num : Z)
      (content : str) (soup : node) :
  content_of (fst (fetch_page (catalog_url page_num))) = Some content ->
  BeautifulSoup content = Ok soup ->
  fst (scrape_books_toscrape page_num)
  = Ok (fst (parse_articles (catalog_url page_num)
               (find_all soup (lit "article") (Some (lit "product_pod"))))).
Proof.
  intros Hcontent Hsoup. unfold scrape_books_toscrape.
  destruct (fetch_page (catalog_url page_num)) as [html fetch_log].
  cbn [fst] in Hcontent. rewrite Hcontent, Hsoup.
  now destruct (parse_articles _ _).
Qed.

Lemma page_item_emitted `{Collaborators} (page_num : Z) (content : str)
      (soup article : node) (book : Book) :
  content_of (fst (fetch_page (catalog_url page_num))) = Some content ->
  BeautifulSoup content = Ok soup ->
  In article (find_all soup (lit "article") (Some (lit "product_pod"))) ->
  parse_article (catalog_url page_num) article = Ok book ->
  exists books, fst (scrape_books_toscrape page_num) = Ok books /\ In book books.
Proof.
  intros Hcontent Hsoup Hin Hbook. eexists. split.
  - exact (scrape_books_toscrape_parsed page_num content soup Hcontent Hsoup).
  - now apply parse_articles_emits with article.
Qed.

Lemma page_record_origin `{Collaborators} (page_num : Z) (content : str)
      (soup : node) (books : list Book) (book : Book) :
  content_of (fst (fetch_page (catalog_url page_num))) = Some content ->
  BeautifulSoup content = Ok soup ->
  fst (scrape_books_toscrape page_num) = Ok books ->
  In book books ->
  exists article,
    In article (find_all soup (lit "article") (Some (lit "product_pod")))
    /\ parse_article (catalog_url page_num) article = Ok book.
Proof.
  intros Hcontent Hsoup Hbooks Hin.
  rewrite (scrape_books_toscrape_parsed _ _ _ Hcontent Hsoup) in Hbooks.
  inversion Hbooks; subst books. now apply parse_articles_origin.
Qed.



Lemma parse_article_ok `{Collaborators} (page_url : str) (article title_elem : node)
      (book_url : str) (x : float) (r : value) :
  read_title_elem article = Ok title_elem ->
  urljoin page_url (get title_elem (lit "href") []) = Ok book_url ->
  read_price article = Ok x ->
  read_rating article = Ok r ->
  exists book,
    parse_article page_url article = Ok book
    /\ price book = Some x /\ rating book = r.
Proof.
  intros Htitle Hurl Hprice Hrating. unfold parse_article, bind.
  rewrite Htitle, Hurl, Hprice, Hrating. eexists. repeat split.
Qed.




(** C10, as the code has it, on a catalog page that was fetched and
    parsed. For an item of the page without a price element, reading the
    price raises nothing and gives exactly 0.0; every record built from the
    item has that price, present, not absent; the extractor returns such a
    record as soon as the item's title link, its link target and its rating
    can be read; and when the item is dropped, the exception comes from one
    of those three, never from the price. *)
Theorem missing_price_element_gives_zero `{Collaborators} (page_num : Z)
        (content : str) (soup article : node) :
  content_of (fst (fetch_page (catalog_url page_num))) = Some content ->
  BeautifulSoup content = Ok soup ->
  In article (find_all soup (lit "article") (Some (lit "product_pod"))) ->
  find article (lit "p") (Some (lit "price_color")) = None ->
  read_price article = Ok (S754_zero false)
  /\ (forall book,
         parse_article (catalog_url page_num) article = Ok book ->
         price book = Some (S754_zero false))
  /\ (forall title_elem book_url r,
         read_title_elem article = Ok title_elem ->
         urljoin (catalog_url page_num) (get title_elem (lit "href") [])
         = Ok book_url ->
         read_rating article = Ok r ->
         exists books book,
           fst (scrape_books_toscrape page_num) = Ok books
           /\ In book books
           /\ parse_article (catalog_url page_num) article = Ok book
           /\ price book = Some (S754_zero false))
  /\ (forall e,
         parse_article (catalog_url page_num) article = Raise e ->
         read_title_elem article = Raise e
         \/ (exists title_elem,
                read_title_elem article = Ok title_elem
                /\ urljoin (catalog_url page_num) (get title_elem (lit "href") [])
                   = Raise e)
         \/ read_rating article = Raise e).
Proof.
  intros Hcontent Hsoup Hin Hprice.
  assert (Hp : read_price article = Ok (S754_zero false)).
  { unfold read_price, price_text. rewrite Hprice. reflexivity. }
  split; [exact Hp|]. split; [|split].
  - intros book Hbook. apply parse_article_price in Hbook as (x & Hx & Hbook).
    rewrite Hp in Hx. inversion Hx; subst x. exact Hbook.
  - intros title_elem book_url r Htitle Hurl Hrating.
    destruct (parse_article_ok _ _ _ _ _ _ Htitle Hurl Hp Hrating)
      as (book & Hbook & Hzero & _).
    destruct (page_item_emitted _ _ _ _ _ Hcontent Hsoup Hin Hbook)
      as (books & Hbooks & Hmem).
    exists books, book. auto.
  - intros e. unfold parse_article, bind. rewrite Hp.
    destruct (read_title_elem article) as [title_elem|e1];
      [|intros E; inversion E; now left].
    destruct (urljoin _ _) as [book_url|e2] eqn:Hurl;
      [|intros E; inversion E; subst; right; left; now exists title_elem].
    destruct (read_rating article) as [r|e3]; [discriminate|].
    intros E; inversion E. right. now right.
Qed.

Lemma missing_price_element_gives_zero_witness :
  find (catalog_item "soumission" None [lit "star-rating"; lit "One"])
       (lit "p") (Some (lit "price_color")) = None
  /\ exists books book,
      fst (scrape_books_toscrape
             (H := fixture 200
                     (document [catalog_item "soumission" None
                                  [lit "star-rating"; lit "One"]])
                     VNone) 1) = Ok books
      /\ In book books
      /\ price book = Some (S754_zero false).
Proof.
  split; [reflexivity|].
  destruct (missing_price_element_gives_zero
              (H := fixture 200
                      (document [catalog_item "soumission" None
                                   [lit "star-rating"; lit "One"]])
                      VNone)
              1 (lit "payload") _
              (catalog_item "soumission" None [lit "star-rating"; lit "One"])
              eq_refl eq_refl (or_introl eq_refl) eq_refl)
    as (_ & _ & Hemit & _).
  destruct (Hemit _ _ _ eq_refl eq_refl eq_refl)
    as (books & book & Hbooks & Hmem & _ & Hzero).
  exists books, book. auto.
Defined.

(** C10, as stated, fails: an item without a price element is not always
    emitted. Without a title link, or with a star-rating paragraph of one
    class only, it raises in the loop and is dropped with an error line. *)
Lemma missing_price_element_counterexample :
  find (untitled_item [lit "star-rating"; lit "One"])
       (lit "p") (Some (lit "price_color")) = None
  /\ scrape_books_toscrape
       (H := fixture 200
               (document [untitled_item [lit "star-rating"; lit "One"]])
               VNone) 1
     = (Ok [],
        [Info (lit "Fetching: " ++ catalog_url 1);
         ErrorExn (lit "Error parsing book: ") AttributeError])
  /\ find (catalog_item "soumission" None [lit "star-rating"])
          (lit "p") (Some (lit "price_color")) = None
  /\ scrape_books_toscrape
       (H := fixture 200
               (document [catalog_item "soumission" None [lit "star-rating"]])
               VNone) 1
     = (Ok [],
        [Info (lit "Fetching: " ++ catalog_url 1);
         ErrorExn (lit "Error parsing book: ") IndexError]).
Proof. repeat split. Qed.

(* ================================================================== *)
(** * The search-API extractor                                          *)
(* ================================================================== *)

Lemma doc_to_book_no_price `{Collaborators} (doc : value) (book : Book) :
  doc_to_book doc = Ok book -> price book = None.
Proof.
  unfold doc_to_book, bind. intros Hbook.
  repeat match type of Hbook with
         | context [match ?x with _ => _ end] => destruct x; try discriminate
         end.
  all: now inversion Hbook.
Qed.

Lemma docs_to_books_length `{Collaborators} (docs : list value) :
  (List.length (fst (docs_to_books docs)) <= List.length docs)%nat.
Proof.
  induction docs as [|doc rest IH]; simpl; [lia|].
  destruct (doc_to_book doc); simpl; [|lia].
  destruct (docs_to_books rest); simpl in *. lia.
Qed.

Lemma docs_to_books_origin `{Collaborators} (docs : list value) (book : Book) :
  In book (fst (docs_to_books docs)) ->
  exists doc, In doc docs /\ doc_to_book doc = Ok book.
Proof.
  induction docs as [|doc rest IH]; simpl; [contradiction|].
  destruct (doc_to_book doc) as [b|e] eqn:Hdoc; simpl; [|contradiction].
  destruct (docs_to_books rest) as [books err]; simpl in *.
  intros [->|Hin].
  - exists doc. auto.
  - destruct (IH Hin) as (d & Hd & Hb). exists d. auto.
Qed.

(** The loop over the documents ends at the first one that raises: the
    records built before it are returned, the documents after it are never
    looked at. *)
Lemma docs_to_books_stops `{Collaborators} (before after : list value)
      (doc : value) (books : list Book) (e : exn) :
  docs_to_books before = (books, None) ->
  doc_to_book doc = Raise e ->
  docs_to_books (before ++ doc :: after) = (books, Some e).
Proof.
  revert books. induction before as [|d rest IH]; intros books Hbefore Hdoc.
  - simpl in *. rewrite Hdoc. now inversion Hbefore.
  - simpl in *. destruct (doc_to_book d) as [b|e']; [|discriminate].
    destruct (docs_to_books rest) as [bs err] eqn:Hrest.
    inversion Hbefore; subst. now rewrite (IH bs eq_refl Hdoc).
Qed.

Lemma py_slice_to_length (n : nat) (v : value) (l : list value) :
  py_slice_to n v = Ok l -> (List.length l <= n)%nat.
Proof.
  destruct v; simpl; intros Hl; inversion Hl; subst.
  - rewrite length_map. apply firstn_le_length.
  - apply firstn_le_length.
Qed.

Lemma parse_search_length `{Collaborators} (html : str) :
  (List.length (fst (parse_search html)) <= 20)%nat.
Proof.
  unfold parse_search.
  destruct (bind (json_loads html) _) as [docs|e] eqn:Hdocs; simpl; [|lia].
  assert (Hlen : (List.length docs <= 20)%nat).
  { unfold bind in Hdocs.
    destruct (json_loads html) as [data|]; [|discriminate].
    destruct (py_get data (lit "docs") (VList [])) as [d|]; [|discriminate].
    now apply py_slice_to_length in Hdocs. }
  pose proof (docs_to_books_length docs). lia.
Qed.

Lemma parse_search_no_price `{Collaborators} (html : str) (book : Book) :
  In book (fst (parse_search html)) -> price book = None.
Proof.
  unfold parse_search.
  destruct (bind (json_loads html) _) as [docs|e]; simpl; [|contradiction].
  intros Hin. apply docs_to_books_origin in Hin as (doc & _ & Hdoc).
  now apply doc_to_book_no_price in Hdoc.
Qed.

(** C6. Whatever the collaborators answer, a call of the search extractor
    returns at most 20 records and none of them has a price. *)
Theorem search_at_most_20_no_price `{Collaborators} (query : str) :
  exists books,
    fst (scrape_openlibrary_search query) = Ok books
    /\ (List.length books <= 20)%nat
    /\ Forall (fun book => price book = None) books.
Proof.
  unfold scrape_openlibrary_search.
  destruct (fetch_page (search_url query)) as [html fetch_log].
  destruct (content_of html) as [content|].
  - pose proof (parse_search_length content) as Hlen.
    pose proof (parse_search_no_price content) as Hprice.
    destruct (parse_search content) as [books err]; simpl in *.
    exists books. split; [reflexivity|]. split; [assumption|].
    apply Forall_forall. exact Hprice.
  - exists []. simpl. split; [reflexivity|]. split; [lia|constructor].
Qed.

(** C1: the code at a payload of three documents whose second one raises
    ([isbn] is a number, and a number has no first element). The first
    record is returned, the failure is logged and the call returns; the
    third document, which parses on its own, is lost with the second. *)
Theorem search_loses_documents_after_a_failure :
  let env := fixture 200 (Text []) search_payload in
  exists first third,
    scrape_openlibrary_search (H := env) (lit "python programming")
    = (Ok [first],
       [Info (lit "Fetching: " ++ search_url (lit "python programming"));
        ErrorExn (lit "Error parsing Open Library data: ") TypeError])
    /\ title first = VStr (lit "Clean Code")
    /\ doc_to_book (H := env)
         (VDict [(lit "key", VStr (lit "/works/OL2W"));
                       (lit "title", VStr (lit "Fluent Python"));
                       (lit "isbn", VInt 9781491946008)]) = Raise TypeError
    /\ doc_to_book (H := env)
         (VDict [(lit "key", VStr (lit "/works/OL3W"));
                       (lit "title", VStr (lit "Python Crash Course"));
                       (lit "isbn", VList [VStr (lit "9781593276034")])]) = Ok third
    /\ title third = VStr (lit "Python Crash Course").
Proof.
  intros env. eexists. eexists.
  split; [reflexivity|]. split; [reflexivity|]. split; [reflexivity|].
  split; reflexivity.
Qed.

(* ================================================================== *)
(** * The sign of a price                                               *)
(* ================================================================== *)

Lemma binary_round_aux_sign (sx : bool) (mx ex : Z) (lx : location) :
  has_sign sx (binary_round_aux prec emax sx mx ex lx) = true.
Proof.
  unfold binary_round_aux.
  destruct (shr_fexp prec emax mx ex lx) as [mrs e1].
  destruct (shr_fexp prec emax _ e1 loc_Exact) as [mrs2 e2].
  destruct (shr_m mrs2) as [|m|m]; [apply eqb_reflx| |reflexivity].
  destruct (_ <=? _); apply eqb_reflx.
Qed.

Lemma of_decimal_sign (neg : bool) (m : N) (e : Z) :
  has_sign neg (of_decimal neg m e) = true.
Proof.
  unfold of_decimal. destruct m as [|p]; [apply eqb_reflx|].
  destruct (0 <=? e).
  - unfold binary_round. destruct (shl_align _ _ _) as [mz ez].
    apply binary_round_aux_sign.
  - destruct (SFdiv_core_binary _ _ _ _ _ _) as [[q e1] l].
    apply binary_round_aux_sign.
Qed.

Lemma read_decimal_sign (neg : bool) (s : str) (x : float) :
  read_decimal neg s = Some x -> has_sign neg x = true.
Proof.
  unfold read_decimal. destruct (span_digits s) as [ip r].
  destruct (match r with 46%N :: r' => span_digits r' | _ => ([], r) end)
    as [fp r1].
  destruct (ip ++ fp); [discriminate|].
  destruct (read_exponent r1); [|discriminate].
  intros Hx. inversion Hx. apply of_decimal_sign.
Qed.

Lemma read_inf_or_nan_sign (neg : bool) (s : str) (x : float) :
  read_inf_or_nan neg s = Some x -> has_sign neg x = true.
Proof.
  unfold read_inf_or_nan.
  destruct (_ || _); [intros Hx; inversion Hx; apply eqb_reflx|].
  destruct (PyStr.eqb _ _); [|discriminate].
  intros Hx. now inversion Hx.
Qed.

(** A numeral that does not begin with a minus_sign sign is read with a clear
    sign bit. *)
Lemma read_number_sign (s : str) (x : float) :
  read_number s = Some x -> hd_error s <> Some minus_sign -> has_sign false x = true.
Proof.
  unfold read_number. intros Hx Hhd.
  assert (Hsign : fst (take_sign s) = false).
  { destruct s as [|c r]; [reflexivity|].
    destruct (N.eq_dec c minus_sign) as [->|Hc]; [now contradiction Hhd|].
    unfold take_sign.
    repeat match goal with
           | |- context [match ?p with _ => _ end] => destruct p
           end; try reflexivity.
    now contradiction Hc. }
  destruct (take_sign s) as [neg r]. simpl in Hsign. subst neg.
  destruct (read_decimal false r) as [y|] eqn:Hy.
  - inversion Hx; subst. now apply read_decimal_sign in Hy.
  - now apply read_inf_or_nan_sign in Hx.
Qed.

Lemma to_ascii_keeps_minus_out (s a : str) :
  to_ascii s = Some a -> In minus_sign a -> In minus_sign s.
Proof.
  revert a. induction s as [|c s IH]; intros a Ha Hin; simpl in Ha.
  - inversion Ha; subst. contradiction.
  - destruct (to_ascii s) as [r|].
    + assert (Hc : forall c', In minus_sign (c' :: r) -> c' <> minus_sign -> In minus_sign (c :: s)).
      { intros c' [E|Hr] Hne; [now contradiction Hne|]. right. now apply IH with r. }
      destruct (c <? 127)%N.
      * inversion Ha; subst. destruct Hin as [->|Hr]; [now left|].
        right. now apply IH with r.
      * destruct (isspace c).
        -- inversion Ha; subst. apply (Hc _ Hin). discriminate.
        -- destruct (to_decimal c) as [d|]; [|discriminate].
           inversion Ha; subst. apply (Hc _ Hin).
           intros E. change (48 + d = 45)%N in E. lia.
    + repeat match type of Ha with
             | context [match ?p with _ => _ end] => destruct p
             end; discriminate.
Qed.

Lemma drop_underscores_sub (prev : option char) (s b : str) (c : char) :
  drop_underscores prev s = Some b -> In c b -> In c s.
Proof.
  revert prev b. induction s as [|x s IH]; intros prev b Hb Hin; simpl in Hb.
  - destruct prev as [p|]; [destruct (N.eqb p underscore)|];
      inversion Hb; subst; contradiction.
  - destruct (N.eqb x underscore).
    + destruct prev as [p|]; [|discriminate].
      destruct (is_digit p); [|discriminate]. right. now apply IH with (Some x) b.
    + destruct (match prev with
                | Some p => N.eqb p underscore && negb (is_digit x)
                | None => false
                end); [discriminate|].
      destruct (drop_underscores (Some x) s) as [r|] eqn:Hr; [|discriminate].
      inversion Hb; subst. destruct Hin as [->|Hin]; [now left|].
      right. now apply IH with (Some x) r.
Qed.

Lemma c_lstrip_sub (s : str) (c : char) : In c (c_lstrip s) -> In c s.
Proof.
  induction s as [|x s IH]; simpl; [auto|].
  destruct (c_isspace x); [intros Hin; right; auto|auto].
Qed.

Lemma c_strip_sub (s : str) (c : char) : In c (c_strip s) -> In c s.
Proof.
  unfold c_strip. intros Hin. apply in_rev in Hin.
  apply c_lstrip_sub in Hin. apply in_rev in Hin. now apply c_lstrip_sub.
Qed.

(** [float(s)] gives no negative number, negative zero or negative
    infinity when [s] has no minus_sign sign. *)
Lemma of_str_sign (s : str) (x : float) :
  of_str s = Some x -> ~ In minus_sign s -> has_sign false x = true.
Proof.
  unfold of_str. intros Hx Hs.
  destruct (to_ascii s) as [a|] eqn:Ha; [|discriminate].
  destruct (drop_underscores None a) as [b|] eqn:Hb; [|discriminate].
  apply read_number_sign in Hx; [assumption|].
  intros Hhd. apply Hs. apply to_ascii_keeps_minus_out with a; [assumption|].
  apply drop_underscores_sub with None b; [assumption|].
  apply c_strip_sub. destruct (c_strip b); inversion Hhd. now left.
Qed.

Lemma has_sign_nonnegative (x : float) :
  has_sign false x = true -> is_nan x = true \/ nonnegative x = true.
Proof.
  destruct x as [s|s| |s m e]; simpl; auto; destruct s; try discriminate;
    intros _; right; reflexivity.
Qed.

Lemma replace_from_sub (old s : str) (k : nat) (c : char) :
  In c (replace_from old [] s k) -> In c s.
Proof.
  revert k. induction s as [|x s IH]; intros k; simpl; [auto|].
  destruct k as [|k].
  - destruct (strip_prefix old (x :: s)); simpl.
    + intros Hin. right. now apply IH in Hin.
    + intros [->|Hin]; [now left|]. right. now apply IH in Hin.
  - intros Hin. right. now apply IH in Hin.
Qed.

Lemma replace_char_sub (old : char) (s : str) (c : char) :
  In c (replace [old] [] s) -> In c s.
Proof. apply replace_from_sub. Qed.

Lemma read_price_sign `{Collaborators} (article : node) (x : float) :
  read_price article = Ok x ->
  ~ In minus_sign (price_text article) ->
  nonnegative x = true \/ is_nan x = true.
Proof.
  unfold read_price. intros Hx Hminus.
  destruct (PyFloat.of_str _) as [y|] eqn:Hy; [|discriminate].
  inversion Hx; subst y. apply of_str_sign in Hy.
  - apply has_sign_nonnegative in Hy. tauto.
  - intros Hin. apply Hminus.
    now apply replace_char_sub in Hin; apply replace_char_sub in Hin.
Qed.

Lemma parse_li_price `{Collaborators} (li : node) (book : Book) :
  parse_li li = Ok (Some book) -> price book = Some PyFloat.zero.
Proof.
  unfold parse_li. destruct (find li (lit "a") None) as [link|]; [|discriminate].
  destruct (split_title (text link)) as [t a].
  destruct (urljoin _ _); simpl; [|discriminate].
  intros Hbook. now inversion Hbook.
Qed.

Lemma parse_lis_origin `{Collaborators} (lis : list node) (book : Book) :
  In book (fst (parse_lis lis)) ->
  exists li, In li lis /\ parse_li li = Ok (Some book).
Proof.
  induction lis as [|li rest IH]; simpl; [contradiction|].
  destruct (parse_lis rest) as [books logs]; simpl in IH.
  destruct (parse_li li) as [[b|]|e] eqn:Hli; simpl; intros Hin.
  - destruct Hin as [->|Hin]; [exists li; auto|].
    destruct (IH Hin) as (x & Hx & Hp). exists x. auto.
  - destruct (IH Hin) as (x & Hx & Hp). exists x. auto.
  - destruct (IH Hin) as (x & Hx & Hp). exists x. auto.
Qed.

(** C9, as the code has it. A record of the search extractor has no price;
    a record of the ranked-list extractor has the price 0.0; a record of
    the catalog extractor was built from an item of the page and its price
    is the number [float] reads from the price text of that item once the
    pound sign and the stray [Â] are taken out, sign included: it is
    non-negative, or NaN, when that price text shows no minus sign. *)
Theorem price_present_sign `{Collaborators} :
  (forall query books book,
      fst (scrape_openlibrary_search query) = Ok books ->
      In book books -> price book = None)
  /\ (forall books book,
         fst scrape_gutenberg_top = Ok books ->
         In book books -> price book = Some PyFloat.zero)
  /\ (forall page_num content soup books book,
         content_of (fst (fetch_page (catalog_url page_num))) = Some content ->
         BeautifulSoup content = Ok soup ->
         fst (scrape_books_toscrape page_num) = Ok books ->
         In book books ->
         exists article x,
           In article (find_all soup (lit "article") (Some (lit "product_pod")))
           /\ parse_article (catalog_url page_num) article = Ok book
           /\ PyFloat.of_str
                (replace a_circumflex [] (replace pound [] (price_text article)))
              = Some x
           /\ price book = Some x
           /\ (~ In minus_sign (price_text article) ->
               nonnegative x = true \/ is_nan x = true)).
Proof.
  split; [|split].
  - intros query books book. unfold scrape_openlibrary_search.
    destruct (fetch_page (search_url query)) as [html fetch_log].
    destruct (content_of html) as [content|];
      [|simpl; intros Hb; inversion Hb; contradiction].
    pose proof (parse_search_no_price content book) as Hnone.
    destruct (parse_search content) as [bs err]. simpl in *.
    intros Hb Hin. inversion Hb; subst bs. now apply Hnone.
  - intros books book. unfold scrape_gutenberg_top.
    destruct (fetch_page gutenberg_url) as [html fetch_log].
    destruct (content_of html) as [content|];
      [|simpl; intros Hb; inversion Hb; contradiction].
    destruct (BeautifulSoup content) as [soup|]; [|discriminate].
    destruct (find soup (lit "ol") None) as [ol_elem|];
      [|simpl; intros Hb; inversion Hb; contradiction].
    pose proof (parse_lis_origin
                  (firstn 20 (find_all ol_elem (lit "li") None)) book) as Horigin.
    destruct (parse_lis _) as [bs logs]. simpl in *.
    intros Hb Hin. inversion Hb; subst bs.
    destruct (Horigin Hin) as (li & _ & Hli). now apply parse_li_price in Hli.
  - intros page_num content soup books book Hcontent Hsoup Hbooks Hmem.
    destruct (page_record_origin _ _ _ _ _ Hcontent Hsoup Hbooks Hmem)
      as (article & Hin & Hbook).
    destruct (parse_article_price _ _ _ Hbook) as (x & Hx & Hprice).
    exists article, x. repeat split; try assumption.
    + unfold read_price in Hx.
      destruct (PyFloat.of_str _) as [y|]; [|discriminate].
      now inversion Hx.
    + now apply read_price_sign.
Qed.

Lemma price_present_sign_witness :
  exists book x,
    fst (scrape_books_toscrape (H := fixture 200 priced_page VNone) 1)
    = Ok [book]
    /\ price book = Some x
    /\ (nonnegative x = true \/ is_nan x = true).
Proof.
  eexists.
  destruct (proj2 (proj2 (price_present_sign (H := fixture 200 priced_page VNone)))
              1 (lit "payload") priced_page _ _
              eq_refl eq_refl eq_refl (or_introl eq_refl))
    as (article & x & Hin & _ & _ & Hprice & Hsign).
  exists x. split; [reflexivity|]. split; [exact Hprice|].
  apply Hsign. destruct Hin as [<-|[]].
  intros Hminus. vm_compute in Hminus.
  repeat (destruct Hminus as [Hminus|Hminus]; [discriminate Hminus|]).
  exact Hminus.
Defined.

(** C9, as stated, fails: the catalog extractor keeps the sign of the price
    text, so an item showing [£-1.00] is emitted with a price below zero. *)
Lemma negative_price_counterexample :
  exists book x,
    fst (scrape_books_toscrape (H := fixture 200 negative_page VNone) 1)
      = Ok [book]
    /\ price book = Some x
    /\ PyFloat.ltb x PyFloat.zero = true
    /\ nonnegative x = false.
Proof.
  eexists. eexists. split; [reflexivity|]. split; [reflexivity|].
  split; reflexivity.
Qed.

(* ================================================================== *)
(** * The orchestrator                                                  *)
(* ================================================================== *)

Lemma flatten_results_app (r1 r2 : list (result (list Book))) :
  flatten_results (r1 ++ r2)
  = (fst (flatten_results r1) ++ fst (flatten_results r2),
     snd (flatten_results r1) ++ snd (flatten_results r2)).
Proof.
  induction r1 as [|r r1 IH]; simpl.
  - now destruct (flatten_results r2).
  - rewrite IH. destruct (flatten_results r1) as [b1 l1].
    destruct (flatten_results r2) as [b2 l2]. simpl.
    destruct r; simpl; [now rewrite app_assoc|reflexivity].
Qed.

(** The returned list is the records of the tasks that returned, in the
    order the tasks were declared. *)
Lemma flatten_results_records (ts : list (outcome (list Book))) :
  fst (flatten_results (List.map fst ts)) = List.concat (List.map task_records ts).
Proof.
  induction ts as [|[r l] ts IH]; simpl; [reflexivity|].
  destruct (flatten_results (List.map fst ts)) as [books logs]. simpl in IH.
  unfold task_records at 1. simpl. destruct r; simpl; now rewrite IH.
Qed.

Lemma flatten_results_quiet (ts : list (outcome (list Book))) :
  forallb succeeded ts = true ->
  snd (flatten_results (List.map fst ts)) = [].
Proof.
  induction ts as [|[r l] ts IH]; simpl; [reflexivity|].
  intros Hall. apply andb_prop in Hall as [Hr Hall].
  destruct (flatten_results (List.map fst ts)) as [books logs]. simpl in IH.
  unfold succeeded in Hr. simpl in Hr. destruct r; [|discriminate].
  simpl. now apply IH.
Qed.

Lemma run_tasks_books (ts : list (outcome (list Book))) :
  fst (run_tasks ts) = List.concat (List.map task_records ts).
Proof.
  unfold run_tasks, gather. rewrite <- flatten_results_records.
  now destruct (flatten_results (List.map fst ts)).
Qed.

Lemma run_tasks_log (ts : list (outcome (list Book))) :
  snd (run_tasks ts)
  = List.concat (List.map snd ts)
      ++ InfoElapsed :: snd (flatten_results (List.map fst ts)).
Proof.
  unfold run_tasks, gather. now destruct (flatten_results (List.map fst ts)).
Qed.

Lemma failed_fetch_log `{Collaborators} (url : str) (cause : exn) :
  session_get url = Raise cause ->
  fetch_page url
  = (None, [Info (lit "Fetching: " ++ url);
            ErrorExn (lit "Error fetching " ++ url ++ lit ": ") cause]).
Proof. unfold fetch_page. now intros ->. Qed.

Lemma fetch_raises_log `{Collaborators} (url : str) (cause : exn) :
  fetch_raises url cause ->
  fetch_page url
  = (None, [Info (lit "Fetching: " ++ url);
            ErrorExn (lit "Error fetching " ++ url ++ lit ": ") cause]).
Proof.
  intros [Hget|(resp & Hget & Hstatus & Hbody)].
  - now apply failed_fetch_log.
  - unfold fetch_page. now rewrite Hget, Hstatus, Hbody.
Qed.

Lemma catalog_fetch_raises `{Collaborators} (page_num : Z) (cause : exn) :
  fetch_raises (catalog_url page_num) cause ->
  scrape_books_toscrape page_num
  = (Ok [], [Info (lit "Fetching: " ++ catalog_url page_num);
             ErrorExn (lit "Error fetching " ++ catalog_url page_num ++ lit ": ")
                      cause]).
Proof.
  intros Hraise. unfold scrape_books_toscrape.
  now rewrite (fetch_raises_log _ _ Hraise).
Qed.

Lemma search_fetch_raises `{Collaborators} (query : str) (cause : exn) :
  fetch_raises (search_url query) cause ->
  scrape_openlibrary_search query
  = (Ok [], [Info (lit "Fetching: " ++ search_url query);
             ErrorExn (lit "Error fetching " ++ search_url query ++ lit ": ")
                      cause]).
Proof.
  intros Hraise. unfold scrape_openlibrary_search.
  now rewrite (fetch_raises_log _ _ Hraise).
Qed.

Lemma ranking_fetch_raises `{Collaborators} (cause : exn) :
  fetch_raises gutenberg_url cause ->
  scrape_gutenberg_top
  = (Ok [], [Info (lit "Fetching: " ++ gutenberg_url);
             ErrorExn (lit "Error fetching " ++ gutenberg_url ++ lit ": ") cause]).
Proof.
  intros Hraise. unfold scrape_gutenberg_top.
  now rewrite (fetch_raises_log _ _ Hraise).
Qed.

(** A task that adds no record leaves the records of the others, in the
    order the tasks were declared. *)
Lemma run_tasks_without (before after : list (outcome (list Book)))
      (t : outcome (list Book)) :
  task_records t = [] ->
  fst (run_tasks (before ++ t :: after))
  = List.concat (List.map task_records before)
      ++ List.concat (List.map task_records after).
Proof.
  intros Ht. rewrite run_tasks_books, map_app, concat_app. simpl.
  now rewrite Ht.
Qed.

Lemma run_tasks_sibling (before after : list (outcome (list Book)))
      (t t' : outcome (list Book)) (books : list Book) (book : Book) :
  In t' (before ++ after) -> fst t' = Ok books -> In book books ->
  In book (fst (run_tasks (before ++ t :: after))).
Proof.
  intros Hin Ht' Hbook. rewrite run_tasks_books. apply in_concat.
  exists (task_records t'). split.
  - apply in_map. apply in_app_or in Hin as [Hin|Hin]; apply in_or_app;
      [now left|right; now right].
  - unfold task_records. now rewrite Ht'.
Qed.

Lemma run_tasks_task_log (ts : list (outcome (list Book)))
      (t : outcome (list Book)) (line : log_line) :
  In t ts -> In line (snd t) -> In line (snd (run_tasks ts)).
Proof.
  intros Ht Hline. rewrite run_tasks_log. apply in_or_app. left.
  apply in_concat. exists (snd t). split; [now apply in_map|assumption].
Qed.

(** The orchestrator logs one line for a task that raised and none for a
    task that returned. *)
Lemma orchestrator_log_split `{Collaborators}
      (before after : list (outcome (list Book))) (t : outcome (list Book)) :
  orchestrator_log (before ++ t :: after)
  = orchestrator_log before
      ++ match fst t with
         | Raise e => [ErrorExn (lit "Task failed with error: ") e]
         | Ok _ => []
         end
      ++ orchestrator_log after.
Proof.
  unfold orchestrator_log. rewrite map_app, flatten_results_app. simpl.
  destruct (flatten_results (List.map fst after)) as [bs logs].
  now destruct (fst t).
Qed.

(** C5, as the code has it, on the six tasks of [run_all_scrapers]. When
    one of them raises, the orchestrator has its exception in the task's
    place and logs it: the returned list is the records of the tasks before
    it followed by the records of the tasks after it, so the failed task
    adds nothing and every record of every sibling is there, and when
    every sibling returned that line is the only one the orchestrator logs.
    When the fetch of one of them fails with an exception, a timeout
    included, the task does not raise: [fetch_page] catches the exception
    and logs it, the task returns the empty list, the orchestrator logs
    nothing for it, and the records of the siblings are returned all the
    same. *)
Theorem run_isolates_failed_task `{Collaborators} :
  (forall before after e task_log,
      tasks = before ++ (Raise e, task_log) :: after ->
      fst run_all_scrapers
      = List.concat (List.map task_records before)
          ++ List.concat (List.map task_records after)
      /\ (forall t books book,
             In t (before ++ after) -> fst t = Ok books -> In book books ->
             In book (fst run_all_scrapers))
      /\ orchestrator_log tasks
         = orchestrator_log before
             ++ ErrorExn (lit "Task failed with error: ") e
             :: orchestrator_log after
      /\ In (ErrorExn (lit "Task failed with error: ") e) (snd run_all_scrapers)
      /\ (forallb succeeded (before ++ after) = true ->
          orchestrator_log tasks = [ErrorExn (lit "Task failed with error: ") e]))
  /\ (forall i url cause,
         nth_error task_urls i = Some url ->
         fetch_raises url cause ->
         exists before after,
           List.length before = i
           /\ tasks
              = before
                  ++ (Ok [],
                      [Info (lit "Fetching: " ++ url);
                       ErrorExn (lit "Error fetching " ++ url ++ lit ": ") cause])
                  :: after
           /\ fst run_all_scrapers
              = List.concat (List.map task_records before)
                  ++ List.concat (List.map task_records after)
           /\ (forall t books book,
                  In t (before ++ after) -> fst t = Ok books -> In book books ->
                  In book (fst run_all_scrapers))
           /\ In (ErrorExn (lit "Error fetching " ++ url ++ lit ": ") cause)
                 (snd run_all_scrapers)
           /\ orchestrator_log tasks
              = orchestrator_log before ++ orchestrator_log after).
Proof.
  split.
  - intros before after e task_log Htasks. unfold run_all_scrapers.
    rewrite Htasks. clear Htasks.
    assert (Hlog : orchestrator_log (before ++ (Raise e, task_log) :: after)
                   = orchestrator_log before
                       ++ ErrorExn (lit "Task failed with error: ") e
                       :: orchestrator_log after)
      by apply orchestrator_log_split.
    split; [now apply run_tasks_without|].
    split; [intros t books book; apply run_tasks_sibling|].
    split; [exact Hlog|]. split.
    + rewrite run_tasks_log. apply in_or_app. right. right.
      fold (orchestrator_log (before ++ (Raise e, task_log) :: after)).
      rewrite Hlog. apply in_or_app. right. now left.
    + intros Hall. rewrite forallb_app in Hall. apply andb_prop in Hall as [Hb Ha].
      rewrite Hlog. unfold orchestrator_log.
      now rewrite (flatten_results_quiet before Hb), (flatten_results_quiet after Ha).
  - assert (Hsilent : forall before after url cause,
               tasks
               = before
                   ++ (Ok [],
                       [Info (lit "Fetching: " ++ url);
                        ErrorExn (lit "Error fetching " ++ url ++ lit ": ") cause])
                   :: after ->
               fst run_all_scrapers
               = List.concat (List.map task_records before)
                   ++ List.concat (List.map task_records after)
               /\ (forall t books book,
                      In t (before ++ after) -> fst t = Ok books -> In book books ->
                      In book (fst run_all_scrapers))
               /\ In (ErrorExn (lit "Error fetching " ++ url ++ lit ": ") cause)
                     (snd run_all_scrapers)
               /\ orchestrator_log tasks
                  = orchestrator_log before ++ orchestrator_log after).
    { intros before after url cause Htasks. unfold run_all_scrapers.
      split; [rewrite Htasks; now apply run_tasks_without|].
      split; [rewrite Htasks; intros t books book; apply run_tasks_sibling|].
      split; [|rewrite Htasks; apply orchestrator_log_split].
      apply run_tasks_task_log
        with (t := (Ok [],
                    [Info (lit "Fetching: " ++ url);
                     ErrorExn (lit "Error fetching " ++ url ++ lit ": ") cause])).
      - rewrite Htasks. apply in_or_app. right. now left.
      - right. now left. }
    intros i url cause Hurl Hraise. unfold task_urls in Hurl.
    destruct i as [|[|[|[|[|[|i]]]]]]; cbn [nth_error] in Hurl;
      try (destruct i; discriminate Hurl);
      injection Hurl as <-;
      match goal with
      | |- exists before after, List.length before = ?k /\ _ =>
          exists (firstn k tasks), (skipn (S k) tasks)
      end;
      (split; [reflexivity|]);
      match goal with
      | |- ?eq /\ _ =>
          assert (Htasks : eq);
            [unfold tasks; cbn [firstn skipn app];
             first [ rewrite (catalog_fetch_raises _ _ Hraise)
                   | rewrite (search_fetch_raises _ _ Hraise)
                   | rewrite (ranking_fetch_raises _ Hraise) ];
             reflexivity
            |split; [exact Htasks|exact (Hsilent _ _ _ _ Htasks)]]
      end.
Qed.

Lemma run_isolates_failed_task_witness :
  (orchestrator_log (tasks (H := unparsable_ranking))
   = [ErrorExn (lit "Task failed with error: ") (External "ParserRejectedMarkup")]
   /\ List.length (fst (run_all_scrapers (H := unparsable_ranking))) = 7%nat)
  /\ exists before after,
      List.length before = 5%nat
      /\ tasks (H := slow_ranking)
         = before
             ++ (Ok [],
                 [Info (lit "Fetching: " ++ gutenberg_url);
                  ErrorExn (lit "Error fetching " ++ gutenberg_url ++ lit ": ")
                           (External "TimeoutError")])
             :: after
      /\ List.length (fst (run_all_scrapers (H := slow_ranking))) = 7%nat
      /\ orchestrator_log (tasks (H := slow_ranking))
         = orchestrator_log before ++ orchestrator_log after.
Proof.
  split.
  - destruct (proj1 (run_isolates_failed_task (H := unparsable_ranking))
                (firstn 5 (tasks (H := unparsable_ranking))) []
                (External "ParserRejectedMarkup")
                [Info (lit "Fetching: " ++ gutenberg_url)] eq_refl)
      as (_ & _ & _ & _ & Honly).
    split; [exact (Honly eq_refl)|reflexivity].
  - destruct (proj2 (run_isolates_failed_task (H := slow_ranking))
                5%nat gutenberg_url (External "TimeoutError")
                eq_refl (or_introl eq_refl))
      as (before & after & Hlength & Htasks & _ & _ & _ & Hlog).
    exists before, after. repeat split; assumption.
Defined.

(** C5, as stated, fails at a timeout. The fetch of the ranked list times
    out: its task raises nothing and returns the empty list, the failure
    is caught and logged by [fetch_page], the orchestrator has no
    exception to catch and logs no line, and the one error line of the run
    is the fetcher's. *)
Lemma timed_out_task_counterexample :
  session_get (Collaborators := slow_ranking) gutenberg_url
  = Raise (External "TimeoutError")
  /\ scrape_gutenberg_top (H := slow_ranking)
     = (Ok [],
        [Info (lit "Fetching: " ++ gutenberg_url);
         ErrorExn (lit "Error fetching " ++ gutenberg_url ++ lit ": ")
                  (External "TimeoutError")])
  /\ orchestrator_log (tasks (H := slow_ranking)) = []
  /\ filter is_error (snd (run_all_scrapers (H := slow_ranking)))
     = [ErrorExn (lit "Error fetching " ++ gutenberg_url ++ lit ": ")
                 (External "TimeoutError")].
Proof. repeat split. Qed.

(* ================================================================== *)
(** * The aggregator                                                    *)
(* ================================================================== *)

Lemma insert_by_key_In (key : Book -> float) (book x : Book) (sorted : list Book) :
  In book (insert_by_key key x sorted) -> book = x \/ In book sorted.
Proof.
  induction sorted as [|b rest IH]; simpl.
  - intros [->|[]]. now left.
  - destruct (PyFloat.ltb (key x) (key b)); simpl.
    + intros [->|[->|Hin]]; auto.
    + intros [->|Hin]; auto. destruct (IH Hin); auto.
Qed.

Lemma sort_by_key_In (key : Book -> float) (book : Book) (books : list Book) :
  In book (sort_by_key key books) -> In book books.
Proof.
  unfold sort_by_key.
  assert (Hgen : forall acc,
             In book (fold_left (fun sorted b => insert_by_key key b sorted)
                                books acc) ->
             In book acc \/ In book books).
  { induction books as [|b rest IH]; simpl; intros acc Hin; [auto|].
    destruct (IH _ Hin) as [Hacc|Hrest]; [|auto].
    apply insert_by_key_In in Hacc as [->|Hacc]; auto. }
  intros Hin. destruct (Hgen [] Hin) as [[]|]; assumption.
Qed.

Lemma group_add_priced (book : Book) (comparison : list (value * list Book)) :
  priced book -> groups_priced comparison -> groups_priced (group_add book comparison).
Proof.
  intros Hbook. induction comparison as [|[k g] rest IH]; intros Hall k' books b; simpl.
  - intros [E|[]] Hin. inversion E; subst. destruct Hin as [->|[]]. assumption.
  - destruct (key_eqb k (title book)); simpl.
    + intros [E|Hin] Hb.
      * inversion E; subst. apply in_app_or in Hb as [Hb|[->|[]]]; [|assumption].
        apply (Hall k' g b); [now left|assumption].
      * apply (Hall k' books b); [now right|assumption].
    + intros [E|Hin] Hb.
      * inversion E; subst. apply (Hall k' books b); [now left|assumption].
      * apply IH with k' books; try assumption.
        intros k1 g1 b1 H1 H2. apply (Hall k1 g1 b1); [now right|assumption].
Qed.

Lemma group_books_priced (results : list Book)
      (comparison groups : list (value * list Book)) :
  groups_priced comparison ->
  group_books results comparison = Ok groups ->
  groups_priced groups.
Proof.
  revert comparison. induction results as [|book rest IH]; intros comparison Hall; simpl.
  - intros E. now inversion E; subst.
  - destruct (price book) as [x|] eqn:Hprice.
    + destruct (hashable (title book)); [|discriminate].
      apply IH. apply group_add_priced; [|assumption].
      unfold priced. now rewrite Hprice.
    + now apply IH.
Qed.

(** The part of C3 that holds: a record without a price is in no group. *)
Lemma price_comparison_only_priced `{ListSort} (results : list Book)
      (groups : list (value * list Book)) :
  get_price_comparison results = Ok groups -> groups_priced groups.
Proof.
  unfold get_price_comparison, bind.
  destruct (group_books results []) as [comparison|] eqn:Hgroups; [|discriminate].
  intros E; inversion E; subst; clear E.
  apply group_books_priced in Hgroups; [|intros k g b []].
  intros k books book Hin Hbook.
  apply in_map_iff in Hin as ([k0 g0] & E & Hin). inversion E; subst.
  apply (Permutation_in _ (list_sort_permutes sort_key g0)) in Hbook.
  now apply (Hgroups k g0 book).
Qed.

(** C3: the code at two records titled "Frankenstein", the free one first.
    Both have a price and they form one group, but the sort key of the free
    record is infinity (its price 0.0 is falsy), so it is placed after the
    record priced 38.50: the group is not ascending by price. *)
Theorem price_comparison_misplaces_free_book `{ListSort} :
  get_price_comparison [gutenberg_frankenstein; catalog_frankenstein]
  = Ok [(VStr (lit "Frankenstein"), [catalog_frankenstein; gutenberg_frankenstein])]
  /\ sort_key gutenberg_frankenstein = PyFloat.inf
  /\ exists earlier later,
      price catalog_frankenstein = Some earlier
      /\ price gutenberg_frankenstein = Some later
      /\ PyFloat.leb earlier later = false
      /\ PyFloat.ltb later earlier = true.
Proof.
  split; [|split; [reflexivity|]].
  - unfold get_price_comparison, bind.
    assert (Hgroups : group_books [gutenberg_frankenstein; catalog_frankenstein] []
                      = Ok [(VStr (lit "Frankenstein"),
                             [gutenberg_frankenstein; catalog_frankenstein])])
      by reflexivity.
    rewrite Hgroups. cbn [List.map].
    rewrite list_sort_stable by reflexivity. reflexivity.
  - eexists. eexists. split; [reflexivity|]. split; [reflexivity|].
    split; reflexivity.
Qed.

(* ================================================================== *)
(** * The permit pool                                                   *)
(* ================================================================== *)

Module PermitPoolFacts.

Import PermitPool.
Local Open Scope nat_scope.

Lemma in_flight_cons (p : point) (l : list point) (v : nat) :
  in_flight {| value := v; fetches := p :: l |}
  = weight p + in_flight {| value := v; fetches := l |}.
Proof. unfold in_flight, weight. simpl. now destruct (holds_permit p). Qed.

(** Moving one call from [p] to [p'] changes the count by their weights. *)
Lemma set_nth_in_flight (l : list point) (i : nat) (p p' : point) (v v' : nat) :
  nth_error l i = Some p ->
  in_flight {| value := v'; fetches := set_nth i p' l |} + weight p
  = in_flight {| value := v; fetches := l |} + weight p'.
Proof.
  revert i. induction l as [|q l IH]; intros i Hnth.
  - destruct i; discriminate.
  - destruct i as [|i]; simpl in *.
    + inversion Hnth; subst. rewrite !in_flight_cons.
      unfold in_flight. simpl. lia.
    + rewrite !in_flight_cons. specialize (IH i Hnth). lia.
Qed.

(** The permits left and the permits held always add up to the capacity. *)
Lemma step_conserves (s s' : state) (i : nat) (ok : bool) :
  step s i ok = Some s' ->
  value s' + in_flight s' = value s + in_flight s.
Proof.
  unfold step. destruct (nth_error (fetches s) i) as [p|] eqn:Hnth; [|discriminate].
  destruct (advance (value s) p ok) as [[v' p']|] eqn:Hadv; [|discriminate].
  intros E; inversion E; subst; clear E. simpl.
  pose proof (set_nth_in_flight (fetches s) i p p' (value s) v' Hnth) as Hcount.
  assert (Hs : in_flight {| value := value s; fetches := fetches s |} = in_flight s)
    by reflexivity.
  rewrite Hs in Hcount.
  destruct p, ok; simpl in Hadv;
    try discriminate;
    try (destruct (value s) as [|v0] eqn:Hv; [discriminate|]);
    inversion Hadv; subst; unfold weight in Hcount; simpl in Hcount; lia.
Qed.

Lemma run_conserves (s s' : state) (schedule : list (nat * bool)) :
  run s schedule = Some s' ->
  value s' + in_flight s' = value s + in_flight s.
Proof.
  revert s. induction schedule as [|[i ok] rest IH]; intros s; simpl.
  - intros E. now inversion E.
  - destruct (step s i ok) as [s1|] eqn:Hstep; [|discriminate].
    intros Hrun. rewrite (IH _ Hrun). now apply step_conserves with i ok.
Qed.

Lemma init_in_flight (C n : nat) : in_flight (init C n) = 0.
Proof. unfold in_flight, init. simpl. induction n; simpl; auto. Qed.

(** C8. Whatever the capacity, the number of calls and the schedule, the
    calls of [fetch_page] that hold a permit are never more than the
    capacity: the permits left and the permits held add up to it in every
    state a run reaches. *)
Theorem permits_never_exceeded (C n : nat) (schedule : list (nat * bool))
        (s : state) :
  run (init C n) schedule = Some s ->
  in_flight s <= C /\ value s + in_flight s = C.
Proof.
  intros Hrun. apply run_conserves in Hrun.
  rewrite init_in_flight in Hrun. simpl in Hrun. lia.
Qed.

(** Capacity 2 and five calls: two calls are inside, a third has come
    and gone, and the bound holds; a third call cannot enter while two
    are inside. *)
Lemma permits_never_exceeded_witness :
  run (init 2 5) [(0, true); (1, true); (0, true); (0, true); (0, true);
                  (2, true); (3, false)] = None
  /\ exists s,
      run (init 2 5) [(0, true); (1, true); (0, true); (0, true); (0, true);
                      (2, true)] = Some s
      /\ fetches s = [Returned; Requesting; Requesting; Waiting; Waiting]
      /\ in_flight s <= 2.
Proof.
  split; [reflexivity|]. eexists. split; [reflexivity|]. split; [reflexivity|].
  apply (permits_never_exceeded 2 5
           [(0, true); (1, true); (0, true); (0, true); (0, true); (2, true)]).
  reflexivity.
Defined.

End PermitPoolFacts.

(* ================================================================== *)
(** * More on the fetcher                                               *)
(* ================================================================== *)

Lemma eqb_eq (a b : str) : PyStr.eqb a b = true <-> a = b.
Proof.
  revert b. induction a as [|x a IH]; intros [|y b]; simpl; split;
    try discriminate; try reflexivity.
  - intros Hab. apply andb_prop in Hab as [Hx Hab].
    apply N.eqb_eq in Hx. apply IH in Hab. now subst.
  - intros E. inversion E; subst. rewrite N.eqb_refl. now apply IH.
Qed.

Lemma eqb_refl (a : str) : PyStr.eqb a a = true.
Proof. now apply eqb_eq. Qed.

Lemma eqb_neq (a b : str) : PyStr.eqb a b = false <-> a <> b.
Proof.
  split.
  - intros Hab E. apply eqb_eq in E. congruence.
  - intros Hab. destruct (PyStr.eqb a b) eqn:E; [|reflexivity].
    apply eqb_eq in E. contradiction.
Qed.

(** X1. [fetch_page] hands back a text exactly when the transport answered,
    the status was 200 and the body could be read, and the text is that
    body; in every other case it returns nothing. *)
Theorem fetch_page_content_iff `{Collaborators} (url content : str) :
  fst (fetch_page url) = Some content
  <-> exists resp,
      session_get url = Ok resp /\ status resp = 200 /\ body resp = Ok content.
Proof.
  unfold fetch_page. split.
  - destruct (session_get url) as [resp|e]; [|discriminate].
    destruct (Z.eqb_spec (status resp) 200) as [E|E]; [|discriminate].
    destruct (body resp) as [c|e] eqn:Hbody; [|discriminate].
    simpl. intros Hc. inversion Hc; subst. exists resp. auto.
  - intros (resp & Hget & Hstatus & Hbody).
    rewrite Hget, Hstatus, Hbody. reflexivity.
Qed.

(** X2. The log of a fetch begins with the line ["Fetching: <url>"]; a fetch
    that returns a text logs nothing else, and a fetch that returns nothing
    logs exactly one more line, an error. *)
Theorem fetch_page_log_shape `{Collaborators} (url : str) :
  exists rest,
    snd (fetch_page url) = Info (lit "Fetching: " ++ url) :: rest
    /\ match fst (fetch_page url) with
       | Some _ => rest = []
       | None => exists line, rest = [line] /\ is_error line = true
       end.
Proof.
  unfold fetch_page.
  destruct (session_get url) as [resp|e]; simpl.
  - destruct (status resp =? 200); simpl.
    + destruct (body resp) as [c|e]; simpl; eexists; split; try reflexivity.
      eexists. split; reflexivity.
    + eexists. split; [reflexivity|]. eexists. split; reflexivity.
  - eexists. split; [reflexivity|]. eexists. split; reflexivity.
Qed.

(* ================================================================== *)
(** * More on the catalog extractor                                     *)
(* ================================================================== *)

Lemma parse_articles_app `{Collaborators} (page_url : str) (l1 l2 : list node) :
  parse_articles page_url (l1 ++ l2)
  = (fst (parse_articles page_url l1) ++ fst (parse_articles page_url l2),
     snd (parse_articles page_url l1) ++ snd (parse_articles page_url l2)).
Proof.
  induction l1 as [|a l1 IH]; simpl.
  - now destruct (parse_articles page_url l2).
  - rewrite IH. destruct (parse_articles page_url l1) as [b1 g1].
    destruct (parse_articles page_url l2) as [b2 g2]. simpl.
    destruct (parse_article page_url a); reflexivity.
Qed.

(** X3. In the catalog extractor an item that raises costs that item only:
    the records are those of the items before it followed by those of the
    items after it, and the log gains one line, for that item, between
    theirs. *)
Theorem failing_article_is_skipped `{Collaborators} (page_url : str)
        (before after : list node) (article : node) (e : exn) :
  parse_article page_url article = Raise e ->
  parse_articles page_url (before ++ article :: after)
  = (fst (parse_articles page_url before) ++ fst (parse_articles page_url after),
     snd (parse_articles page_url before)
       ++ ErrorExn (lit "Error parsing book: ") e
       :: snd (parse_articles page_url after)).
Proof.
  intros Hraise. rewrite parse_articles_app. simpl. rewrite Hraise.
  now destruct (parse_articles page_url after).
Qed.

Lemma failing_article_is_skipped_witness :
  parse_article (H := fixture 200 (Text []) VNone) (catalog_url 1) free_item
    = Raise ValueError
  /\ List.length
       (fst (parse_articles (H := fixture 200 (Text []) VNone) (catalog_url 1)
               ([sharp_objects] ++ free_item :: [soumission]))) = 2%nat.
Proof.
  split; [reflexivity|].
  rewrite (failing_article_is_skipped
             (H := fixture 200 (Text []) VNone) (catalog_url 1)
             [sharp_objects] [soumission] free_item ValueError eq_refl).
  reflexivity.
Defined.

(** X4. The catalog extractor accounts for every item block it is given:
    each one gives a record or an error line, so records and lines together
    are as many as the items, and every line of the loop is an error. *)
Theorem every_article_is_accounted_for `{Collaborators} (page_url : str)
        (articles : list node) :
  (List.length (fst (parse_articles page_url articles))
   + List.length (snd (parse_articles page_url articles))
   = List.length articles)%nat
  /\ forallb is_error (snd (parse_articles page_url articles)) = true.
Proof.
  induction articles as [|a rest [IHn IHe]]; simpl; [split; reflexivity|].
  destruct (parse_articles page_url rest) as [books logs]. simpl in *.
  destruct (parse_article page_url a); simpl; split; try assumption; lia.
Qed.

Lemma rating_map_get_range (label : str) :
  0 <= rating_map_get label rating_map 0 <= 5.
Proof.
  unfold rating_map. simpl.
  repeat match goal with
         | |- context [if ?b then _ else _] => destruct b
         end; lia.
Qed.

Lemma parse_article_shape `{Collaborators} (page_url : str) (article : node)
      (book : Book) :
  parse_article page_url article = Ok book -> catalog_shape book.
Proof.
  unfold parse_article, bind. intros Hbook.
  destruct (read_title_elem article) as [te|]; [|discriminate].
  destruct (urljoin _ _) as [u|]; [|discriminate].
  destruct (read_price article) as [x|]; [|discriminate].
  destruct (read_rating article) as [r|] eqn:Hr; [|discriminate].
  inversion Hbook; subst; clear Hbook. unfold catalog_shape. cbn [title author
    price availability source scraped_at isbn rating].
  split; [eexists; reflexivity|]. split; [reflexivity|].
  split; [eexists; reflexivity|]. split.
  { unfold read_availability. destruct (find article _ _); auto. }
  split; [reflexivity|]. split; [reflexivity|]. split; [reflexivity|].
  unfold read_rating in Hr.
  destruct (find article (lit "p") (Some (lit "star-rating"))) as [re|];
    [|inversion Hr; now left].
  destruct (get_class re) as [classes|]; [|discriminate].
  destruct (nth_error classes 1) as [label|]; [|discriminate].
  inversion Hr. right. eexists. split; [reflexivity|]. apply rating_map_get_range.
Qed.

(** X5. Every record of the catalog extractor has a text for a title, the
    author ["Unknown"], a price, one of the two stock labels, the source
    ["books.toscrape.com"], no ISBN, and a rating that is absent or a whole
    number from 0 to 5. *)
Theorem catalog_records_shape `{Collaborators} (page_num : Z)
        (books : list Book) (book : Book) :
  fst (scrape_books_toscrape page_num) = Ok books ->
  In book books ->
  catalog_shape book.
Proof.
  unfold scrape_books_toscrape.
  destruct (fetch_page (catalog_url page_num)) as [html fetch_log].
  destruct (content_of html) as [content|];
    [|simpl; intros Hb; inversion Hb; contradiction].
  destruct (BeautifulSoup content) as [soup|]; [|discriminate].
  pose proof (parse_articles_origin (catalog_url page_num) book
                (find_all soup (lit "article") (Some (lit "product_pod"))))
    as Horigin.
  destruct (parse_articles _ _) as [bs logs]. simpl in *.
  intros Hb Hin. inversion Hb; subst bs.
  destruct (Horigin Hin) as (article & _ & Hparse).
  now apply parse_article_shape in Hparse.
Qed.

Lemma catalog_records_shape_witness :
  exists book,
    fst (scrape_books_toscrape (H := fixture 200 priced_page VNone) 1) = Ok [book]
    /\ catalog_shape (H := fixture 200 priced_page VNone) book.
Proof.
  eexists. split; [reflexivity|].
  apply (catalog_records_shape (H := fixture 200 priced_page VNone) 1 _ _ eq_refl).
  now left.
Defined.

(** ** Reading a price of the shop's form *)

Lemma replace_single (c : char) (s : str) :
  replace [c] [] s = filter (fun x => negb (N.eqb c x)) s.
Proof.
  unfold replace. induction s as [|x s IH]; simpl; [reflexivity|].
  destruct (N.eqb c x); simpl.
  - exact IH.
  - now rewrite IH.
Qed.

Lemma filter_all {A} (f : A -> bool) (l : list A) :
  forallb f l = true -> filter f l = l.
Proof.
  induction l as [|x l IH]; simpl; [reflexivity|].
  intros Hall. apply andb_prop in Hall as [Hx Hl]. rewrite Hx. now rewrite IH.
Qed.

Lemma filter_none {A} (f : A -> bool) (l : list A) :
  forallb (fun x => negb (f x)) l = true -> filter f l = [].
Proof.
  induction l as [|x l IH]; simpl; [reflexivity|].
  intros Hall. apply andb_prop in Hall as [Hx Hl].
  apply negb_true_iff in Hx. rewrite Hx. now apply IH.
Qed.

Lemma filter_twice {A} (f g : A -> bool) (l : list A) :
  filter f (filter g l) = filter (fun x => g x && f x) l.
Proof.
  induction l as [|x l IH]; simpl; [reflexivity|].
  destruct (g x); simpl; [|exact IH]. destruct (f x); now rewrite IH.
Qed.

Lemma forallb_impl {A} (f g : A -> bool) (l : list A) :
  (forall x, f x = true -> g x = true) ->
  forallb f l = true -> forallb g l = true.
Proof.
  intros Hfg. induction l as [|x l IH]; simpl; [reflexivity|].
  intros Hall. apply andb_prop in Hall as [Hx Hl].
  now rewrite (Hfg x Hx), IH.
Qed.

Lemma is_digit_bounds (c : char) : is_digit c = true -> (48 <= c <= 57)%N.
Proof.
  unfold is_digit. intros Hc. apply andb_prop in Hc as [H1 H2].
  apply N.leb_le in H1, H2. change (48 <= c <= 57)%N. lia.
Qed.

Lemma plain_char_cases (c : char) :
  plain_char c = true -> (48 <= c <= 57)%N \/ c = 46%N.
Proof.
  unfold plain_char. intros Hc. apply orb_prop in Hc as [Hd|Hp].
  - left. now apply is_digit_bounds.
  - right. now apply N.eqb_eq in Hp.
Qed.

Lemma plain_price (int_part frac_part : str) :
  all_digits int_part = true -> all_digits frac_part = true ->
  forallb plain_char (int_part ++ 46%N :: frac_part) = true.
Proof.
  intros Hi Hf. rewrite forallb_app. simpl.
  rewrite (forallb_impl is_digit plain_char int_part), (forallb_impl is_digit plain_char frac_part);
    try assumption; try reflexivity;
    intros x Hx; unfold plain_char; now rewrite Hx.
Qed.

(** The two replacements leave exactly the decimal of a shop price. *)
Lemma shop_price_cleaned (symbols int_part frac_part : str) :
  forallb currency_symbol symbols = true ->
  all_digits int_part = true -> all_digits frac_part = true ->
  replace a_circumflex [] (replace pound [] (shop_price symbols int_part frac_part))
  = int_part ++ 46%N :: frac_part.
Proof.
  intros Hs Hi Hf. unfold a_circumflex, pound, shop_price.
  rewrite !replace_single, filter_twice, filter_app.
  rewrite (filter_none _ symbols), (filter_all _ (int_part ++ 46%N :: frac_part));
    [reflexivity| |].
  - apply forallb_impl with (f := plain_char); [|now apply plain_price].
    intros x Hx. apply plain_char_cases in Hx.
    apply andb_true_intro. split; apply negb_true_iff, N.eqb_neq;
      intros E; subst x; lia.
  - apply forallb_impl with (f := currency_symbol); [|assumption].
    intros x Hx. unfold currency_symbol in Hx. apply orb_prop in Hx.
    apply negb_true_iff.
    destruct Hx as [Hx|Hx]; apply N.eqb_eq in Hx; subst x; reflexivity.
Qed.

Lemma to_ascii_plain (s : str) :
  forallb plain_char s = true -> to_ascii s = Some s.
Proof.
  induction s as [|c s IH]; simpl; [reflexivity|].
  intros Hall. apply andb_prop in Hall as [Hc Hs]. rewrite (IH Hs).
  apply plain_char_cases in Hc.
  assert (Hlt : (c <? 127)%N = true) by (apply N.ltb_lt; change (c < 127)%N; lia).
  now rewrite Hlt.
Qed.

Lemma drop_underscores_plain (prev : option char) (s : str) :
  match prev with Some p => plain_char p = true | None => True end ->
  forallb plain_char s = true ->
  drop_underscores prev s = Some s.
Proof.
  revert prev. induction s as [|c s IH]; intros prev Hprev Hall; simpl.
  - destruct prev as [p|]; [|reflexivity].
    apply plain_char_cases in Hprev.
    assert (Hp : N.eqb p underscore = false)
      by (apply N.eqb_neq; unfold underscore; change (p <> 95)%N; lia).
    now rewrite Hp.
  - apply andb_prop in Hall as [Hc Hs].
    pose proof (plain_char_cases c Hc) as Hcc.
    assert (Hcu : N.eqb c underscore = false)
      by (apply N.eqb_neq; unfold underscore; change (c <> 95)%N; lia).
    rewrite Hcu.
    assert (Hbad : match prev with
                   | Some p => N.eqb p underscore && negb (is_digit c)
                   | None => false
                   end = false).
    { destruct prev as [p|]; [|reflexivity].
      apply plain_char_cases in Hprev.
      assert (Hp : N.eqb p underscore = false)
        by (apply N.eqb_neq; unfold underscore; change (p <> 95)%N; lia).
      now rewrite Hp. }
    rewrite Hbad. now rewrite (IH (Some c) Hc Hs).
Qed.

Lemma plain_char_not_blank (c : char) :
  plain_char c = true -> c_isspace c = false.
Proof.
  intros Hc. apply plain_char_cases in Hc. unfold c_isspace. simpl.
  repeat (apply orb_false_iff; split); try reflexivity;
    apply N.eqb_neq;
    match goal with |- ?a <> ?b => change (@eq N a b -> False) end; lia.
Qed.

Lemma c_lstrip_plain (s : str) :
  forallb plain_char s = true -> c_lstrip s = s.
Proof.
  destruct s as [|c s]; simpl; [reflexivity|].
  intros Hall. apply andb_prop in Hall as [Hc _].
  now rewrite (plain_char_not_blank c Hc).
Qed.

Lemma forallb_rev {A} (f : A -> bool) (l : list A) :
  forallb f l = true -> forallb f (rev l) = true.
Proof.
  rewrite !forallb_forall. intros Hall x Hin. apply Hall. now apply in_rev.
Qed.

Lemma c_strip_plain (s : str) :
  forallb plain_char s = true -> c_strip s = s.
Proof.
  intros Hall. unfold c_strip. rewrite (c_lstrip_plain s Hall).
  rewrite (c_lstrip_plain (rev s) (forallb_rev _ _ Hall)). apply rev_involutive.
Qed.

Lemma span_digits_all (d rest : str) :
  all_digits d = true ->
  match rest with c :: _ => is_digit c = false | [] => True end ->
  span_digits (d ++ rest) = (d, rest).
Proof.
  intros Hd Hrest. induction d as [|c d IH]; simpl.
  - destruct rest as [|c r]; [reflexivity|]. simpl. now rewrite Hrest.
  - simpl in Hd. apply andb_prop in Hd as [Hc Hd].
    rewrite Hc, (IH Hd). reflexivity.
Qed.

Lemma read_number_plain (int_part frac_part : str) :
  int_part <> [] ->
  all_digits int_part = true -> all_digits frac_part = true ->
  read_number (int_part ++ 46%N :: frac_part)
  = Some (of_decimal false (digits_value (int_part ++ frac_part))
                     (- Z.of_nat (List.length frac_part))).
Proof.
  intros Hne Hi Hf. unfold read_number.
  assert (Hsign : take_sign (int_part ++ 46%N :: frac_part)
                  = (false, int_part ++ 46%N :: frac_part)).
  { destruct int_part as [|c r]; [contradiction|]. simpl in Hi.
    apply andb_prop in Hi as [Hc _]. apply is_digit_bounds in Hc.
    simpl. unfold take_sign.
    repeat match goal with
           | |- context [match ?p with _ => _ end] => destruct p
           end; try reflexivity; exfalso; lia. }
  rewrite Hsign. unfold read_decimal.
  rewrite (span_digits_all int_part (46%N :: frac_part) Hi eq_refl).
  pose proof (span_digits_all frac_part [] Hf I) as Hspan.
  rewrite app_nil_r in Hspan. rewrite Hspan.
  destruct (int_part ++ frac_part) as [|c r] eqn:Happ.
  - apply app_eq_nil in Happ as [E _]. contradiction.
  - simpl. reflexivity.
Qed.

(** [float] on a plain decimal: the nearest double to its value. *)
Lemma of_str_plain (int_part frac_part : str) :
  int_part <> [] ->
  all_digits int_part = true -> all_digits frac_part = true ->
  of_str (int_part ++ 46%N :: frac_part)
  = Some (of_decimal false (digits_value (int_part ++ frac_part))
                     (- Z.of_nat (List.length frac_part))).
Proof.
  intros Hne Hi Hf. unfold of_str.
  pose proof (plain_price int_part frac_part Hi Hf) as Hplain.
  rewrite (to_ascii_plain _ Hplain), (drop_underscores_plain None _ I Hplain).
  rewrite (c_strip_plain _ Hplain). now apply read_number_plain.
Qed.

(** ** Rounding never invents a NaN *)

Lemma shr_1_nonneg (mrs : shr_record) :
  0 <= shr_m mrs -> 0 <= shr_m (shr_1 mrs).
Proof.
  destruct mrs as [m r st]. simpl.
  destruct m as [|p|p]; simpl; try lia; destruct p; simpl; lia.
Qed.

Lemma iter_shr_1_nonneg (p : positive) (mrs : shr_record) :
  0 <= shr_m mrs -> 0 <= shr_m (iter_pos shr_1 p mrs).
Proof.
  revert mrs. induction p as [p IH|p IH|]; intros mrs Hm; simpl.
  - apply IH, IH. now apply shr_1_nonneg.
  - now apply IH, IH.
  - now apply shr_1_nonneg.
Qed.

Lemma shr_fexp_nonneg (m e : Z) (l : location) :
  0 <= m -> 0 <= shr_m (fst (shr_fexp prec emax m e l)).
Proof.
  intros Hm. unfold shr_fexp, shr.
  assert (H0 : 0 <= shr_m (shr_record_of_loc m l)).
  { destruct l as [|[| |]]; simpl; assumption. }
  destruct (fexp prec emax (Zdigits2 m + e) - e) as [|p|p]; simpl; try assumption.
  now apply iter_shr_1_nonneg.
Qed.

Lemma round_nearest_even_nonneg (m : Z) (l : location) :
  0 <= m -> 0 <= round_nearest_even m l.
Proof.
  intros Hm. destruct l as [|[| |]]; simpl; try lia.
  destruct (Z.even m); lia.
Qed.

(** Rounding a non-negative mantissa gives a zero, a finite number or an
    infinity of the sign asked for. *)
Lemma binary_round_aux_number (sx : bool) (mx ex : Z) (lx : location) :
  0 <= mx ->
  is_nan (binary_round_aux prec emax sx mx ex lx) = false.
Proof.
  intros Hm. unfold binary_round_aux.
  pose proof (shr_fexp_nonneg mx ex lx Hm) as H1.
  destruct (shr_fexp prec emax mx ex lx) as [mrs e1]. simpl in H1.
  pose proof (shr_fexp_nonneg
                (round_nearest_even (shr_m mrs) (loc_of_shr_record mrs)) e1
                loc_Exact (round_nearest_even_nonneg _ _ H1)) as H2.
  destruct (shr_fexp prec emax _ e1 loc_Exact) as [mrs2 e2]. simpl in H2.
  destruct (shr_m mrs2) as [|m|m]; [reflexivity| |lia].
  now destruct (_ <=? _).
Qed.

Lemma shifted_nonneg (m s : Z) :
  0 <= m ->
  0 <= match s with
       | Z0 => m
       | Zpos _ => Z.shiftl m s
       | Zneg _ => 0
       end.
Proof.
  intros Hm. destruct s; try lia. now apply Z.shiftl_nonneg.
Qed.

Lemma of_decimal_number (neg : bool) (m : N) (e : Z) :
  is_nan (of_decimal neg m e) = false.
Proof.
  unfold of_decimal. destruct m as [|p]; [reflexivity|].
  destruct (Z.leb_spec 0 e) as [He|He].
  - unfold binary_round. destruct (shl_align _ _ _) as [mz ez].
    apply binary_round_aux_number. lia.
  - unfold SFdiv_core_binary.
    set (m' := match _ - _ - _ with Z0 => Z.pos p | Zpos _ => _ | Zneg _ => 0 end).
    assert (Hm' : 0 <= m').
    { subst m'. apply shifted_nonneg. lia. }
    assert (Hpow : 0 < 10 ^ (- e)) by (apply Z.pow_pos_nonneg; lia).
    pose proof (Z.div_pos m' (10 ^ (- e)) Hm' Hpow) as Hq.
    unfold Z.div in Hq.
    destruct (Z.div_eucl m' (10 ^ (- e))) as [q r]. simpl in Hq.
    now apply binary_round_aux_number.
Qed.

(** An unsigned decimal is read as a number that is not below zero. *)
Lemma of_decimal_nonnegative (m : N) (e : Z) :
  nonnegative (of_decimal false m e) = true.
Proof.
  pose proof (of_decimal_sign false m e) as Hs.
  pose proof (of_decimal_number false m e) as Hn.
  destruct (has_sign_nonnegative _ Hs) as [Hnan|H0]; [congruence|assumption].
Qed.

(** X6. A price text of the shop's form, currency symbols then digits, a
    point and digits, is always read: the price is the double nearest to
    the decimal shown, and it is not below zero. *)
Theorem shop_price_is_read `{Collaborators} (article : node)
        (symbols int_part frac_part : str) :
  forallb currency_symbol symbols = true ->
  int_part <> [] ->
  all_digits int_part = true ->
  all_digits frac_part = true ->
  price_text article = shop_price symbols int_part frac_part ->
  read_price article
  = Ok (of_decimal false (digits_value (int_part ++ frac_part))
                   (- Z.of_nat (List.length frac_part)))
  /\ nonnegative (of_decimal false (digits_value (int_part ++ frac_part))
                             (- Z.of_nat (List.length frac_part))) = true.
Proof.
  intros Hs Hne Hi Hf Htext. split; [|apply of_decimal_nonnegative].
  unfold read_price. rewrite Htext, (shop_price_cleaned _ _ _ Hs Hi Hf).
  now rewrite (of_str_plain _ _ Hne Hi Hf).
Qed.

Lemma shop_price_is_read_witness :
  price_text soumission = shop_price [194%N; 163%N] (lit "50") (lit "10")
  /\ read_price soumission = Ok (of_decimal false 5010 (-2))
  /\ nonnegative (of_decimal false 5010 (-2)) = true.
Proof.
  split; [reflexivity|].
  apply (shop_price_is_read (H := fixture 200 (Text []) VNone) soumission
           [194%N; 163%N] (lit "50") (lit "10")); try reflexivity.
  discriminate.
Defined.

Lemma well_formed_item_parses `{Collaborators} (page_url : str) (article : node) :
  well_formed_item page_url article ->
  exists book, parse_article page_url article = Ok book.
Proof.
  intros ((te & u & Hte & Hu) & (sy & ip & fp & Hs & Hne & Hi & Hf & Htext)
          & (r & Hr)).
  destruct (shop_price_cleaned sy ip fp Hs Hi Hf).
  assert (Hp : exists x, read_price article = Ok x).
  { unfold read_price. rewrite Htext, (shop_price_cleaned _ _ _ Hs Hi Hf).
    rewrite (of_str_plain _ _ Hne Hi Hf). eexists. reflexivity. }
  destruct Hp as [x Hp].
  unfold parse_article, bind. rewrite Hte, Hu, Hp, Hr. eexists. reflexivity.
Qed.

(** X7. A catalog page all of whose item blocks are well formed loses
    nothing: the extractor returns one record per item block and the loop
    logs no line. *)
Theorem well_formed_page_gives_every_item `{Collaborators} (page_num : Z)
        (content : str) (soup : node) :
  content_of (fst (fetch_page (catalog_url page_num))) = Some content ->
  BeautifulSoup content = Ok soup ->
  (forall article,
      In article (find_all soup (lit "article") (Some (lit "product_pod"))) ->
      well_formed_item (catalog_url page_num) article) ->
  exists books,
    scrape_books_toscrape page_num
    = (Ok books, snd (fetch_page (catalog_url page_num)))
    /\ List.length books
       = List.length (find_all soup (lit "article") (Some (lit "product_pod"))).
Proof.
  intros Hcontent Hsoup Hwf. unfold scrape_books_toscrape.
  destruct (fetch_page (catalog_url page_num)) as [html fetch_log].
  simpl in *. rewrite Hcontent, Hsoup.
  assert (Hall : forall articles,
             (forall a, In a articles -> well_formed_item (catalog_url page_num) a) ->
             snd (parse_articles (catalog_url page_num) articles) = []
             /\ List.length (fst (parse_articles (catalog_url page_num) articles))
                = List.length articles).
  { induction articles as [|a rest IH]; intros Hin; simpl; [auto|].
    destruct (IH (fun x Hx => Hin x (or_intror Hx))) as [IHl IHn].
    destruct (parse_articles (catalog_url page_num) rest) as [bs ls].
    destruct (well_formed_item_parses _ a (Hin a (or_introl eq_refl))) as [b Hb].
    rewrite Hb. simpl in *. split; [assumption|now f_equal]. }
  destruct (Hall _ Hwf) as [Hlog Hlen].
  destruct (parse_articles _ _) as [books logs]. simpl in *. subst logs.
  exists books. rewrite app_nil_r. auto.
Qed.

Lemma well_formed_page_gives_every_item_witness :
  exists books,
    scrape_books_toscrape (H := fixture 200 clean_page VNone) 1
    = (Ok books, snd (fetch_page (H := fixture 200 clean_page VNone) (catalog_url 1)))
    /\ List.length books = 2%nat.
Proof.
  apply (well_formed_page_gives_every_item
           (H := fixture 200 clean_page VNone) 1 (lit "payload") clean_page
           eq_refl eq_refl).
  intros article Hin.
  change (In article [sharp_objects; soumission]) in Hin.
  destruct Hin as [<-|[<-|[]]].
  - split; [eexists; eexists; split; reflexivity|].
    split; [|eexists; reflexivity].
    exists [163%N], (lit "47"), (lit "82").
    split; [reflexivity|]. split; [discriminate|].
    split; [reflexivity|]. split; reflexivity.
  - split; [eexists; eexists; split; reflexivity|].
    split; [|eexists; reflexivity].
    exists [194%N; 163%N], (lit "50"), (lit "10").
    split; [reflexivity|]. split; [discriminate|].
    split; [reflexivity|]. split; reflexivity.
Defined.

(* ================================================================== *)
(** * More on the search extractor                                      *)
(* ================================================================== *)

Lemma replace_char_map (a : char) (new s : str) :
  replace [a] new s = flat_map (fun c => if N.eqb a c then new else [c]) s.
Proof.
  unfold replace. induction s as [|x s IH]; simpl; [reflexivity|].
  destruct (N.eqb a x); simpl; now rewrite IH.
Qed.

Lemma not_in_text (c : char) (s : str) :
  existsb (N.eqb c) s = false -> ~ In c s.
Proof.
  intros Hex Hin.
  assert (Ht : existsb (N.eqb c) s = true).
  { apply existsb_exists. exists c. split; [assumption|apply N.eqb_refl]. }
  congruence.
Qed.

(** X8. The search URL is the fixed prefix, the query with every space
    turned into a plus sign and every other character left as it is, and
    the fixed suffix; it contains no space. *)
Theorem search_url_has_no_space (query : str) :
  search_url query
  = lit "https://openlibrary.org/search.json?q="
      ++ flat_map space_to_plus query ++ lit "&limit=20"
  /\ ~ In 32%N (search_url query).
Proof.
  assert (Hurl : search_url query
                 = lit "https://openlibrary.org/search.json?q="
                     ++ flat_map space_to_plus query ++ lit "&limit=20").
  { unfold search_url. do 2 f_equal.
    exact (replace_char_map 32%N (lit "+") query). }
  split; [exact Hurl|]. rewrite Hurl. intros Hin.
  apply in_app_or in Hin as [Hin|Hin].
  - revert Hin. now apply not_in_text.
  - apply in_app_or in Hin as [Hin|Hin].
    + apply in_flat_map in Hin as (c & _ & Hc). unfold space_to_plus in Hc.
      destruct (N.eqb_spec 32 c) as [E|E].
      * destruct Hc as [Hc|[]]. discriminate.
      * destruct Hc as [Hc|[]]. congruence.
    + revert Hin. now apply not_in_text.
Qed.

Lemma doc_to_book_well_formed `{Collaborators} (items : list (str * value)) :
  well_formed_doc (VDict items) = true ->
  doc_to_book (VDict items) = Ok (search_record items).
Proof.
  unfold well_formed_doc, doc_to_book, search_record, py_get, bind.
  intros Hwf. apply andb_prop in Hwf as [Ha Hi].
  destruct (dict_lookup (lit "title") items) as [t|];
    destruct (dict_lookup (lit "author_name") items) as [[| | | | |[|x l]|]|];
    try discriminate;
    destruct (dict_lookup (lit "isbn") items) as [[| | | | |[|y l']|]|];
    try discriminate;
    destruct (dict_lookup (lit "key") items) as [k|];
    destruct (dict_lookup (lit "ratings_average") items) as [r|];
    reflexivity.
Qed.


(** X9. A search document that is an object whose [author_name] and
    [isbn], when present, are lists is read without raising: the title is
    the document's or ["Unknown"], the author and the ISBN are the first of
    their lists, ["Unknown"] and nothing when the list is missing or empty,
    and the rating is the document's average or nothing. *)
Theorem well_formed_doc_is_read `{Collaborators} (items : list (str * value)) :
  well_formed_doc (VDict items) = true ->
  doc_to_book (VDict items) = Ok (search_record items)
  /\ price (search_record items) = None
  /\ source (search_record items) = lit "openlibrary.org".
Proof.
  intros Hwf. split; [now apply doc_to_book_well_formed|]. split; reflexivity.
Qed.

Lemma well_formed_doc_is_read_witness :
  well_formed_doc
    (VDict [(lit "title", VStr (lit "Untitled")); (lit "author_name", VList [])])
  = true
  /\ exists book,
      doc_to_book (H := fixture 200 (Text []) VNone)
        (VDict [(lit "title", VStr (lit "Untitled")); (lit "author_name", VList [])])
      = Ok book
      /\ author book = VStr (lit "Unknown") /\ isbn book = VNone.
Proof.
  split; [reflexivity|]. eexists. split.
  - apply (proj1 (well_formed_doc_is_read
                    (H := fixture 200 (Text []) VNone)
                    [(lit "title", VStr (lit "Untitled"));
                     (lit "author_name", VList [])] eq_refl)).
  - split; reflexivity.
Defined.

Lemma docs_to_books_well_formed `{Collaborators} (docs : list value) :
  forallb well_formed_doc docs = true ->
  snd (docs_to_books docs) = None
  /\ List.length (fst (docs_to_books docs)) = List.length docs.
Proof.
  induction docs as [|doc rest IH]; simpl; [auto|].
  intros Hall. apply andb_prop in Hall as [Hdoc Hrest].
  destruct (IH Hrest) as [IHe IHn].
  destruct doc; try discriminate.
  rewrite (doc_to_book_well_formed items Hdoc).
  destruct (docs_to_books rest) as [books err]. simpl in *. auto.
Qed.

(** X10. When the payload decodes to an object whose [docs] is a list and
    the first twenty documents are well formed, the search extractor
    returns one record for each of them, the smaller of twenty and the
    number of documents, and logs nothing but the fetch. *)
Theorem well_formed_payload_gives_every_doc `{Collaborators} (query content : str)
        (items : list (str * value)) (docs : list value) :
  content_of (fst (fetch_page (search_url query))) = Some content ->
  json_loads content = Ok (VDict items) ->
  dict_lookup (lit "docs") items = Some (VList docs) ->
  forallb well_formed_doc (firstn 20 docs) = true ->
  exists books,
    scrape_openlibrary_search query
    = (Ok books, snd (fetch_page (search_url query)))
    /\ List.length books = Nat.min 20 (List.length docs).
Proof.
  intros Hcontent Hjson Hdocs Hwf. unfold scrape_openlibrary_search.
  destruct (fetch_page (search_url query)) as [html fetch_log].
  cbn [fst snd] in *.
  rewrite Hcontent. unfold parse_search, bind, py_get.
  rewrite Hjson, Hdocs. cbn [py_slice_to].
  destruct (docs_to_books_well_formed _ Hwf) as [Herr Hlen].
  destruct (docs_to_books (firstn 20 docs)) as [books err].
  cbn [fst snd] in Herr, Hlen. subst err. exists books. rewrite app_nil_r. split; [reflexivity|].
  now rewrite Hlen, length_firstn.
Qed.

Lemma well_formed_payload_gives_every_doc_witness :
  exists books,
    scrape_openlibrary_search
      (H := fixture 200 (Text []) (VDict clean_payload)) (lit "data science")
    = (Ok books,
       snd (fetch_page (H := fixture 200 (Text []) (VDict clean_payload))
                       (search_url (lit "data science"))))
    /\ List.length books = 2%nat.
Proof.
  apply (well_formed_payload_gives_every_doc
           (H := fixture 200 (Text []) (VDict clean_payload))
           (lit "data science") (lit "payload") clean_payload _
           eq_refl eq_refl eq_refl eq_refl).
Defined.

(** X11. A payload that cannot be used gives no record and no exception:
    an object without [docs] is an empty result with no error; a payload
    the decoder rejects, or one that is not an object, is an empty result
    with the error handed to the log. *)
Theorem unusable_payload_gives_nothing `{Collaborators} (content : str) :
  (forall items,
      json_loads content = Ok (VDict items) ->
      dict_lookup (lit "docs") items = None ->
      parse_search content = ([], None))
  /\ (forall e, json_loads content = Raise e ->
                parse_search content = ([], Some e))
  /\ (forall data,
         json_loads content = Ok data ->
         match data with VDict _ => False | _ => True end ->
         parse_search content = ([], Some AttributeError)).
Proof.
  unfold parse_search, bind. repeat split.
  - intros items Hjson Hdocs. rewrite Hjson. simpl. now rewrite Hdocs.
  - intros e Hjson. now rewrite Hjson.
  - intros data Hjson Hdata. rewrite Hjson. destruct data; try reflexivity.
    contradiction.
Qed.

Lemma unusable_payload_gives_nothing_witness :
  json_loads (Collaborators := fixture 200 (Text []) (VList [])) (lit "[]")
    = Ok (VList [])
  /\ parse_search (H := fixture 200 (Text []) (VList [])) (lit "[]")
     = ([], Some AttributeError).
Proof.
  split; [reflexivity|].
  apply (proj2 (proj2 (unusable_payload_gives_nothing
                         (H := fixture 200 (Text []) (VList [])) (lit "[]")))
           (VList []) eq_refl I).
Defined.

(* ================================================================== *)
(** * More on the ranked-list extractor                                 *)
(* ================================================================== *)

Lemma parse_lis_length `{Collaborators} (lis : list node) :
  (List.length (fst (parse_lis lis)) <= List.length lis)%nat.
Proof.
  induction lis as [|li rest IH]; simpl; [lia|].
  destruct (parse_lis rest) as [books logs]. simpl in IH.
  destruct (parse_li li) as [[b|]|e]; simpl; lia.
Qed.

Lemma split_title_trimmed (link_text : str) :
  trimmed (fst (split_title link_text)) = true
  /\ trimmed (snd (split_title link_text)) = true.
Proof.
  unfold split_title.
  destruct (split_once (lit " by ") (strip link_text)) as [[t a]|]; simpl;
    split; apply strip_trimmed.
Qed.

Lemma parse_li_shape `{Collaborators} (li : node) (book : Book) :
  parse_li li = Ok (Some book) -> ranked_shape book.
Proof.
  unfold parse_li. destruct (find li (lit "a") None) as [link|]; [|discriminate].
  pose proof (split_title_trimmed (text link)) as [Ht Ha].
  destruct (split_title (text link)) as [t a]. simpl in Ht, Ha.
  destruct (urljoin _ _) as [u|]; simpl; [|discriminate].
  intros Hbook. inversion Hbook; subst; clear Hbook. unfold ranked_shape.
  cbn [title author price availability source scraped_at isbn rating].
  split; [exists t; auto|]. split; [exists a; auto|]. repeat split.
Qed.

(** X12. A call of the ranked-list extractor returns at most 20 records,
    and each of them has a trimmed text for a title and for an author, the
    price 0.0, the availability ["Free Download"], the source
    ["gutenberg.org"], no ISBN and no rating. *)
Theorem ranked_records_shape `{Collaborators} (books : list Book) :
  fst scrape_gutenberg_top = Ok books ->
  (List.length books <= 20)%nat
  /\ forall book, In book books -> ranked_shape book.
Proof.
  unfold scrape_gutenberg_top.
  destruct (fetch_page gutenberg_url) as [html fetch_log].
  destruct (content_of html) as [content|];
    [|simpl; intros Hb; inversion Hb; split; [simpl; lia|contradiction]].
  destruct (BeautifulSoup content) as [soup|]; [|discriminate].
  destruct (find soup (lit "ol") None) as [ol_elem|];
    [|simpl; intros Hb; inversion Hb; split; [simpl; lia|contradiction]].
  pose proof (parse_lis_length (firstn 20 (find_all ol_elem (lit "li") None)))
    as Hlen.
  pose proof (parse_lis_origin (firstn 20 (find_all ol_elem (lit "li") None)))
    as Horigin.
  destruct (parse_lis _) as [bs logs]. cbn [fst snd] in *.
  intros Hb. inversion Hb; subst bs. split.
  - pose proof (firstn_le_length 20 (find_all ol_elem (lit "li") None)). lia.
  - intros book Hin. destruct (Horigin book Hin) as (li & _ & Hli).
    now apply parse_li_shape in Hli.
Qed.

Lemma ranked_records_shape_witness :
  exists books,
    fst (scrape_gutenberg_top
           (H := fixture 200
                   (document [Elem (lit "ol") [] None
                                [ranked_item (lit "Beowulf ")]]) VNone))
    = Ok books
    /\ (List.length books <= 20)%nat.
Proof.
  eexists. split; [reflexivity|].
  apply (ranked_records_shape
           (H := fixture 200
                   (document [Elem (lit "ol") [] None
                                [ranked_item (lit "Beowulf ")]]) VNone) _ eq_refl).
Defined.

Lemma parse_li_linkless `{Collaborators} (li : node) :
  has_link li = false -> parse_li li = Ok None.
Proof.
  unfold has_link, parse_li.
  destruct (find li (lit "a") None); [discriminate|reflexivity].
Qed.

Lemma parse_li_linked `{Collaborators} (li : node) :
  has_link li = true ->
  (exists book, parse_li li = Ok (Some book)) \/ (exists e, parse_li li = Raise e).
Proof.
  unfold has_link, parse_li.
  destruct (find li (lit "a") None) as [link|]; [|discriminate]. intros _.
  destruct (split_title (text link)) as [t a].
  destruct (urljoin _ _) as [u|e]; simpl; [left|right]; eexists; reflexivity.
Qed.

(** X13. In the ranked list an entry without a link is passed over in
    silence, and every entry with a link gives a record or an error line:
    records and lines together are as many as the entries that have a
    link. *)
Theorem linked_entries_are_accounted_for `{Collaborators} (lis : list node) :
  (List.length (fst (parse_lis lis)) + List.length (snd (parse_lis lis))
   = List.length (filter has_link lis))%nat
  /\ (forallb (fun li => negb (has_link li)) lis = true ->
      parse_lis lis = ([], [])).
Proof.
  induction lis as [|li rest [IHn IHs]]; simpl; [auto|].
  destruct (parse_lis rest) as [books logs]. cbn [fst snd] in *.
  destruct (has_link li) eqn:Hlink; simpl.
  - split; [|discriminate].
    destruct (parse_li_linked li Hlink) as [[b Hb]|[e He]];
      [rewrite Hb|rewrite He]; simpl; lia.
  - rewrite (parse_li_linkless li Hlink). split; [assumption|].
    intros Hrest. now rewrite (IHs Hrest).
Qed.

Lemma linked_entries_are_accounted_for_witness :
  forallb (fun li => negb (has_link li))
          [Elem (lit "li") [] None [Text (lit "no link here")]] = true
  /\ parse_lis (H := fixture 200 (Text []) VNone)
       [Elem (lit "li") [] None [Text (lit "no link here")]] = ([], []).
Proof.
  split; [reflexivity|].
  apply (proj2 (linked_entries_are_accounted_for
                  (H := fixture 200 (Text []) VNone)
                  [Elem (lit "li") [] None [Text (lit "no link here")]])).
  reflexivity.
Defined.

Lemma strip_block (s : str) : exists left right, s = left ++ strip s ++ right.
Proof.
  destruct (lstrip_suffix s) as [left Hleft].
  destruct (lstrip_suffix (rev (lstrip s))) as [ws Hws].
  exists left, (rev ws). unfold strip, rstrip.
  rewrite <- rev_app_distr, <- Hws, rev_involutive. exact Hleft.
Qed.

Lemma contains_false (sep s : str) :
  (forall x y, s <> x ++ sep ++ y) -> contains sep s = false.
Proof.
  intros Hno. unfold contains.
  destruct (split_once sep s) as [[x y]|] eqn:Hs; [|reflexivity].
  apply split_once_app in Hs. now contradiction (Hno x y).
Qed.

Lemma contains_strip (sep s : str) :
  contains sep s = false -> contains sep (strip s) = false.
Proof.
  intros Hs. apply contains_false. intros x y Hxy.
  destruct (strip_block s) as (left & right & Hblock).
  unfold contains in Hs.
  destruct (split_once sep s) as [p|] eqn:Hsplit; [discriminate|].
  apply (split_once_none sep s Hsplit (left ++ x) (y ++ right)).
  rewrite Hblock at 1. rewrite Hxy. now rewrite <- !app_assoc.
Qed.

Lemma before_first_occurrence (sep s a b : str) :
  sep <> [] ->
  split_once sep s = Some (a, b) -> contains sep a = false.
Proof.
  intros Hsep Hs. apply contains_false. intros x y Ha.
  pose proof (split_once_app _ _ _ _ Hs) as Hs'.
  pose proof (split_once_first _ _ _ _ Hs x (y ++ sep ++ b)) as Hlen.
  rewrite Hs', Ha, <- !app_assoc in Hlen. specialize (Hlen eq_refl).
  rewrite !length_app in Hlen. destruct sep; [contradiction|]. simpl in Hlen. lia.
Qed.

(** X14. The title of a ranked-list record never contains [" by "]: the
    text is cut at the first separator, so everything after it, further
    separators included, goes to the author. *)
Theorem ranked_title_has_no_separator `{Collaborators} (li : node) (book : Book)
        (t : str) :
  parse_li li = Ok (Some book) ->
  title book = VStr t ->
  contains (lit " by ") t = false.
Proof.
  unfold parse_li. destruct (find li (lit "a") None) as [link|]; [|discriminate].
  unfold split_title.
  destruct (split_once (lit " by ") (strip (text link))) as [[a b]|] eqn:Hs.
  - destruct (urljoin _ _); simpl; [|discriminate].
    intros Hbook Ht. inversion Hbook; subst; clear Hbook.
    cbn [title] in Ht. inversion Ht; subst t.
    apply contains_strip. apply before_first_occurrence with (s := strip (text link)) (b := b);
      [discriminate|assumption].
  - destruct (urljoin _ _); simpl; [|discriminate].
    intros Hbook Ht. inversion Hbook; subst; clear Hbook.
    cbn [title] in Ht. inversion Ht; subst t.
    apply contains_strip. unfold contains. now rewrite Hs.
Qed.

Lemma ranked_title_has_no_separator_witness :
  exists book,
    parse_li (H := fixture 200 (Text []) VNone)
             (ranked_item (lit "Twenty Years After by Alexandre Dumas by proxy"))
    = Ok (Some book)
    /\ title book = VStr (lit "Twenty Years After")
    /\ author book = VStr (lit "Alexandre Dumas by proxy")
    /\ contains (lit " by ") (lit "Twenty Years After") = false.
Proof.
  eexists. split; [reflexivity|]. split; [reflexivity|]. split; [reflexivity|].
  apply (ranked_title_has_no_separator
           (H := fixture 200 (Text []) VNone)
           (ranked_item (lit "Twenty Years After by Alexandre Dumas by proxy"))
           _ _ eq_refl eq_refl).
Defined.

(* ================================================================== *)
(** * More on the orchestrator                                          *)
(* ================================================================== *)

Lemma flatten_results_failures (ts : list (result (list Book) * list log_line)) :
  snd (flatten_results (List.map fst ts))
  = flat_map (fun t => match fst t with
                       | Raise e => [ErrorExn (lit "Task failed with error: ") e]
                       | Ok _ => []
                       end) ts.
Proof.
  induction ts as [|[r l] ts IH]; simpl; [reflexivity|].
  destruct (flatten_results (List.map fst ts)) as [books logs]. simpl in IH.
  destruct r; simpl; now rewrite IH.
Qed.

(** X15. Whatever number of tasks fail, the orchestrator returns the
    records of the tasks that returned, task after task in the order the
    tasks were declared and, within a task, in the order the task gave
    them; and it logs one failure line per task that raised, no more. *)
Theorem returned_records_in_task_order (ts : list (outcome (list Book))) :
  fst (run_tasks ts) = List.concat (List.map task_records ts)
  /\ List.length (filter is_error (snd (flatten_results (List.map fst ts))))
     = List.length (filter (fun t => negb (succeeded t)) ts).
Proof.
  split; [apply run_tasks_books|].
  rewrite flatten_results_failures.
  induction ts as [|[r l] ts IH]; simpl; [reflexivity|].
  unfold succeeded at 1. simpl. destruct r; simpl; now rewrite IH.
Qed.

Lemma scrape_books_toscrape_origin `{Collaborators} (page_num : Z)
      (books : list Book) (book : Book) :
  fst (scrape_books_toscrape page_num) = Ok books -> In book books ->
  exists article, parse_article (catalog_url page_num) article = Ok book.
Proof.
  unfold scrape_books_toscrape.
  destruct (fetch_page (catalog_url page_num)) as [html fetch_log].
  destruct (content_of html) as [content|];
    [|simpl; intros Hb; inversion Hb; contradiction].
  destruct (BeautifulSoup content) as [soup|]; [|discriminate].
  pose proof (parse_articles_origin (catalog_url page_num) book
                (find_all soup (lit "article") (Some (lit "product_pod"))))
    as Horigin.
  destruct (parse_articles _ _) as [bs logs]. cbn [fst snd] in *.
  intros Hb Hin. inversion Hb; subst bs.
  destruct (Horigin Hin) as (article & _ & Hparse). now exists article.
Qed.

Lemma scrape_openlibrary_search_origin `{Collaborators} (query : str)
      (books : list Book) (book : Book) :
  fst (scrape_openlibrary_search query) = Ok books -> In book books ->
  exists doc, doc_to_book doc = Ok book.
Proof.
  unfold scrape_openlibrary_search.
  destruct (fetch_page (search_url query)) as [html fetch_log].
  destruct (content_of html) as [content|];
    [|simpl; intros Hb; inversion Hb; contradiction].
  unfold parse_search.
  destruct (bind (json_loads content) _) as [docs|e];
    [|simpl; intros Hb; inversion Hb; contradiction].
  pose proof (docs_to_books_origin docs book) as Horigin.
  destruct (docs_to_books docs) as [bs err]. cbn [fst snd] in *.
  intros Hb Hin. inversion Hb; subst bs.
  destruct (Horigin Hin) as (doc & _ & Hdoc). now exists doc.
Qed.

Lemma scrape_gutenberg_top_origin `{Collaborators}
      (books : list Book) (book : Book) :
  fst scrape_gutenberg_top = Ok books -> In book books ->
  exists li, parse_li li = Ok (Some book).
Proof.
  unfold scrape_gutenberg_top.
  destruct (fetch_page gutenberg_url) as [html fetch_log].
  destruct (content_of html) as [content|];
    [|simpl; intros Hb; inversion Hb; contradiction].
  destruct (BeautifulSoup content) as [soup|]; [|discriminate].
  destruct (find soup (lit "ol") None) as [ol_elem|];
    [|simpl; intros Hb; inversion Hb; contradiction].
  pose proof (parse_lis_origin (firstn 20 (find_all ol_elem (lit "li") None)) book)
    as Horigin.
  destruct (parse_lis _) as [bs logs]. cbn [fst snd] in *.
  intros Hb Hin. inversion Hb; subst bs.
  destruct (Horigin Hin) as (li & _ & Hli). now exists li.
Qed.

Lemma doc_to_book_source `{Collaborators} (doc : value) (book : Book) :
  doc_to_book doc = Ok book ->
  source book = lit "openlibrary.org" /\ price book = None.
Proof.
  unfold doc_to_book, bind. intros Hbook.
  repeat match type of Hbook with
         | context [match ?x with _ => _ end] => destruct x; try discriminate
         end.
  all: now inversion Hbook.
Qed.

(** What a record of a run is: a catalog record, a search record or a
    ranked-list record. *)
Lemma run_record_origin `{Collaborators} (book : Book) :
  In book (fst run_all_scrapers) ->
  (exists page_url article, parse_article page_url article = Ok book)
  \/ (exists doc, doc_to_book doc = Ok book)
  \/ (exists li, parse_li li = Ok (Some book)).
Proof.
  unfold run_all_scrapers. rewrite run_tasks_books. intros Hin.
  apply in_concat in Hin as (records & Hrecords & Hbook).
  apply in_map_iff in Hrecords as (t & Ht & Htask). subst records.
  unfold task_records in Hbook.
  destruct (fst t) as [books|e] eqn:Hfst; [|contradiction].
  unfold tasks in Htask. simpl in Htask.
  destruct Htask as [<-|[<-|[<-|[<-|[<-|[<-|[]]]]]]].
  - left. destruct (scrape_books_toscrape_origin 1 books book Hfst Hbook) as [a Ha].
    eauto.
  - left. destruct (scrape_books_toscrape_origin 2 books book Hfst Hbook) as [a Ha].
    eauto.
  - left. destruct (scrape_books_toscrape_origin 3 books book Hfst Hbook) as [a Ha].
    eauto.
  - right. left. eapply scrape_openlibrary_search_origin; eassumption.
  - right. left. eapply scrape_openlibrary_search_origin; eassumption.
  - right. right. eapply scrape_gutenberg_top_origin; eassumption.
Qed.

(** X16. Every record a run returns carries one of the three source tags;
    it has no price exactly when its source is ["openlibrary.org"]; and a
    record that has a price has a text for a title. *)
Theorem run_records_sources `{Collaborators} (book : Book) :
  In book (fst run_all_scrapers) ->
  In (source book) known_sources
  /\ (price book = None <-> source book = lit "openlibrary.org")
  /\ (price book <> None -> exists t, title book = VStr t).
Proof.
  intros Hin.
  destruct (run_record_origin book Hin) as [(u & a & Ha)|[(d & Hd)|(li & Hli)]].
  - apply parse_article_shape in Ha
      as ((t & Ht) & _ & (x & Hx) & _ & Hs & _).
    rewrite Hs, Hx. split; [now left|]. split; [|intros _; now exists t].
    split; intros E; discriminate E.
  - apply doc_to_book_source in Hd as [Hs Hp]. rewrite Hs, Hp.
    split; [right; now left|]. split; [tauto|]. intros Hn. now contradiction Hn.
  - apply parse_li_shape in Hli as ((t & Ht & _) & _ & Hp & _ & Hs & _).
    rewrite Hs, Hp. split; [right; right; now left|].
    split; [|intros _; now exists t]. split; intros E; discriminate E.
Qed.

Lemma run_records_sources_witness :
  exists book,
    In book (fst (run_all_scrapers (H := fixture 200 priced_page VNone)))
    /\ In (source book) known_sources.
Proof.
  eexists. split; [left; reflexivity|].
  apply (run_records_sources (H := fixture 200 priced_page VNone)).
  left. reflexivity.
Defined.

(* ================================================================== *)
(** * More on the aggregator                                            *)
(* ================================================================== *)

Lemma group_books_ok (results : list Book) :
  (forall book, In book results -> price book <> None ->
                hashable (title book) = true) ->
  forall comparison, exists groups, group_books results comparison = Ok groups.
Proof.
  induction results as [|book rest IH]; intros Hall comparison; simpl.
  - now exists comparison.
  - destruct (price book) as [x|] eqn:Hprice.
    + rewrite (Hall book (or_introl eq_refl)) by (rewrite Hprice; discriminate).
      apply IH. intros b Hb. apply Hall. now right.
    + apply IH. intros b Hb. apply Hall. now right.
Qed.

Lemma group_books_raises (results : list Book)
      (comparison : list (value * list Book)) (e : exn) :
  group_books results comparison = Raise e ->
  e = TypeError
  /\ exists book, In book results /\ price book <> None
                  /\ hashable (title book) = false.
Proof.
  revert comparison. induction results as [|book rest IH]; intros comparison; simpl.
  - discriminate.
  - destruct (price book) as [x|] eqn:Hprice.
    + destruct (hashable (title book)) eqn:Hhash.
      * intros Hr. destruct (IH _ Hr) as (He & b & Hb & Hp & Hh).
        split; [assumption|]. exists b. auto.
      * intros Hr. inversion Hr. split; [reflexivity|]. exists book.
        rewrite Hprice. repeat split; auto. discriminate.
    + intros Hr. destruct (IH _ Hr) as (He & b & Hb & Hp & Hh).
      split; [assumption|]. exists b. auto.
Qed.

(** X17. The price comparison of what a run returned never raises: every
    record of a run that has a price has a text for a title, which a dict
    takes for a key. *)
Theorem price_comparison_of_a_run_succeeds `{Collaborators} `{ListSort} :
  exists groups, get_price_comparison (fst run_all_scrapers) = Ok groups.
Proof.
  destruct (group_books_ok (fst run_all_scrapers)) with (comparison := @nil (value * list Book))
    as [groups Hgroups].
  - intros book Hin Hprice.
    destruct (run_record_origin book Hin) as [(u & a & Ha)|[(d & Hd)|(li & Hli)]].
    + apply parse_article_shape in Ha as ((t & Ht) & _). now rewrite Ht.
    + apply doc_to_book_source in Hd as [_ Hp]. contradiction.
    + apply parse_li_shape in Hli as ((t & Ht & _) & _). now rewrite Ht.
  - unfold get_price_comparison, bind. rewrite Hgroups. eexists. reflexivity.
Qed.

(** X18. [get_price_comparison] raises exactly when some record with a
    price has a list or an object for a title, and then it raises a
    [TypeError]; records without a price are never looked at. *)
Theorem price_comparison_raises_iff `{ListSort} (results : list Book) (e : exn) :
  get_price_comparison results = Raise e
  <-> e = TypeError
      /\ exists book, In book results /\ price book <> None
                      /\ hashable (title book) = false.
Proof.
  unfold get_price_comparison, bind. split.
  - destruct (group_books results []) as [groups|e'] eqn:Hg; [discriminate|].
    intros Hr. inversion Hr; subst e'. now apply group_books_raises in Hg.
  - intros (-> & book & Hin & Hprice & Hhash).
    destruct (group_books results []) as [groups|e'] eqn:Hg.
    + exfalso. clear -Hg Hin Hprice Hhash. revert Hg. generalize (@nil (value * list Book)).
      induction results as [|b rest IH]; intros comparison; simpl; [contradiction|].
      destruct Hin as [->|Hin].
      * destruct (price book); [|now contradiction Hprice].
        rewrite Hhash. discriminate.
      * destruct (price b); [destruct (hashable (title b)); [|discriminate]|];
          now apply IH.
    + apply group_books_raises in Hg as [-> _]. reflexivity.
Qed.

(** ** What the groups hold *)

Lemma insert_by_key_perm (key : Book -> float) (book : Book) (sorted : list Book) :
  Permutation (insert_by_key key book sorted) (book :: sorted).
Proof.
  induction sorted as [|b rest IH]; simpl; [reflexivity|].
  destruct (PyFloat.ltb (key book) (key b)); [reflexivity|].
  rewrite IH. apply perm_swap.
Qed.

Lemma sort_by_key_perm (key : Book -> float) (books : list Book) :
  Permutation (sort_by_key key books) books.
Proof.
  unfold sort_by_key.
  assert (Hgen : forall acc,
             Permutation (fold_left (fun sorted b => insert_by_key key b sorted)
                                    books acc)
                         (books ++ acc)).
  { induction books as [|b rest IH]; intros acc; simpl; [reflexivity|].
    rewrite IH, insert_by_key_perm. symmetry. apply Permutation_middle. }
  rewrite Hgen. now rewrite app_nil_r.
Qed.

Lemma group_add_members (book : Book) (comparison : list (value * list Book)) :
  Permutation (group_members (group_add book comparison))
              (book :: group_members comparison).
Proof.
  unfold group_members. induction comparison as [|[k g] rest IH]; simpl.
  - reflexivity.
  - destruct (key_eqb k (title book)); simpl.
    + rewrite <- app_assoc. simpl. symmetry. apply Permutation_middle.
    + rewrite IH. symmetry. apply Permutation_middle.
Qed.

Lemma group_books_members (results : list Book)
      (comparison groups : list (value * list Book)) :
  group_books results comparison = Ok groups ->
  Permutation (group_members groups)
              (filter has_price results ++ group_members comparison).
Proof.
  revert comparison. induction results as [|book rest IH]; intros comparison; simpl.
  - intros E. inversion E. reflexivity.
  - unfold has_price at 1. destruct (price book) as [x|].
    + destruct (hashable (title book)); [|discriminate].
      intros Hg. rewrite (IH _ Hg), group_add_members. simpl.
      symmetry. apply Permutation_middle.
    + apply IH.
Qed.

Lemma sorted_groups_members `{ListSort} (comparison : list (value * list Book)) :
  Permutation
    (group_members
       (List.map (fun '(k, books) => (k, list_sort sort_key books)) comparison))
    (group_members comparison).
Proof.
  unfold group_members. induction comparison as [|[k g] rest IH]; simpl.
  - reflexivity.
  - now rewrite IH, list_sort_permutes.
Qed.

Lemma SFcompare_refl (x : float) :
  is_nan x = false -> SFcompare x x = Some Eq.
Proof.
  destruct x as [s|s| |s m e]; simpl; try discriminate; intros _;
    try (destruct s; reflexivity).
  destruct s; rewrite Z.compare_refl;
    change (PosDef.Pos.compare_cont Eq m m) with (Pos.compare_cont Eq m m);
    now rewrite Pos.compare_cont_refl.
Qed.

Lemma key_eqb_refl (v : value) : hashable v = true -> key_eqb v v = true.
Proof.
  destruct v; simpl; try discriminate; intros _; try reflexivity.
  - now destruct b.
  - apply Z.eqb_refl.
  - unfold SFeqb. destruct (is_nan x) eqn:Hn.
    + now rewrite orb_true_r.
    + now rewrite (SFcompare_refl x Hn).
  - apply eqb_refl.
Qed.

Lemma group_add_keyed (book : Book) (comparison : list (value * list Book)) :
  hashable (title book) = true ->
  keyed comparison -> keyed (group_add book comparison).
Proof.
  intros Hhash. induction comparison as [|[k g] rest IH]; intros Hk k' g' b; simpl.
  - intros [E|[]] Hb. inversion E; subst. destruct Hb as [->|[]].
    now apply key_eqb_refl.
  - destruct (key_eqb k (title book)) eqn:Hkey; simpl.
    + intros [E|Hin] Hb.
      * inversion E; subst. apply in_app_or in Hb as [Hb|[->|[]]]; [|assumption].
        apply (Hk k' g b); [now left|assumption].
      * apply (Hk k' g' b); [now right|assumption].
    + intros [E|Hin] Hb.
      * inversion E; subst. apply (Hk k' g' b); [now left|assumption].
      * apply IH with g'; try assumption.
        intros k1 g1 b1 H1 H2. apply (Hk k1 g1 b1); [now right|assumption].
Qed.

Lemma group_books_keyed (results : list Book)
      (comparison groups : list (value * list Book)) :
  keyed comparison -> group_books results comparison = Ok groups -> keyed groups.
Proof.
  revert comparison. induction results as [|book rest IH]; intros comparison Hk; simpl.
  - intros E. now inversion E; subst.
  - destruct (price book).
    + destruct (hashable (title book)) eqn:Hhash; [|discriminate].
      apply IH. now apply group_add_keyed.
    + now apply IH.
Qed.

(** X19. The groups of the price comparison hold the records that have a
    price, each of them once: taken together they are a rearrangement of
    those records, none lost and none repeated, and every record sits in a
    group whose key equals its title. *)
Theorem groups_partition_priced_records `{ListSort} (results : list Book)
        (groups : list (value * list Book)) :
  get_price_comparison results = Ok groups ->
  Permutation (group_members groups) (filter has_price results)
  /\ forall k books book,
      In (k, books) groups -> In book books -> key_eqb k (title book) = true.
Proof.
  unfold get_price_comparison, bind.
  destruct (group_books results []) as [comparison|] eqn:Hg; [|discriminate].
  intros E. inversion E; subst groups; clear E. split.
  - rewrite sorted_groups_members, (group_books_members _ _ _ Hg).
    unfold group_members. simpl. now rewrite app_nil_r.
  - intros k books book Hin Hbook.
    apply in_map_iff in Hin as ([k0 g0] & E & Hin). inversion E; subst.
    apply (group_books_keyed results [] comparison) with (books := g0);
      try assumption.
    + intros k1 g1 b1 [].
    + apply (Permutation_in _ (list_sort_permutes sort_key g0) Hbook).
Qed.

Lemma groups_partition_priced_records_witness :
  get_price_comparison (H := stable_sort) [gutenberg_frankenstein; catalog_frankenstein]
  = Ok [(VStr (lit "Frankenstein"), [catalog_frankenstein; gutenberg_frankenstein])]
  /\ Permutation [catalog_frankenstein; gutenberg_frankenstein]
                 [gutenberg_frankenstein; catalog_frankenstein].
Proof.
  split; [reflexivity|].
  apply (proj1 (groups_partition_priced_records (H := stable_sort)
                  [gutenberg_frankenstein; catalog_frankenstein] _ eq_refl)).
Defined.

Lemma group_add_keys (book : Book) (comparison : list (value * list Book))
      (P : value -> Prop) :
  P (title book) -> Forall P (List.map fst comparison) ->
  Forall P (List.map fst (group_add book comparison)).
Proof.
  intros Hb. induction comparison as [|[k g] rest IH]; simpl; intros Hall.
  - constructor; [assumption|constructor].
  - inversion Hall; subst. destruct (key_eqb k (title book)); simpl.
    + now constructor.
    + constructor; [assumption|]. now apply IH.
Qed.

Lemma group_add_distinct (book : Book) (comparison : list (value * list Book)) :
  distinct_keys comparison -> distinct_keys (group_add book comparison).
Proof.
  unfold distinct_keys. induction comparison as [|[k g] rest IH]; simpl; intros Hd.
  - constructor; constructor.
  - inversion Hd; subst. destruct (key_eqb k (title book)) eqn:Hkey; simpl.
    + now constructor.
    + constructor; [|now apply IH].
      now apply group_add_keys.
Qed.

Lemma group_add_nonempty (book : Book) (comparison : list (value * list Book)) :
  Forall (fun g => snd g <> []) comparison ->
  Forall (fun g => snd g <> []) (group_add book comparison).
Proof.
  induction comparison as [|[k g] rest IH]; simpl; intros Hall.
  - constructor; [discriminate|constructor].
  - inversion Hall; subst. destruct (key_eqb k (title book)).
    + constructor; [|assumption]. simpl. now destruct g.
    + constructor; [assumption|]. now apply IH.
Qed.

Lemma group_books_structure (results : list Book)
      (comparison groups : list (value * list Book)) :
  distinct_keys comparison ->
  Forall (fun g => snd g <> []) comparison ->
  group_books results comparison = Ok groups ->
  distinct_keys groups /\ Forall (fun g => snd g <> []) groups.
Proof.
  revert comparison. induction results as [|book rest IH]; intros comparison Hd Hn; simpl.
  - intros E. inversion E; subst. auto.
  - destruct (price book).
    + destruct (hashable (title book)); [|discriminate].
      apply IH; [now apply group_add_distinct|now apply group_add_nonempty].
    + now apply IH.
Qed.

(** X20. No two groups of the price comparison have keys that a dict takes
    for one key, and no group is empty. *)
Theorem groups_have_distinct_keys `{ListSort} (results : list Book)
        (groups : list (value * list Book)) :
  get_price_comparison results = Ok groups ->
  distinct_keys groups /\ Forall (fun g => snd g <> []) groups.
Proof.
  unfold get_price_comparison, bind.
  destruct (group_books results []) as [comparison|] eqn:Hg; [|discriminate].
  intros E. inversion E; subst groups; clear E.
  destruct (group_books_structure results [] comparison) as [Hd Hn];
    [constructor|constructor|assumption|].
  split.
  - unfold distinct_keys in *. rewrite map_map.
    erewrite map_ext; [exact Hd|]. now intros [k g].
  - apply Forall_forall. intros [k g] Hin.
    apply in_map_iff in Hin as ([k0 g0] & E & Hin). inversion E; subst.
    rewrite Forall_forall in Hn. specialize (Hn _ Hin). simpl in *.
    intros Hnil. apply Hn.
    apply Permutation_nil. rewrite <- Hnil. apply list_sort_permutes.
Qed.

Lemma groups_have_distinct_keys_witness :
  get_price_comparison (H := stable_sort) [gutenberg_frankenstein; catalog_frankenstein]
  = Ok [(VStr (lit "Frankenstein"), [catalog_frankenstein; gutenberg_frankenstein])]
  /\ distinct_keys
       [(VStr (lit "Frankenstein"), [catalog_frankenstein; gutenberg_frankenstein])].
Proof.
  split; [reflexivity|].
  apply (proj1 (groups_have_distinct_keys (H := stable_sort)
                  [gutenberg_frankenstein; catalog_frankenstein] _ eq_refl)).
Defined.

(** ** The order inside a group *)

Lemma SFcompare_antisym (a b : float) :
  SFcompare b a = option_map CompOpp (SFcompare a b).
Proof.
  destruct a as [s|s| |s m e], b as [s'|s'| |s' m' e']; simpl; try reflexivity;
    try (destruct s; reflexivity); try (destruct s'; reflexivity);
    try (destruct s, s'; reflexivity).
  pose proof (Pos.compare_cont_antisym m m' Eq) as Hm. simpl in Hm.
  destruct s, s'; simpl; try reflexivity;
    rewrite (Z.compare_antisym e e'); destruct (e ?= e'); simpl; try reflexivity.
  - do 2 f_equal. symmetry. exact Hm.
  - f_equal. symmetry. exact Hm.
Qed.

Lemma SFcompare_numbers (a b : float) :
  is_nan a = false -> is_nan b = false -> SFcompare a b <> None.
Proof.
  destruct a as [s|s| |s m e], b as [s'|s'| |s' m' e']; simpl;
    intros Ha Hb; try discriminate.
Qed.

Lemma ltb_leb (a b : float) : PyFloat.ltb a b = true -> PyFloat.leb a b = true.
Proof.
  unfold PyFloat.ltb, PyFloat.leb, SFltb, SFleb.
  now destruct (SFcompare a b) as [[| |]|].
Qed.

Lemma not_ltb_leb (a b : float) :
  is_nan a = false -> is_nan b = false ->
  PyFloat.ltb a b = false -> PyFloat.leb b a = true.
Proof.
  intros Ha Hb. unfold PyFloat.ltb, PyFloat.leb, SFltb, SFleb.
  rewrite (SFcompare_antisym a b).
  pose proof (SFcompare_numbers a b Ha Hb) as Hc.
  destruct (SFcompare a b) as [[| |]|]; simpl; try reflexivity; try discriminate.
  now contradiction Hc.
Qed.

Lemma insert_by_key_hd (b book : Book) (sorted : list Book) :
  key_le b book -> HdRel key_le b sorted ->
  HdRel key_le b (insert_by_key sort_key book sorted).
Proof.
  intros Hb Hhd. destruct sorted as [|c rest]; simpl; [now constructor|].
  destruct (PyFloat.ltb (sort_key book) (sort_key c)); constructor;
    [assumption|now inversion Hhd].
Qed.

Lemma insert_by_key_sorted (book : Book) (sorted : list Book) :
  is_nan (sort_key book) = false ->
  no_nan_price sorted = true ->
  Sorted key_le sorted -> Sorted key_le (insert_by_key sort_key book sorted).
Proof.
  intros Hbook. induction sorted as [|b rest IH]; simpl; intros Hnan Hs.
  - repeat constructor.
  - apply andb_prop in Hnan as [Hb Hrest]. apply negb_true_iff in Hb.
    inversion Hs; subst.
    destruct (PyFloat.ltb (sort_key book) (sort_key b)) eqn:Hlt.
    + constructor; [assumption|]. constructor. now apply ltb_leb.
    + constructor; [now apply IH|].
      apply insert_by_key_hd; [|assumption].
      now apply not_ltb_leb.
Qed.

Lemma no_nan_price_perm (l l' : list Book) :
  Permutation l l' -> no_nan_price l = true -> no_nan_price l' = true.
Proof.
  unfold no_nan_price. rewrite !forallb_forall. intros Hp Hall x Hx.
  apply Hall. apply (Permutation_in _ (Permutation_sym Hp) Hx).
Qed.

Lemma sort_by_key_sorted (books : list Book) :
  no_nan_price books = true -> Sorted key_le (sort_by_key sort_key books).
Proof.
  unfold sort_by_key.
  assert (Hgen : forall acc,
             no_nan_price acc = true -> no_nan_price books = true ->
             Sorted key_le acc ->
             Sorted key_le (fold_left (fun sorted b => insert_by_key sort_key b sorted)
                                      books acc)).
  { induction books as [|b rest IH]; intros acc Hacc Hbooks Hs; simpl; [assumption|].
    simpl in Hbooks. apply andb_prop in Hbooks as [Hb Hrest].
    apply negb_true_iff in Hb. apply IH; try assumption.
    - apply no_nan_price_perm with (b :: acc).
      + symmetry. apply insert_by_key_perm.
      + simpl. now rewrite Hb, Hacc.
    - now apply insert_by_key_sorted. }
  intros Hbooks. apply Hgen; [reflexivity|assumption|constructor].
Qed.

Lemma plain_prices_no_nan (books : list Book) :
  plain_prices books = true -> no_nan_price books = true.
Proof.
  unfold plain_prices, no_nan_price. apply forallb_impl. intros book.
  unfold sort_key. destruct (price book) as [x|]; [|discriminate].
  intros Hx. apply andb_prop in Hx as [Ht Hn]. now rewrite Ht.
Qed.

Lemma plain_key_le (a b : Book) :
  plain_prices [a; b] = true -> key_le a b -> price_le a b.
Proof.
  unfold plain_prices, key_le, price_le, sort_key. simpl.
  destruct (price a) as [x|]; [|discriminate].
  destruct (price b) as [y|]; [|now rewrite andb_false_r].
  intros Hp. apply andb_prop in Hp as [Hx Hy].
  apply andb_prop in Hx as [Hx _]. rewrite andb_true_r in Hy.
  apply andb_prop in Hy as [Hy _]. now rewrite Hx, Hy.
Qed.

Lemma sorted_by_price (books : list Book) :
  plain_prices books = true -> Sorted key_le books -> Sorted price_le books.
Proof.
  induction books as [|a rest IH]; intros Hp Hs; [constructor|].
  simpl in Hp. apply andb_prop in Hp as [Ha Hrest].
  inversion Hs; subst. constructor; [now apply IH|].
  destruct rest as [|b rest']; constructor.
  apply plain_key_le; [|now inversion H2].
  simpl in Hrest. apply andb_prop in Hrest as [Hb _].
  simpl. now rewrite Ha, Hb.
Qed.

(** X21. A group in which no price is NaN is in ascending order of the
    sort key, the price or infinity for a price of zero; so a group in
    which no price is zero or NaN is in ascending order of price. *)
Theorem groups_are_sorted `{ListSort} (results : list Book)
        (groups : list (value * list Book)) (k : value) (books : list Book) :
  get_price_comparison results = Ok groups ->
  In (k, books) groups ->
  (no_nan_price books = true -> Sorted key_le books)
  /\ (plain_prices books = true -> Sorted price_le books).
Proof.
  unfold get_price_comparison, bind.
  destruct (group_books results []) as [comparison|]; [|discriminate].
  intros E Hin. inversion E; subst groups; clear E.
  apply in_map_iff in Hin as ([k0 g0] & E & _). inversion E; subst.
  assert (Hkey : no_nan_price (list_sort sort_key g0) = true ->
                 Sorted key_le (list_sort sort_key g0)).
  { intros Hn.
    assert (Hg0 : no_nan_price g0 = true).
    { apply no_nan_price_perm with (list_sort sort_key g0);
        [apply list_sort_permutes|assumption]. }
    rewrite (list_sort_stable sort_key g0 Hg0). now apply sort_by_key_sorted. }
  split; [assumption|].
  intros Hp. apply sorted_by_price; [assumption|].
  now apply Hkey, plain_prices_no_nan.
Qed.

Lemma groups_are_sorted_witness :
  get_price_comparison (H := stable_sort) [clean_code "34.50"; clean_code "29.99"]
  = Ok [(VStr (lit "Clean Code"), [clean_code "29.99"; clean_code "34.50"])]
  /\ plain_prices [clean_code "29.99"; clean_code "34.50"] = true
  /\ Sorted price_le [clean_code "29.99"; clean_code "34.50"].
Proof.
  split; [reflexivity|]. split; [reflexivity|].
  apply (proj2 (groups_are_sorted (H := stable_sort)
                  [clean_code "34.50"; clean_code "29.99"] _
                  (VStr (lit "Clean Code")) _ eq_refl (or_introl eq_refl))).
  reflexivity.
Defined.

(* ================================================================== *)
(** * Counts per source                                                 *)
(* ================================================================== *)

Lemma sources_get_set_same (src : str) (n : Z) (sources : list (str * Z)) :
  sources_get src (sources_set src n sources) = n.
Proof.
  induction sources as [|[k m] rest IH]; simpl.
  - now rewrite eqb_refl.
  - destruct (PyStr.eqb k src) eqn:Hk; simpl; now rewrite Hk.
Qed.

Lemma sources_get_set_other (src other : str) (n : Z) (sources : list (str * Z)) :
  src <> other ->
  sources_get other (sources_set src n sources) = sources_get other sources.
Proof.
  intros Hne. induction sources as [|[k m] rest IH]; simpl.
  - assert (Hs : PyStr.eqb src other = false) by now apply eqb_neq.
    now rewrite Hs.
  - destruct (PyStr.eqb k src) eqn:Hk; simpl.
    + apply eqb_eq in Hk. subst k.
      assert (Hs : PyStr.eqb src other = false) by now apply eqb_neq.
      now rewrite Hs.
    + destruct (PyStr.eqb k other); [reflexivity|exact IH].
Qed.

Lemma total_count_set (src : str) (sources : list (str * Z)) :
  total_count (sources_set src (sources_get src sources + 1) sources)
  = total_count sources + 1.
Proof.
  unfold total_count. induction sources as [|[k m] rest IH]; simpl; [lia|].
  destruct (PyStr.eqb k src); simpl; [lia|]. rewrite IH. lia.
Qed.

Lemma count_sources_from_get (src : str) (books : list Book)
      (sources : list (str * Z)) :
  sources_get src (count_sources_from books sources)
  = sources_get src sources + records_from src books.
Proof.
  unfold count_sources_from, records_from.
  revert sources. induction books as [|book rest IH]; intros sources; simpl; [lia|].
  rewrite IH. destruct (PyStr.eqb (source book) src) eqn:Hs; simpl.
  - apply eqb_eq in Hs. rewrite <- Hs, sources_get_set_same. lia.
  - apply eqb_neq in Hs. rewrite (sources_get_set_other _ _ _ _ Hs). lia.
Qed.

Lemma count_sources_from_total (books : list Book) (sources : list (str * Z)) :
  total_count (count_sources_from books sources)
  = total_count sources + Z.of_nat (List.length books).
Proof.
  unfold count_sources_from.
  revert sources. induction books as [|book rest IH]; intros sources; simpl; [lia|].
  rewrite IH, total_count_set. lia.
Qed.

(** X22. The count [main] keeps for a source is the number of records
    with that source, zero for a source no record has; and the counts add
    up to the number of records. *)
Theorem counts_per_source (books : list Book) :
  (forall src, sources_get src (count_sources books) = records_from src books)
  /\ total_count (count_sources books) = Z.of_nat (List.length books).
Proof.
  split.
  - intros src. unfold count_sources. now rewrite count_sources_from_get.
  - unfold count_sources. now rewrite count_sources_from_total.
Qed.

Lemma sources_set_keys (src : str) (n : Z) (sources : list (str * Z)) (k : str) :
  In k (List.map fst (sources_set src n sources))
  <-> k = src \/ In k (List.map fst sources).
Proof.
  induction sources as [|[k0 m] rest IH]; simpl.
  - intuition congruence.
  - destruct (PyStr.eqb k0 src) eqn:Hk; simpl.
    + apply eqb_eq in Hk. subst k0. intuition congruence.
    + rewrite IH. tauto.
Qed.

Lemma sources_set_nodup (src : str) (n : Z) (sources : list (str * Z)) :
  NoDup (List.map fst sources) -> NoDup (List.map fst (sources_set src n sources)).
Proof.
  induction sources as [|[k0 m] rest IH]; simpl; intros Hnd.
  - constructor; [intros []|constructor].
  - inversion Hnd; subst. destruct (PyStr.eqb k0 src) eqn:Hk; simpl.
    + now constructor.
    + constructor; [|now apply IH].
      rewrite sources_set_keys. intros [E|Hin]; [|contradiction].
      subst k0. now rewrite eqb_refl in Hk.
Qed.

(** X23. The sources counted are the sources of the records, each of them
    once: a source is a key of the counts exactly when some record carries
    it, and no key is repeated. *)
Theorem counted_sources_are_the_sources (books : list Book) :
  NoDup (List.map fst (count_sources books))
  /\ forall src,
      In src (List.map fst (count_sources books))
      <-> exists book, In book books /\ source book = src.
Proof.
  unfold count_sources, count_sources_from.
  assert (Hgen : forall sources,
             NoDup (List.map fst sources) ->
             NoDup (List.map fst
                      (fold_left
                         (fun sources book =>
                            sources_set (source book)
                                        (sources_get (source book) sources + 1) sources)
                         books sources))
             /\ forall src,
                 In src (List.map fst
                          (fold_left
                             (fun sources book =>
                                sources_set (source book)
                                            (sources_get (source book) sources + 1)
                                            sources)
                             books sources))
                 <-> In src (List.map fst sources)
                     \/ exists book, In book books /\ source book = src).
  { induction books as [|book rest IH]; intros sources Hnd; simpl.
    - split; [assumption|]. intros src. split; [tauto|].
      intros [Hin|(b & [] & _)]. assumption.
    - destruct (IH _ (sources_set_nodup (source book)
                        (sources_get (source book) sources + 1) sources Hnd))
        as [IHn IHk].
      split; [assumption|]. intros src. rewrite IHk, sources_set_keys.
      split.
      + intros [[E|Hin]|(b & Hb & Hs)].
        * right. exists book. auto.
        * now left.
        * right. exists b. auto.
      + intros [Hin|(b & [E|Hb] & Hs)].
        * left. now right.
        * subst b. left. left. now symmetry.
        * right. exists b. auto. }
  destruct (Hgen [] (NoDup_nil _)) as [Hn Hk]. split; [assumption|].
  intros src. rewrite Hk. simpl. tauto.
Qed.

(* ================================================================== *)
(** * Saving                                                            *)
(* ================================================================== *)

Lemma dict_to_list_asdict (book : Book) :
  dict_to_list fieldnames (asdict book) = Ok (csv_row book).
Proof. reflexivity. Qed.

Lemma writerow_asdict (book : Book) :
  writerow fieldnames (asdict book)
  = if row_encodable book then Ok (csv_row book)
    else Raise (External "UnicodeEncodeError").
Proof. unfold writerow. now rewrite dict_to_list_asdict. Qed.

Lemma write_rows_asdict (results : list Book) :
  forallb row_encodable results = true ->
  write_rows fieldnames (List.map asdict results) = (List.map csv_row results, None).
Proof.
  induction results as [|book rest IH]; [reflexivity|].
  cbn [List.map write_rows forallb]. intros Hall.
  apply andb_prop in Hall as [Hbook Hrest].
  now rewrite writerow_asdict, Hbook, (IH Hrest).
Qed.

(** The first record with a cell that cannot be encoded ends the loop. *)
Lemma write_rows_stops (before after : list Book) (bad : Book) :
  forallb row_encodable before = true ->
  row_encodable bad = false ->
  write_rows fieldnames (List.map asdict (before ++ bad :: after))
  = (List.map csv_row before, Some (External "UnicodeEncodeError")).
Proof.
  intros Hbefore Hbad. induction before as [|book rest IH].
  - cbn [app List.map write_rows]. now rewrite writerow_asdict, Hbad.
  - cbn [app List.map write_rows forallb] in *.
    apply andb_prop in Hbefore as [Hbook Hrest].
    now rewrite writerow_asdict, Hbook, (IH Hrest).
Qed.

Lemma first_unencodable (results : list Book) :
  forallb row_encodable results = false ->
  exists before bad after,
    results = before ++ bad :: after
    /\ forallb row_encodable before = true
    /\ row_encodable bad = false.
Proof.
  induction results as [|book rest IH]; [discriminate|].
  cbn [forallb]. destruct (row_encodable book) eqn:Hbook.
  - intros Hrest. destruct (IH Hrest) as (before & bad & after & -> & Hb & Hbad).
    exists (book :: before), bad, after. cbn [forallb]. rewrite Hbook. auto.
  - intros _. exists [], book, rest. auto.
Qed.


Lemma rows_match_objects (books : list Book) :
  Forall2 (fun row object =>
             exists items,
               object = VDict items
               /\ List.map (fun column => dict_lookup column items) fieldnames
                  = List.map Some row)
          (List.map csv_row books)
          (List.map (fun book => VDict (asdict book)) books).
Proof.
  induction books as [|b l IH]; [constructor|].
  cbn [List.map]. apply Forall2_cons; [|exact IH].
  exists (asdict b). split; reflexivity.
Qed.

Lemma saved_csv_rows (results : list Book) (rows : list (list value)) :
  save_to_csv results = Ok (Written rows) ->
  rows = header :: List.map csv_row results.
Proof.
  unfold save_to_csv. destruct results as [|book rest]; [discriminate|].
  destruct (forallb row_encodable (book :: rest)) eqn:Hall.
  - rewrite (write_rows_asdict _ Hall). intros E. now inversion E.
  - destruct (first_unencodable _ Hall)
      as (before & bad & after & Hresults & Hbefore & Hbad).
    rewrite Hresults, (write_rows_stops before after bad Hbefore Hbad).
    discriminate.
Qed.

(** X25. The two exports carry the same data: under every column of the
    CSV file a record's cell is the member of that name of the record's
    JSON object. *)
Theorem csv_and_json_agree (results : list Book) (rows : list (list value))
        (objects : list value) :
  save_to_csv results = Ok (Written rows) ->
  save_to_json results = Ok (Written (VList objects)) ->
  Forall2 (fun row object =>
             exists items,
               object = VDict items
               /\ List.map (fun column => dict_lookup column items) fieldnames
                  = List.map Some row)
          (tl rows) objects.
Proof.
  intros Hcsv Hjson. apply saved_csv_rows in Hcsv. subst rows.
  unfold save_to_json in Hjson.
  destruct results as [|book rest]; [discriminate|].
  destruct (forallb json_encodable _); [|discriminate].
  inversion Hjson; subst objects; clear Hjson.
  exact (rows_match_objects (book :: rest)).
Qed.


Lemma csv_and_json_agree_witness :
  exists rows objects,
    save_to_csv [gutenberg_frankenstein] = Ok (Written rows)
    /\ save_to_json [gutenberg_frankenstein] = Ok (Written (VList objects))
    /\ Forall2 (fun row object =>
                  exists items,
                    object = VDict items
                    /\ List.map (fun column => dict_lookup column items) fieldnames
                       = List.map Some row)
               (tl rows) objects.
Proof.
  eexists. eexists. split; [reflexivity|]. split; [reflexivity|].
  apply (csv_and_json_agree [gutenberg_frankenstein] _ _ eq_refl eq_refl).
Defined.







(* ================================================================== *)
(** * A run without the network                                         *)
(* ================================================================== *)

Lemma no_fetch_no_task_records `{Collaborators} :
  (forall url, fst (fetch_page url) = None) ->
  forall t, In t tasks -> task_records t = [].
Proof.
  intros Hnone t Ht. unfold tasks in Ht. simpl in Ht.
  unfold task_records.
  destruct Ht as [<-|[<-|[<-|[<-|[<-|[<-|[]]]]]]];
    unfold scrape_books_toscrape, scrape_openlibrary_search, scrape_gutenberg_top;
    match goal with
    | |- context [fetch_page ?u] =>
        pose proof (Hnone u) as Hu; destruct (fetch_page u) as [html fetch_log]
    end; simpl in Hu; subst html; reflexivity.
Qed.

(** X26. When no fetch of a run returns a text, for a timeout, a transport
    error or a status other than 200, the run still returns, with no
    record; saving then writes no file, the price comparison has no group
    and no source is counted. *)
Theorem run_without_network `{Collaborators} `{ListSort} :
  (forall url, fst (fetch_page url) = None) ->
  fst run_all_scrapers = []
  /\ save_to_csv (fst run_all_scrapers) = Ok NoData
  /\ save_to_json (fst run_all_scrapers) = Ok NoData
  /\ get_price_comparison (fst run_all_scrapers) = Ok []
  /\ count_sources (fst run_all_scrapers) = [].
Proof.
  intros Hnone.
  assert (Hrun : fst run_all_scrapers = []).
  { unfold run_all_scrapers. rewrite run_tasks_books.
    apply concat_nil_Forall, Forall_forall. intros records Hin.
    apply in_map_iff in Hin as (t & <- & Ht).
    now apply no_fetch_no_task_records. }
  rewrite Hrun. repeat split.
Qed.

Lemma run_without_network_witness :
  (forall url, fst (fetch_page (H := offline) url) = None)
  /\ fst (run_all_scrapers (H := offline)) = []
  /\ save_to_csv (fst (run_all_scrapers (H := offline))) = Ok NoData.
Proof.
  split; [reflexivity|].
  destruct (run_without_network (H := offline) (H0 := stable_sort)
              (fun url => eq_refl))
    as (Hrun & Hcsv & _).
  split; assumption.
Defined.

(* ================================================================== *)
(** * More on the permit pool                                           *)
(* ================================================================== *)

Module PermitPoolProgressFacts.

Import PermitPool PermitPoolProgress.
Local Open Scope nat_scope.

Lemma all_returned_in_flight (s : state) :
  all_returned s = true -> in_flight s = 0.
Proof.
  unfold all_returned, in_flight. induction (fetches s) as [|p l IH]; simpl;
    [reflexivity|].
  intros Hall. apply andb_prop in Hall as [Hp Hl].
  destruct p; try discriminate. simpl. now apply IH.
Qed.

(** X27. No permit leaks: in a state a run of capacity [C] reaches in which
    every call has left [fetch_page], whether it got a text or failed, the
    semaphore holds all [C] permits again. *)
Theorem permits_all_returned (C n : nat) (schedule : list (nat * bool))
        (s : state) :
  run (init C n) schedule = Some s ->
  all_returned s = true ->
  value s = C.
Proof.
  intros Hrun Hall. apply PermitPoolFacts.run_conserves in Hrun.
  rewrite PermitPoolFacts.init_in_flight in Hrun.
  rewrite (all_returned_in_flight s Hall) in Hrun. simpl in Hrun. lia.
Qed.

Lemma permits_all_returned_witness :
  exists s,
    run (init 1 2) [(0, true); (0, false); (1, true); (1, true); (1, true);
                    (1, true)] = Some s
    /\ all_returned s = true
    /\ value s = 1.
Proof.
  eexists. split; [reflexivity|]. split; [reflexivity|].
  apply (permits_all_returned 1 2
           [(0, true); (0, false); (1, true); (1, true); (1, true); (1, true)]);
    reflexivity.
Defined.

Lemma holder_exists (l : list point) :
  List.length (filter holds_permit l) <> 0 ->
  exists i p, nth_error l i = Some p /\ holds_permit p = true.
Proof.
  induction l as [|q l IH]; simpl; [intros Hn; now contradiction Hn|].
  destruct (holds_permit q) eqn:Hq.
  - intros _. exists 0, q. auto.
  - intros Hn. destruct (IH Hn) as (i & p & Hi & Hp). exists (S i), p. auto.
Qed.

Lemma unreturned_exists (l : list point) :
  forallb returned l = false ->
  exists i p, nth_error l i = Some p /\ returned p = false.
Proof.
  induction l as [|q l IH]; simpl; [discriminate|].
  destruct (returned q) eqn:Hq.
  - simpl. intros Hn. destruct (IH Hn) as (i & p & Hi & Hp). exists (S i), p. auto.
  - intros _. exists 0, q. auto.
Qed.

Lemma step_of_advance (s : state) (i : nat) (p : point) (ok : bool)
      (v' : nat) (p' : point) :
  nth_error (fetches s) i = Some p ->
  advance (value s) p ok = Some (v', p') ->
  exists s', step s i ok = Some s'.
Proof.
  intros Hnth Hadv. unfold step. rewrite Hnth, Hadv. eexists. reflexivity.
Qed.

(** X28. With at least one permit a run never gets stuck: in every state it
    reaches in which some call has not returned, some call can be resumed.
    With no permit at all, no call ever starts. *)
Theorem fetches_make_progress (C n : nat) (schedule : list (nat * bool))
        (s : state) :
  run (init C n) schedule = Some s ->
  (1 <= C -> all_returned s = false ->
   exists i ok s', step s i ok = Some s')
  /\ (C = 0 -> schedule = []).
Proof.
  intros Hrun. split.
  - intros HC Hall. pose proof (PermitPoolFacts.run_conserves _ _ _ Hrun) as Hinv.
    rewrite PermitPoolFacts.init_in_flight in Hinv. simpl in Hinv.
    destruct (Nat.eq_dec (in_flight s) 0) as [Hzero|Hsome].
    + destruct (unreturned_exists _ Hall) as (i & p & Hi & Hp).
      assert (Hw : p = Waiting).
      { destruct p; try reflexivity; try discriminate;
          exfalso; apply nth_error_In in Hi;
          unfold in_flight in Hzero; apply length_zero_iff_nil in Hzero;
          (assert (Hin : In _ (filter holds_permit (fetches s)))
            by (apply filter_In; split; [exact Hi|reflexivity]));
          rewrite Hzero in Hin; contradiction. }
      subst p. exists i, true.
      destruct (value s) as [|v] eqn:Hv; [lia|].
      apply (step_of_advance s i Waiting true v Requesting Hi).
      simpl. now rewrite Hv.
    + destruct (holder_exists _ Hsome) as (i & p & Hi & Hp).
      exists i, false.
      destruct p; try discriminate;
        eapply (step_of_advance s i _ false); try exact Hi; reflexivity.
  - intros ->. destruct schedule as [|[i ok] rest]; [reflexivity|].
    exfalso. simpl in Hrun. unfold step in Hrun.
    destruct (nth_error (fetches (init 0 n)) i) as [p|] eqn:Hi; [|discriminate].
    unfold init in Hi. simpl in Hi. apply nth_error_In, repeat_spec in Hi.
    subst p. simpl in Hrun. discriminate.
Qed.

Lemma fetches_make_progress_witness :
  exists s,
    run (init 2 5) [(0, true); (1, true)] = Some s
    /\ all_returned s = false
    /\ exists i ok s', step s i ok = Some s'.
Proof.
  eexists. split; [reflexivity|]. split; [reflexivity|].
  apply (proj1 (fetches_make_progress 2 5 [(0, true); (1, true)] _ eq_refl));
    [lia|reflexivity].
Defined.

Lemma set_nth_rank (l : list point) (i : nat) (p p' : point) :
  nth_error l i = Some p ->
  list_sum (List.map rank (set_nth i p' l)) + rank p
  = list_sum (List.map rank l) + rank p'.
Proof.
  revert i. induction l as [|q l IH]; intros i Hnth.
  - destruct i; discriminate.
  - destruct i as [|i]; simpl in *.
    + inversion Hnth; subst. lia.
    + specialize (IH i Hnth). lia.
Qed.

Lemma step_lowers_rank (s s' : state) (i : nat) (ok : bool) :
  step s i ok = Some s' -> total_rank s' < total_rank s.
Proof.
  unfold step, total_rank.
  destruct (nth_error (fetches s) i) as [p|] eqn:Hnth; [|discriminate].
  destruct (advance (value s) p ok) as [[v' p']|] eqn:Hadv; [|discriminate].
  intros E. inversion E; subst; clear E. simpl.
  pose proof (set_nth_rank (fetches s) i p p' Hnth) as Hsum.
  assert (Hlt : rank p' < rank p).
  { destruct p, ok; simpl in Hadv; try discriminate;
      try (destruct (value s); [discriminate|]);
      inversion Hadv; subst; simpl; lia. }
  lia.
Qed.

Lemma init_rank (C n : nat) : total_rank (init C n) = 4 * n.
Proof.
  unfold total_rank, init. simpl. induction n as [|n IH]; simpl; lia.
Qed.

(** X29. A run ends: each call of [fetch_page] is resumed at most four
    times, to take the permit, for the answer, for the body and after the
    pause, so no schedule of [n] calls is longer than [4 * n] steps. *)
Theorem schedules_are_bounded (C n : nat) (schedule : list (nat * bool))
        (s : state) :
  run (init C n) schedule = Some s ->
  List.length schedule + total_rank s <= 4 * n.
Proof.
  rewrite <- (init_rank C n). generalize (init C n). intros s0.
  revert s0. induction schedule as [|[i ok] rest IH]; intros s0; simpl.
  - intros E. inversion E. lia.
  - destruct (step s0 i ok) as [s1|] eqn:Hstep; [|discriminate].
    intros Hrun. specialize (IH _ Hrun).
    apply step_lowers_rank in Hstep. lia.
Qed.

Lemma schedules_are_bounded_witness :
  exists s,
    run (init 2 5) [(0, true); (1, true); (0, false)] = Some s
    /\ 3 + total_rank s <= 4 * 5.
Proof.
  eexists. split; [reflexivity|].
  apply (schedules_are_bounded 2 5 [(0, true); (1, true); (0, false)] _ eq_refl).
Defined.

End PermitPoolProgressFacts.
